(** * The XDP interface binding layer (src/xdp/bind.c)

    A shallow embedding of the binding / lifecycle code of bind.c:
    capability validation, driver API version negotiation, the interface set
    registry, client registration, provider references and rundown.

    Conventions.
    - Kernel objects live in pools (finite maps from addresses to records);
      [ExFreePoolWithTag] deletes the address, and touching a freed address
      is a [Fault].
    - Fixed-width integers are [Z] with the wrap-around written out.
    - Calls that leave this module (provider dispatch routines, client
      callbacks, NMR open/close) are recorded in a trace; their results are
      supplied by the caller of the model.
    - [ASSERT] is compiled out of free builds and is modelled as a no-op;
      [FRE_ASSERT] is always compiled in and is modelled as a [Fault]. *)

From stdpp Require Import gmap list.
From Stdlib Require Import ZArith Lia.

Local Open Scope Z_scope.

Abbreviation handle := nat.

(** ** Machine integers and NTSTATUS *)

Definition UINT32_MAX : Z := 4294967295.
Definition LONG_MAX : Z := 2147483647.

(** Two's complement reading of a 32-bit pattern as a LONG. *)
Definition to_LONG (x : Z) : Z := (x + 2147483648) mod 4294967296 - 2147483648.

(** Truncation to ULONG / UINT32. *)
Definition to_ULONG (x : Z) : Z := x mod 4294967296.

Definition STATUS_SUCCESS : Z := 0.
Definition STATUS_NO_MEMORY : Z := to_LONG 0xC0000017.
Definition STATUS_DELETE_PENDING : Z := to_LONG 0xC0000056.
Definition STATUS_INTEGER_OVERFLOW : Z := to_LONG 0xC0000095.
Definition STATUS_NOT_SUPPORTED : Z := to_LONG 0xC00000BB.
Definition STATUS_DUPLICATE_OBJECTID : Z := to_LONG 0xC000022A.

Definition NT_SUCCESS (Status : Z) : bool := 0 <=? Status.

(** ntintsafe.h: checked UINT32 arithmetic; on overflow the result is
    UINT32_ERROR and the status is STATUS_INTEGER_OVERFLOW. *)
Definition RtlUInt32Mult (a b : Z) : Z * Z :=
  if a * b <=? UINT32_MAX then (STATUS_SUCCESS, a * b)
  else (STATUS_INTEGER_OVERFLOW, UINT32_MAX).

Definition RtlUInt32Add (a b : Z) : Z * Z :=
  if a + b <=? UINT32_MAX then (STATUS_SUCCESS, a + b)
  else (STATUS_INTEGER_OVERFLOW, UINT32_MAX).

(** InterlockedIncrement / InterlockedDecrement on a LONG return the new
    value, which wraps. *)
Definition InterlockedIncrement (x : Z) : Z := to_LONG (x + 1).
Definition InterlockedDecrement (x : Z) : Z := to_LONG (x - 1).

(** ** Constants of headers that are not part of this module *)

Class XdpConstants := {
  XDP_CAPABILITIES_EX_REVISION_1 : Z;
  XDP_SIZEOF_CAPABILITIES_EX_REVISION_1 : Z;
  XDP_DRIVER_API_MAJOR_VER : Z;
  XDP_DRIVER_API_MINOR_VER : Z;
  XDP_DRIVER_API_PATCH_VER : Z;
  XDP_BINDING_CLIENT_ID_INVALID : Z;
  sizeof_XDP_VERSION : Z;
  sizeof_XDP_HOOK_ID : Z
}.

(** ** Data model *)

Record XDP_VERSION := {
  Major : Z;
  Minor : Z;
  Patch : Z
}.

Record XDP_HOOK_ID := {
  Layer : Z;
  Direction : Z;
  SubLayer : Z
}.

Inductive XDP_INTERFACE_MODE :=
| XDP_INTERFACE_MODE_GENERIC
| XDP_INTERFACE_MODE_NATIVE.

#[global] Instance XDP_INTERFACE_MODE_eq_dec : EqDecision XDP_INTERFACE_MODE.
Proof. solve_decision. Defined.

(** Modelled from the spec: the declaration of XDP_CAPABILITIES_EX, the
    capability blob handed over by the provider, is not in bind.c.  The
    fields read by bind.c are the header, [DriverApiVersionsOffset],
    [DriverApiVersionCount] and [InstanceId]; [DriverApiVersions] is the
    memory found at [DriverApiVersionsOffset], read as an array of
    XDP_VERSION.  The blob layout of the specification also lists a hook id
    array, given here by [HookIdArrayOffset] and [HookIdArrayCount]; no
    function of bind.c reads these two fields. *)
Record XDP_CAPABILITIES_EX := {
  Header_Revision : Z;
  Header_Size : Z;
  HookIdArrayOffset : Z;
  HookIdArrayCount : Z;
  DriverApiVersionsOffset : Z;
  DriverApiVersionCount : Z;
  DriverApiVersions : list XDP_VERSION;
  InstanceId : Z
}.

(** XDP_CAPABILITIES_INTERNAL; [Hooks] is the array of [HookCount] hook ids. *)
Record XDP_CAPABILITIES_INTERNAL := {
  Mode : XDP_INTERFACE_MODE;
  Hooks : list XDP_HOOK_ID;
  CapabilitiesEx : XDP_CAPABILITIES_EX;
  CapabilitiesSize : Z
}.

(** The provider's dispatch table.  The routines are the provider's code;
    what they return is part of the table, what they do is traced. *)
Record XDP_INTERFACE_DISPATCH := {
  OpenInterface : option (option handle -> Z);
  CloseInterface : bool;
  CreateRxQueue : option handle -> handle -> Z * option handle * option handle;
  CreateTxQueue : option handle -> handle -> Z * option handle * option handle
}.

Inductive XDP_BINDING_WORKITEM :=
| DeleteWorkItem
| NmrWorkItem (nmr : handle).

Record XDP_INTERFACE := {
  IfIndex : Z;
  IfSet : option handle;
  XdpIfInterfaceContext : option handle;
  Capabilities : XDP_CAPABILITIES_INTERNAL;
  Nmr : option handle;
  DriverApiVersion : XDP_VERSION;
  InterfaceDispatch : option XDP_INTERFACE_DISPATCH;
  InterfaceContext : option handle;
  ReferenceCount : Z;
  Clients : list handle;
  ProviderReference : Z;
  Rundown : Z;
  WorkQueue : option (list XDP_BINDING_WORKITEM)
}.

Record XDP_INTERFACE_NMR := {
  NmrHandle : option handle;
  DetachNotification : bool;
  NmrReferenceCount : Z;
  WorkItem_BindingHandle : option handle
}.

Record XDP_INTERFACE_SET := {
  SetIfIndex : Z;
  XdpIfInterfaceSetContext : handle;
  Interfaces : option handle * option handle
}.

Record XDP_BINDING_CLIENT := {
  ClientId : Z;
  KeySize : Z
}.

Record XDP_BINDING_CLIENT_ENTRY := {
  Linked : bool;
  Client : option XDP_BINDING_CLIENT;
  Key : option (list Z)
}.

(** One element of the array passed to XdpIfAddInterfaces.
    [InterfaceHandle] is the content of the caller's cell
    [*AddIf->InterfaceHandle]. *)
Record XDP_ADD_INTERFACE := {
  InterfaceCapabilities : XDP_CAPABILITIES_INTERNAL;
  AddInterfaceContext : option handle;
  InterfaceHandle : option handle
}.

(** What the environment answers while an interface is opened: whether the
    pool allocation of the NMR context succeeds, what XdpOpenProvider returns
    (a status and, on success, the provider handle) and what the provider's
    XDP_GET_INTERFACE_DISPATCH routine returns for a version (a status and the
    two out parameters). *)
Record OPEN_ENV := {
  AllocateNmr : bool;
  XdpOpenProvider : Z -> Z -> Z * handle;
  GetInterfaceDispatch :
    XDP_VERSION -> Z * option handle * option XDP_INTERFACE_DISPATCH
}.

(** What the environment answers while the [Index]-th interface of a batch is
    added: whether the pool allocation of the XDP_INTERFACE succeeds and
    whether XdpCreateWorkQueue succeeds. *)
Record ADD_ENV := {
  AllocateInterface : nat -> bool;
  CreateWorkQueue : nat -> bool
}.

(** Calls that leave bind.c. *)
Inductive Event :=
| EvBindingDetached (ClientEntry : handle)
| EvOpenInterface (InterfaceContext : option handle)
| EvCloseInterface (InterfaceContext : option handle)
| EvXdpCloseProvider (NmrHandle : handle)
| EvXdpCleanupProvider (NmrHandle : handle)
| EvRemoveInterfaceComplete (XdpIfInterfaceContext : handle)
| EvXdpShutdownWorkQueue (Interface : handle)
| EvDeleteRxQueue (InterfaceRxQueue : handle)
| EvDeleteTxQueue (InterfaceTxQueue : handle).

(** The memory this module works on. *)
Record State := {
  XdpInterfaceSets : list handle;
  IfSetPool : gmap nat XDP_INTERFACE_SET;
  IfPool : gmap nat XDP_INTERFACE;
  NmrPool : gmap nat XDP_INTERFACE_NMR;
  ClientEntries : gmap nat XDP_BINDING_CLIENT_ENTRY;
  Trace : list Event
}.


(** ** Field updates *)

Definition set_IfSet (v : option handle) (I : XDP_INTERFACE) : XDP_INTERFACE :=
  {| IfIndex := IfIndex I; IfSet := v;
     XdpIfInterfaceContext := XdpIfInterfaceContext I;
     Capabilities := Capabilities I; Nmr := Nmr I;
     DriverApiVersion := DriverApiVersion I;
     InterfaceDispatch := InterfaceDispatch I;
     InterfaceContext := InterfaceContext I;
     ReferenceCount := ReferenceCount I; Clients := Clients I;
     ProviderReference := ProviderReference I; Rundown := Rundown I;
     WorkQueue := WorkQueue I |}.

Definition set_XdpIfInterfaceContext (v : option handle) (I : XDP_INTERFACE)
    : XDP_INTERFACE :=
  {| IfIndex := IfIndex I; IfSet := IfSet I;
     XdpIfInterfaceContext := v;
     Capabilities := Capabilities I; Nmr := Nmr I;
     DriverApiVersion := DriverApiVersion I;
     InterfaceDispatch := InterfaceDispatch I;
     InterfaceContext := InterfaceContext I;
     ReferenceCount := ReferenceCount I; Clients := Clients I;
     ProviderReference := ProviderReference I; Rundown := Rundown I;
     WorkQueue := WorkQueue I |}.

Definition set_Nmr (v : option handle) (I : XDP_INTERFACE) : XDP_INTERFACE :=
  {| IfIndex := IfIndex I; IfSet := IfSet I;
     XdpIfInterfaceContext := XdpIfInterfaceContext I;
     Capabilities := Capabilities I; Nmr := v;
     DriverApiVersion := DriverApiVersion I;
     InterfaceDispatch := InterfaceDispatch I;
     InterfaceContext := InterfaceContext I;
     ReferenceCount := ReferenceCount I; Clients := Clients I;
     ProviderReference := ProviderReference I; Rundown := Rundown I;
     WorkQueue := WorkQueue I |}.

Definition set_DriverApiVersion (v : XDP_VERSION) (I : XDP_INTERFACE)
    : XDP_INTERFACE :=
  {| IfIndex := IfIndex I; IfSet := IfSet I;
     XdpIfInterfaceContext := XdpIfInterfaceContext I;
     Capabilities := Capabilities I; Nmr := Nmr I;
     DriverApiVersion := v;
     InterfaceDispatch := InterfaceDispatch I;
     InterfaceContext := InterfaceContext I;
     ReferenceCount := ReferenceCount I; Clients := Clients I;
     ProviderReference := ProviderReference I; Rundown := Rundown I;
     WorkQueue := WorkQueue I |}.

(** [Interface->InterfaceContext] and [Interface->InterfaceDispatch] are
    always written together. *)
Definition set_Interface (c : option handle) (d : option XDP_INTERFACE_DISPATCH)
    (I : XDP_INTERFACE) : XDP_INTERFACE :=
  {| IfIndex := IfIndex I; IfSet := IfSet I;
     XdpIfInterfaceContext := XdpIfInterfaceContext I;
     Capabilities := Capabilities I; Nmr := Nmr I;
     DriverApiVersion := DriverApiVersion I;
     InterfaceDispatch := d;
     InterfaceContext := c;
     ReferenceCount := ReferenceCount I; Clients := Clients I;
     ProviderReference := ProviderReference I; Rundown := Rundown I;
     WorkQueue := WorkQueue I |}.

Definition set_ReferenceCount (v : Z) (I : XDP_INTERFACE) : XDP_INTERFACE :=
  {| IfIndex := IfIndex I; IfSet := IfSet I;
     XdpIfInterfaceContext := XdpIfInterfaceContext I;
     Capabilities := Capabilities I; Nmr := Nmr I;
     DriverApiVersion := DriverApiVersion I;
     InterfaceDispatch := InterfaceDispatch I;
     InterfaceContext := InterfaceContext I;
     ReferenceCount := v; Clients := Clients I;
     ProviderReference := ProviderReference I; Rundown := Rundown I;
     WorkQueue := WorkQueue I |}.

Definition set_Clients (v : list handle) (I : XDP_INTERFACE) : XDP_INTERFACE :=
  {| IfIndex := IfIndex I; IfSet := IfSet I;
     XdpIfInterfaceContext := XdpIfInterfaceContext I;
     Capabilities := Capabilities I; Nmr := Nmr I;
     DriverApiVersion := DriverApiVersion I;
     InterfaceDispatch := InterfaceDispatch I;
     InterfaceContext := InterfaceContext I;
     ReferenceCount := ReferenceCount I; Clients := v;
     ProviderReference := ProviderReference I; Rundown := Rundown I;
     WorkQueue := WorkQueue I |}.

Definition set_ProviderReference (v : Z) (I : XDP_INTERFACE) : XDP_INTERFACE :=
  {| IfIndex := IfIndex I; IfSet := IfSet I;
     XdpIfInterfaceContext := XdpIfInterfaceContext I;
     Capabilities := Capabilities I; Nmr := Nmr I;
     DriverApiVersion := DriverApiVersion I;
     InterfaceDispatch := InterfaceDispatch I;
     InterfaceContext := InterfaceContext I;
     ReferenceCount := ReferenceCount I; Clients := Clients I;
     ProviderReference := v; Rundown := Rundown I;
     WorkQueue := WorkQueue I |}.

Definition set_Rundown (v : Z) (I : XDP_INTERFACE) : XDP_INTERFACE :=
  {| IfIndex := IfIndex I; IfSet := IfSet I;
     XdpIfInterfaceContext := XdpIfInterfaceContext I;
     Capabilities := Capabilities I; Nmr := Nmr I;
     DriverApiVersion := DriverApiVersion I;
     InterfaceDispatch := InterfaceDispatch I;
     InterfaceContext := InterfaceContext I;
     ReferenceCount := ReferenceCount I; Clients := Clients I;
     ProviderReference := ProviderReference I; Rundown := v;
     WorkQueue := WorkQueue I |}.

Definition set_WorkQueue (v : option (list XDP_BINDING_WORKITEM))
    (I : XDP_INTERFACE) : XDP_INTERFACE :=
  {| IfIndex := IfIndex I; IfSet := IfSet I;
     XdpIfInterfaceContext := XdpIfInterfaceContext I;
     Capabilities := Capabilities I; Nmr := Nmr I;
     DriverApiVersion := DriverApiVersion I;
     InterfaceDispatch := InterfaceDispatch I;
     InterfaceContext := InterfaceContext I;
     ReferenceCount := ReferenceCount I; Clients := Clients I;
     ProviderReference := ProviderReference I; Rundown := Rundown I;
     WorkQueue := v |}.

(** The anonymous union of XDP_INTERFACE: the byte [Rundown] overlays the
    bit-fields [BindingDeleting] (bit 0) and [NmrDeleting] (bit 1). *)
Definition BindingDeleting (I : XDP_INTERFACE) : bool := Z.testbit (Rundown I) 0.
Definition NmrDeleting (I : XDP_INTERFACE) : bool := Z.testbit (Rundown I) 1.

Definition set_BindingDeleting (b : bool) (I : XDP_INTERFACE) : XDP_INTERFACE :=
  set_Rundown (if b then Z.lor (Rundown I) 1 else Z.land (Rundown I) 254) I.

Definition set_NmrDeleting (b : bool) (I : XDP_INTERFACE) : XDP_INTERFACE :=
  set_Rundown (if b then Z.lor (Rundown I) 2 else Z.land (Rundown I) 253) I.

Definition set_NmrHandle (v : option handle) (N : XDP_INTERFACE_NMR)
    : XDP_INTERFACE_NMR :=
  {| NmrHandle := v; DetachNotification := DetachNotification N;
     NmrReferenceCount := NmrReferenceCount N;
     WorkItem_BindingHandle := WorkItem_BindingHandle N |}.

Definition set_DetachNotification (v : bool) (N : XDP_INTERFACE_NMR)
    : XDP_INTERFACE_NMR :=
  {| NmrHandle := NmrHandle N; DetachNotification := v;
     NmrReferenceCount := NmrReferenceCount N;
     WorkItem_BindingHandle := WorkItem_BindingHandle N |}.

Definition set_NmrReferenceCount (v : Z) (N : XDP_INTERFACE_NMR)
    : XDP_INTERFACE_NMR :=
  {| NmrHandle := NmrHandle N; DetachNotification := DetachNotification N;
     NmrReferenceCount := v;
     WorkItem_BindingHandle := WorkItem_BindingHandle N |}.

Definition set_WorkItem_BindingHandle (v : option handle)
    (N : XDP_INTERFACE_NMR) : XDP_INTERFACE_NMR :=
  {| NmrHandle := NmrHandle N; DetachNotification := DetachNotification N;
     NmrReferenceCount := NmrReferenceCount N;
     WorkItem_BindingHandle := v |}.

Definition set_Linked (v : bool) (E : XDP_BINDING_CLIENT_ENTRY)
    : XDP_BINDING_CLIENT_ENTRY :=
  {| Linked := v; Client := Client E; Key := Key E |}.

Definition set_InterfaceHandle (v : option handle) (A : XDP_ADD_INTERFACE)
    : XDP_ADD_INTERFACE :=
  {| InterfaceCapabilities := InterfaceCapabilities A;
     AddInterfaceContext := AddInterfaceContext A;
     InterfaceHandle := v |}.

Definition slot (Mode : XDP_INTERFACE_MODE) (S : XDP_INTERFACE_SET)
    : option handle :=
  match Mode with
  | XDP_INTERFACE_MODE_GENERIC => fst (Interfaces S)
  | XDP_INTERFACE_MODE_NATIVE => snd (Interfaces S)
  end.

Definition set_slot (Mode : XDP_INTERFACE_MODE) (v : option handle)
    (S : XDP_INTERFACE_SET) : XDP_INTERFACE_SET :=
  {| SetIfIndex := SetIfIndex S;
     XdpIfInterfaceSetContext := XdpIfInterfaceSetContext S;
     Interfaces :=
       match Mode with
       | XDP_INTERFACE_MODE_GENERIC => (v, snd (Interfaces S))
       | XDP_INTERFACE_MODE_NATIVE => (fst (Interfaces S), v)
       end |}.

Definition with_sets (v : list handle) (s : State) : State :=
  {| XdpInterfaceSets := v; IfSetPool := IfSetPool s; IfPool := IfPool s;
     NmrPool := NmrPool s; ClientEntries := ClientEntries s; Trace := Trace s |}.

Definition with_ifsets (v : gmap nat XDP_INTERFACE_SET) (s : State) : State :=
  {| XdpInterfaceSets := XdpInterfaceSets s; IfSetPool := v; IfPool := IfPool s;
     NmrPool := NmrPool s; ClientEntries := ClientEntries s; Trace := Trace s |}.

Definition with_ifs (v : gmap nat XDP_INTERFACE) (s : State) : State :=
  {| XdpInterfaceSets := XdpInterfaceSets s; IfSetPool := IfSetPool s;
     IfPool := v; NmrPool := NmrPool s; ClientEntries := ClientEntries s;
     Trace := Trace s |}.

Definition with_nmrs (v : gmap nat XDP_INTERFACE_NMR) (s : State) : State :=
  {| XdpInterfaceSets := XdpInterfaceSets s; IfSetPool := IfSetPool s;
     IfPool := IfPool s; NmrPool := v; ClientEntries := ClientEntries s;
     Trace := Trace s |}.

Definition with_entries (v : gmap nat XDP_BINDING_CLIENT_ENTRY) (s : State)
    : State :=
  {| XdpInterfaceSets := XdpInterfaceSets s; IfSetPool := IfSetPool s;
     IfPool := IfPool s; NmrPool := NmrPool s; ClientEntries := v;
     Trace := Trace s |}.

Definition with_trace (v : list Event) (s : State) : State :=
  {| XdpInterfaceSets := XdpInterfaceSets s; IfSetPool := IfSetPool s;
     IfPool := IfPool s; NmrPool := NmrPool s;
     ClientEntries := ClientEntries s; Trace := v |}.

(** ** The monad of the control path: state and faults *)

Inductive Fault :=
| InvalidAccess   (* a NULL or freed pointer is dereferenced *)
| FreAssert       (* a FRE_ASSERT fails *)
| OutOfFuel.      (* the loop bound of the model is exhausted *)

Inductive outcome (A : Type) :=
| Done (a : A) (s : State)
| Stop (f : Fault).
Arguments Done {A} a s.
Arguments Stop {A} f.

Definition M (A : Type) : Type := State -> outcome A.

#[global] Instance M_ret : MRet M := fun A a s => Done a s.
#[global] Instance M_bind : MBind M := fun A B f m s =>
  match m s with
  | Done a s' => f a s'
  | Stop e => Stop e
  end.

Definition fault {A} (f : Fault) : M A := fun _ => Stop f.
Definition trace (e : Event) : M unit :=
  fun s => Done tt (with_trace (Trace s ++ [e]) s).

Definition get_if (h : handle) : M XDP_INTERFACE := fun s =>
  match IfPool s !! h with
  | Some Interface => Done Interface s
  | None => Stop InvalidAccess
  end.

Definition modify_if (h : handle) (f : XDP_INTERFACE -> XDP_INTERFACE) : M unit :=
  fun s =>
  match IfPool s !! h with
  | Some Interface => Done tt (with_ifs (<[h := f Interface]> (IfPool s)) s)
  | None => Stop InvalidAccess
  end.

Definition get_nmr (n : handle) : M XDP_INTERFACE_NMR := fun s =>
  match NmrPool s !! n with
  | Some N => Done N s
  | None => Stop InvalidAccess
  end.

Definition modify_nmr (n : handle) (f : XDP_INTERFACE_NMR -> XDP_INTERFACE_NMR)
    : M unit := fun s =>
  match NmrPool s !! n with
  | Some N => Done tt (with_nmrs (<[n := f N]> (NmrPool s)) s)
  | None => Stop InvalidAccess
  end.

Definition get_entry (e : handle) : M XDP_BINDING_CLIENT_ENTRY := fun s =>
  match ClientEntries s !! e with
  | Some E => Done E s
  | None => Stop InvalidAccess
  end.

Definition modify_entry (e : handle)
    (f : XDP_BINDING_CLIENT_ENTRY -> XDP_BINDING_CLIENT_ENTRY) : M unit :=
  fun s =>
  match ClientEntries s !! e with
  | Some E => Done tt (with_entries (<[e := f E]> (ClientEntries s)) s)
  | None => Stop InvalidAccess
  end.

(** ExAllocatePoolZero returns an address that is not in use. *)
Definition alloc_if (I : XDP_INTERFACE) : M handle := fun s =>
  let h := fresh (dom (IfPool s)) in
  Done h (with_ifs (<[h := I]> (IfPool s)) s).

Definition alloc_nmr (N : XDP_INTERFACE_NMR) : M handle := fun s =>
  let n := fresh (dom (NmrPool s)) in
  Done n (with_nmrs (<[n := N]> (NmrPool s)) s).

(** ExFreePoolWithTag. *)
Definition free_if (h : handle) : M unit := fun s =>
  match IfPool s !! h with
  | Some _ => Done tt (with_ifs (delete h (IfPool s)) s)
  | None => Stop InvalidAccess
  end.

Definition free_nmr (n : handle) : M unit := fun s =>
  match NmrPool s !! n with
  | Some _ => Done tt (with_nmrs (delete n (NmrPool s)) s)
  | None => Stop InvalidAccess
  end.

Definition get_ifset (h : handle) : M XDP_INTERFACE_SET := fun s =>
  match IfSetPool s !! h with
  | Some IfSet => Done IfSet s
  | None => Stop InvalidAccess
  end.

Definition modify_ifset (h : handle) (f : XDP_INTERFACE_SET -> XDP_INTERFACE_SET)
    : M unit := fun s =>
  match IfSetPool s !! h with
  | Some IfSet => Done tt (with_ifsets (<[h := f IfSet]> (IfSetPool s)) s)
  | None => Stop InvalidAccess
  end.

(** ** Capability validation *)

Section Bind.
Context {K : XdpConstants}.

Definition XdpValidateCapabilitiesEx
    (CapabilitiesEx : XDP_CAPABILITIES_EX) (TotalSize : Z) : bool :=
  if (Header_Revision CapabilitiesEx <? XDP_CAPABILITIES_EX_REVISION_1) ||
     (Header_Size CapabilitiesEx <? XDP_SIZEOF_CAPABILITIES_EX_REVISION_1)
  then false
  else
    let '(Status, Size) :=
      RtlUInt32Mult (DriverApiVersionCount CapabilitiesEx) sizeof_XDP_VERSION in
    if negb (NT_SUCCESS Status) then false
    else
      let '(Status, Size) :=
        RtlUInt32Add (DriverApiVersionsOffset CapabilitiesEx) Size in
      if negb (NT_SUCCESS Status) then false
      else Size <=? TotalSize.

(** ** Version negotiation *)

Definition XdpDriverApiCurrentVersion : XDP_VERSION :=
  {| Major := XDP_DRIVER_API_MAJOR_VER;
     Minor := XDP_DRIVER_API_MINOR_VER;
     Patch := XDP_DRIVER_API_PATCH_VER |}.

Definition XdpVersionIsSupported
    (Version MinimumSupportedVersion : XDP_VERSION) : bool :=
  (Major Version =? Major MinimumSupportedVersion) &&
  (Minor MinimumSupportedVersion <=? Minor Version) &&
  (Patch MinimumSupportedVersion <=? Patch Version).


Fixpoint XdpRequestClientDispatch_for
    (Get : XDP_VERSION -> Z * option handle * option XDP_INTERFACE_DISPATCH)
    (DriverApiVersions : list XDP_VERSION) (Status : Z)
    (out : option handle * option XDP_INTERFACE_DISPATCH)
    (Interface : XDP_INTERFACE)
    : Z * (option handle * option XDP_INTERFACE_DISPATCH) * XDP_INTERFACE :=
  match DriverApiVersions with
  | [] => (Status, out, Interface)
  | ClientVersion :: rest =>
      if XdpVersionIsSupported XdpDriverApiCurrentVersion ClientVersion then
        let '(Status', ctx, disp) := Get ClientVersion in
        if NT_SUCCESS Status' then
          (Status', (ctx, disp), set_DriverApiVersion ClientVersion Interface)
        else
          XdpRequestClientDispatch_for Get rest STATUS_NOT_SUPPORTED
            (ctx, disp) Interface
      else XdpRequestClientDispatch_for Get rest Status out Interface
  end.

(** Returns the status, the out parameters [*InterfaceContext] and
    [*InterfaceDispatch], and the updated interface. *)
Definition XdpRequestClientDispatch
    (ClientCapabilitiesEx : XDP_CAPABILITIES_EX)
    (Get : XDP_VERSION -> Z * option handle * option XDP_INTERFACE_DISPATCH)
    (Interface : XDP_INTERFACE)
    : Z * (option handle * option XDP_INTERFACE_DISPATCH) * XDP_INTERFACE :=
  XdpRequestClientDispatch_for Get
    (take (Z.to_nat (DriverApiVersionCount ClientCapabilitiesEx))
       (DriverApiVersions ClientCapabilitiesEx))
    STATUS_NOT_SUPPORTED (None, None) Interface.

(** ** Reference counting *)

Definition XdpIfpReferenceInterface (Interface : handle) : M unit :=
  modify_if Interface
    (fun X => set_ReferenceCount (InterlockedIncrement (ReferenceCount X)) X).

Definition XdpIfpDereferenceInterface (Interface : handle) : M unit :=
  X ← get_if Interface;
  let Count := InterlockedDecrement (ReferenceCount X) in
  modify_if Interface (set_ReferenceCount Count);;
  if Count =? 0 then
    (if WorkQueue X is Some _ then trace (EvXdpShutdownWorkQueue Interface) else mret tt);;
    free_if Interface
  else mret tt.

Definition XdpIfDereferenceBinding (BindingHandle : handle) : M unit :=
  XdpIfpDereferenceInterface BindingHandle.

Definition XdpIfpDereferenceNmr (nmr : handle) : M unit :=
  N ← get_nmr nmr;
  let Count := to_ULONG (NmrReferenceCount N - 1) in
  modify_nmr nmr (set_NmrReferenceCount Count);;
  if Count =? 0 then free_nmr nmr else mret tt.

Definition XdpIfQueueWorkItem (BindingHandle : handle)
    (WorkItem : XDP_BINDING_WORKITEM) : M unit :=
  XdpIfpReferenceInterface BindingHandle;;
  X ← get_if BindingHandle;
  match WorkQueue X with
  | Some q => modify_if BindingHandle (set_WorkQueue (Some (q ++ [WorkItem])))
  | None => fault InvalidAccess
  end.

(** ** Provider attachment (NMR) *)

(** The detach notification, called by the provider. *)
Definition XdpIfpDetachNmrInterface (ProviderContext : handle) : M unit :=
  N ← get_nmr ProviderContext;
  match WorkItem_BindingHandle N with
  | None => fault InvalidAccess
  | Some Interface =>
      modify_nmr ProviderContext (set_DetachNotification true);;
      XdpIfQueueWorkItem Interface (NmrWorkItem ProviderContext);;
      XdpIfpDereferenceInterface Interface
  end.

(** Modelled from the spec: XdpCloseProvider and the wait for the detach
    notification are not in bind.c.  Closing the attachment from the consumer
    side blocks until the detach notification has been observed: if the
    provider has not yet called [XdpIfpDetachNmrInterface] for this
    attachment, it does so before KeWaitForSingleObject returns. *)
Definition XdpIfpCloseNmrInterface (Interface : handle) : M unit :=
  X ← get_if Interface;
  match Nmr X with
  | None => fault InvalidAccess
  | Some nmr =>
      N ← get_nmr nmr;
      match NmrHandle N with
      | None => fault InvalidAccess
      | Some ProviderHandle =>
          trace (EvXdpCloseProvider ProviderHandle);;
          (if DetachNotification N then mret tt
           else XdpIfpDetachNmrInterface nmr);;
          trace (EvXdpCleanupProvider ProviderHandle);;
          modify_nmr nmr (set_NmrHandle None);;
          modify_if Interface (set_Nmr None);;
          XdpIfpDereferenceNmr nmr
      end
  end.

Definition XdpIfpInvokeCloseInterface (Interface : handle) : M unit :=
  X ← get_if Interface;
  match InterfaceDispatch X with
  | None => fault InvalidAccess
  | Some Dispatch =>
      if CloseInterface Dispatch
      then trace (EvCloseInterface (InterfaceContext X))
      else mret tt
  end.

(** The three if blocks of XdpIfpCloseInterface, in order. *)
Definition XdpIfpCloseInterface_context (Interface : handle) : M unit :=
  X ← get_if Interface;
  if InterfaceContext X is Some _ then
    XdpIfpInvokeCloseInterface Interface;;
    modify_if Interface (set_Interface None None)
  else mret tt.

Definition XdpIfpCloseInterface_nmr (Interface : handle) : M unit :=
  X ← get_if Interface;
  if Nmr X is Some _ then
    XdpIfpCloseNmrInterface Interface;;
    modify_if Interface (set_NmrDeleting false)
  else mret tt.

Definition XdpIfpCloseInterface_complete (Interface : handle) : M unit :=
  X ← get_if Interface;
  match XdpIfInterfaceContext X with
  | Some Context =>
      if BindingDeleting X then
        trace (EvRemoveInterfaceComplete Context);;
        modify_if Interface (set_XdpIfInterfaceContext None)
      else mret tt
  | None => mret tt
  end.

Definition XdpIfpCloseInterface (Interface : handle) : M unit :=
  XdpIfpCloseInterface_context Interface;;
  XdpIfpCloseInterface_nmr Interface;;
  XdpIfpCloseInterface_complete Interface.

Definition XdpIfpInvokeOpenInterface (Interface : handle)
    (InterfaceContext : option handle)
    (InterfaceDispatch : option XDP_INTERFACE_DISPATCH) : M Z :=
  match InterfaceDispatch with
  | None => fault InvalidAccess
  | Some Dispatch =>
      match OpenInterface Dispatch with
      | Some Open =>
          trace (EvOpenInterface InterfaceContext);;
          mret (Open InterfaceContext)
      | None => mret STATUS_SUCCESS
      end
  end.

(** XdpIfpOpenInterface up to its Exit label: the status there. *)
Definition XdpIfpOpenInterface_body (env : OPEN_ENV) (Interface : handle) : M Z :=
  X ← get_if Interface;
  let CapabilitiesEx := CapabilitiesEx (Capabilities X) in
  if (Header_Revision CapabilitiesEx <? XDP_CAPABILITIES_EX_REVISION_1) ||
     (Header_Size CapabilitiesEx <? XDP_SIZEOF_CAPABILITIES_EX_REVISION_1)
  then mret STATUS_NOT_SUPPORTED
  else if negb (AllocateNmr env) then
    modify_if Interface (set_Nmr None);;
    mret STATUS_NO_MEMORY
  else
    nmr ← alloc_nmr {| NmrHandle := None; DetachNotification := false;
                       NmrReferenceCount := 0;
                       WorkItem_BindingHandle := None |};
    modify_if Interface (set_Nmr (Some nmr));;
    XdpIfpReferenceInterface Interface;;
    modify_nmr nmr (set_NmrReferenceCount 2);;
    modify_nmr nmr (set_WorkItem_BindingHandle (Some Interface));;
    modify_nmr nmr (set_DetachNotification false);;
    let '(Status, ProviderHandle) :=
      XdpOpenProvider env (IfIndex X) (InstanceId CapabilitiesEx) in
    if negb (NT_SUCCESS Status) then mret Status
    else
      modify_nmr nmr (set_NmrHandle (Some ProviderHandle));;
      X ← get_if Interface;
      let '(Status, (Context, Dispatch), X') :=
        XdpRequestClientDispatch CapabilitiesEx
          (GetInterfaceDispatch env) X in
      modify_if Interface (fun _ => X');;
      if negb (NT_SUCCESS Status) then mret Status
      else
        modify_if Interface (set_Interface Context Dispatch);;
        Status ← XdpIfpInvokeOpenInterface Interface Context Dispatch;
        if negb (NT_SUCCESS Status) then mret Status
        else mret STATUS_SUCCESS.

(** The code under the Exit label of XdpIfpOpenInterface. *)
Definition XdpIfpOpenInterface_exit (Interface : handle) (Status : Z) : M unit :=
  if negb (NT_SUCCESS Status) then
    X ← get_if Interface;
    match Nmr X with
    | Some nmr =>
        N ← get_nmr nmr;
        (if NmrHandle N is Some _ then XdpIfpCloseInterface Interface
         else
           XdpIfpDereferenceInterface Interface;;
           X ← get_if Interface;
           match Nmr X with
           | Some nmr => free_nmr nmr
           | None => fault InvalidAccess
           end);;
        modify_if Interface (set_Nmr None)
    | None => mret tt
    end
  else mret tt.

Definition XdpIfpOpenInterface (env : OPEN_ENV) (Interface : handle) : M Z :=
  Status ← XdpIfpOpenInterface_body env Interface;
  XdpIfpOpenInterface_exit Interface Status;;
  mret Status.

(** ** Lookup *)

Fixpoint XdpIfpFindIfSet_while (IfIndex : Z) (Entry : list handle)
    : M (option handle) :=
  match Entry with
  | [] => mret None
  | Candidate :: Flink =>
      C ← get_ifset Candidate;
      if SetIfIndex C =? IfIndex then mret (Some Candidate)
      else XdpIfpFindIfSet_while IfIndex Flink
  end.

Definition XdpIfpFindIfSet (IfIndex : Z) : M (option handle) :=
  fun s => XdpIfpFindIfSet_while IfIndex (XdpInterfaceSets s) s.

Fixpoint XdpIfSupportsHookId_for (Hooks : list XDP_HOOK_ID) (Target : XDP_HOOK_ID)
    : bool :=
  match Hooks with
  | [] => false
  | Candidate :: rest =>
      if (Layer Target =? Layer Candidate) &&
         (Direction Target =? Direction Candidate) &&
         (SubLayer Target =? SubLayer Candidate)
      then true
      else XdpIfSupportsHookId_for rest Target
  end.

Definition XdpIfSupportsHookId (Capabilities : XDP_CAPABILITIES_INTERNAL)
    (Target : XDP_HOOK_ID) : bool :=
  XdpIfSupportsHookId_for (Hooks Capabilities) Target.

Fixpoint XdpIfpSupportsHookIds (Capabilities : XDP_CAPABILITIES_INTERNAL)
    (TargetIds : list XDP_HOOK_ID) : bool :=
  match TargetIds with
  | [] => true
  | Target :: rest =>
      if negb (XdpIfSupportsHookId Capabilities Target) then false
      else XdpIfpSupportsHookIds Capabilities rest
  end.

(** The body of the loop over the two modes: the new value of [Interface]. *)
Definition XdpIfpFindInterface_body (IfSet : XDP_INTERFACE_SET)
    (HookIds : list XDP_HOOK_ID) (RequiredMode : option XDP_INTERFACE_MODE)
    (Mode : XDP_INTERFACE_MODE) (Interface : option handle) : M (option handle) :=
  match slot Mode IfSet with
  | None => mret Interface
  | Some CandidateIf =>
      if match RequiredMode with
         | Some Required => negb (bool_decide (Required = Mode))
         | None => false
         end
      then mret Interface
      else
        C ← get_if CandidateIf;
        if negb (XdpIfpSupportsHookIds (Capabilities C) HookIds)
        then mret Interface
        else mret (Some CandidateIf)
  end.

Definition XdpIfpFindInterface (IfIndex : Z) (HookIds : list XDP_HOOK_ID)
    (RequiredMode : option XDP_INTERFACE_MODE) : M (option handle) :=
  Found ← XdpIfpFindIfSet IfIndex;
  match Found with
  | None => mret None
  | Some IfSet =>
      IfSet ← get_ifset IfSet;
      Interface ← XdpIfpFindInterface_body IfSet HookIds RequiredMode
                    XDP_INTERFACE_MODE_GENERIC None;
      XdpIfpFindInterface_body IfSet HookIds RequiredMode
        XDP_INTERFACE_MODE_NATIVE Interface
  end.

Definition XdpIfFindAndReferenceBinding (IfIndex : Z)
    (HookIds : list XDP_HOOK_ID) (RequiredMode : option XDP_INTERFACE_MODE)
    : M (option handle) :=
  Interface ← XdpIfpFindInterface IfIndex HookIds RequiredMode;
  match Interface with
  | Some h => XdpIfpReferenceInterface h;; mret (Some h)
  | None => mret None
  end.

(** ** Rundown *)

(** RemoveEntryList on a list without repetition. *)
Fixpoint RemoveEntryList (Entry : handle) (List : list handle) : list handle :=
  match List with
  | [] => []
  | x :: rest =>
      if bool_decide (x = Entry) then rest else x :: RemoveEntryList Entry rest
  end.

(** The while loop of XdpIfpStartRundown; [fuel] bounds the number of
    iterations. *)
Fixpoint XdpIfpStartRundown_while (fuel : nat) (Interface : handle) : M unit :=
  X ← get_if Interface;
  match Clients X with
  | [] => mret tt
  | ClientEntry :: _ =>
      match fuel with
      | O => fault OutOfFuel
      | S fuel' =>
          modify_if Interface
            (fun X => set_Clients (RemoveEntryList ClientEntry (Clients X)) X);;
          modify_entry ClientEntry (set_Linked false);;
          trace (EvBindingDetached ClientEntry);;
          XdpIfpDereferenceInterface Interface;;
          XdpIfpStartRundown_while fuel' Interface
      end
  end.

Definition XdpIfpStartRundown (fuel : nat) (Interface : handle) : M unit :=
  X ← get_if Interface;
  (if ProviderReference X =? 0 then XdpIfpCloseInterface Interface
   else mret tt);;
  XdpIfpStartRundown_while fuel Interface.

Definition XdpIfpInterfaceDelete (fuel : nat) (Interface : handle) : M unit :=
  modify_if Interface (set_BindingDeleting true);;
  XdpIfpStartRundown fuel Interface;;
  XdpIfpDereferenceInterface Interface.

Definition XdpIfpInterfaceNmrDelete (fuel : nat) (nmr : handle) : M unit :=
  N ← get_nmr nmr;
  match WorkItem_BindingHandle N with
  | None => fault InvalidAccess
  | Some Interface =>
      (if NmrHandle N is Some _ then
         modify_if Interface (set_NmrDeleting true);;
         XdpIfpStartRundown fuel Interface
       else mret tt);;
      XdpIfpDereferenceNmr nmr
  end.

(** The worker runs the items of one binding in order; every item owns one
    reference to the binding, released after its routine has run. *)
Fixpoint XdpIfpInterfaceWorker (fuel : nat) (Interface : handle)
    (WorkQueueHead : list XDP_BINDING_WORKITEM) : M unit :=
  match WorkQueueHead with
  | [] => mret tt
  | Item :: Next =>
      match Item with
      | DeleteWorkItem => XdpIfpInterfaceDelete fuel Interface
      | NmrWorkItem nmr => XdpIfpInterfaceNmrDelete fuel nmr
      end;;
      XdpIfpDereferenceInterface Interface;;
      XdpIfpInterfaceWorker fuel Interface Next
  end.


(** ** The interface set registry *)

Definition XdpIfCreateInterfaceSet (AllocateIfSet : bool) (IfIndex : Z)
    (InterfaceSetContext : handle) : M (Z * option handle) :=
  Found ← XdpIfpFindIfSet IfIndex;
  if Found is Some _ then mret (STATUS_DUPLICATE_OBJECTID, None)
  else if negb AllocateIfSet then mret (STATUS_NO_MEMORY, None)
  else fun s =>
    let IfSet := fresh (dom (IfSetPool s)) in
    Done (STATUS_SUCCESS, Some IfSet)
      (with_sets (XdpInterfaceSets s ++ [IfSet])
         (with_ifsets
            (<[IfSet := {| SetIfIndex := IfIndex;
                           XdpIfInterfaceSetContext := InterfaceSetContext;
                           Interfaces := (None, None) |}]> (IfSetPool s)) s)).

Definition XdpIfDeleteInterfaceSet (InterfaceSetHandle : handle) : M unit :=
  IfSet ← get_ifset InterfaceSetHandle;
  match Interfaces IfSet with
  | (None, None) =>
      fun s =>
        Done tt
          (with_sets
             (filter (fun p => p ≠ InterfaceSetHandle) (XdpInterfaceSets s))
             (with_ifsets (delete InterfaceSetHandle (IfSetPool s)) s))
  | _ => fault FreAssert
  end.

(** The first loop of XdpIfAddInterfaces, from element [Index] on: the status
    at the Exit label and the elements with their handle cells. *)
Fixpoint XdpIfAddInterfaces_for (env : ADD_ENV) (InterfaceSetHandle : handle)
    (Index : nat) (Interfaces : list XDP_ADD_INTERFACE)
    : M (Z * list XDP_ADD_INTERFACE) :=
  match Interfaces with
  | [] => mret (STATUS_SUCCESS, [])
  | AddIf :: rest =>
      if negb (XdpValidateCapabilitiesEx
                 (CapabilitiesEx (InterfaceCapabilities AddIf))
                 (CapabilitiesSize (InterfaceCapabilities AddIf)))
      then mret (STATUS_NOT_SUPPORTED, Interfaces)
      else if negb (AllocateInterface env Index)
      then mret (STATUS_NO_MEMORY, Interfaces)
      else
        IfSet ← get_ifset InterfaceSetHandle;
        Interface ← alloc_if
          {| IfIndex := SetIfIndex IfSet;
             IfSet := Some InterfaceSetHandle;
             XdpIfInterfaceContext := AddInterfaceContext AddIf;
             Capabilities := InterfaceCapabilities AddIf;
             Nmr := None;
             DriverApiVersion := {| Major := 0; Minor := 0; Patch := 0 |};
             InterfaceDispatch := None;
             InterfaceContext := None;
             ReferenceCount := 1;
             Clients := [];
             ProviderReference := 0;
             Rundown := 0;
             WorkQueue := None |};
        if negb (CreateWorkQueue env Index) then
          free_if Interface;;
          mret (STATUS_NO_MEMORY, Interfaces)
        else
          modify_if Interface (set_WorkQueue (Some []));;
          modify_ifset InterfaceSetHandle
            (set_slot (Mode (InterfaceCapabilities AddIf)) (Some Interface));;
          '(Status, rest') ←
            XdpIfAddInterfaces_for env InterfaceSetHandle (S Index) rest;
          mret (Status, set_InterfaceHandle (Some Interface) AddIf :: rest')
  end.

(** The loop under the Exit label. *)
Fixpoint XdpIfAddInterfaces_unwind (InterfaceSetHandle : handle)
    (Interfaces : list XDP_ADD_INTERFACE) : M (list XDP_ADD_INTERFACE) :=
  match Interfaces with
  | [] => mret []
  | AddIf :: rest =>
      match InterfaceHandle AddIf with
      | Some Interface =>
          X ← get_if Interface;
          modify_ifset InterfaceSetHandle (set_slot (Mode (Capabilities X)) None);;
          XdpIfpDereferenceInterface Interface;;
          rest' ← XdpIfAddInterfaces_unwind InterfaceSetHandle rest;
          mret (set_InterfaceHandle None AddIf :: rest')
      | None =>
          rest' ← XdpIfAddInterfaces_unwind InterfaceSetHandle rest;
          mret (AddIf :: rest')
      end
  end.

Definition XdpIfAddInterfaces (env : ADD_ENV) (InterfaceSetHandle : handle)
    (Interfaces : list XDP_ADD_INTERFACE) : M (Z * list XDP_ADD_INTERFACE) :=
  _ ← get_ifset InterfaceSetHandle;
  '(Status, Interfaces) ←
    XdpIfAddInterfaces_for env InterfaceSetHandle 0 Interfaces;
  if negb (NT_SUCCESS Status) then
    Interfaces ← XdpIfAddInterfaces_unwind InterfaceSetHandle Interfaces;
    mret (Status, Interfaces)
  else mret (Status, Interfaces).

Fixpoint XdpIfRemoveInterfaces (Interfaces : list handle) : M unit :=
  match Interfaces with
  | [] => mret tt
  | Interface :: rest =>
      X ← get_if Interface;
      match IfSet X with
      | None => fault InvalidAccess
      | Some IfSet =>
          modify_ifset IfSet (set_slot (Mode (Capabilities X)) None);;
          modify_if Interface (set_IfSet None);;
          XdpIfQueueWorkItem Interface DeleteWorkItem;;
          XdpIfRemoveInterfaces rest
      end
  end.

(** ** Client registration *)

Definition XdpIfInitializeClientEntry (ClientEntry : handle) : M unit :=
  modify_entry ClientEntry
    (fun _ => {| Linked := false; Client := None; Key := None |}).

(** RtlEqualMemory on the first [Length] bytes of two buffers. *)
Definition RtlEqualMemory (a b : list Z) (Length : Z) : bool :=
  bool_decide (take (Z.to_nat Length) a = take (Z.to_nat Length) b).

(** The test against one linked entry: same client id and same key bytes. *)
Definition same_client (Candidate : XDP_BINDING_CLIENT_ENTRY)
    (client : XDP_BINDING_CLIENT) (key : list Z) : M bool :=
  match Client Candidate, Key Candidate with
  | Some CandidateClient, Some CandidateKey =>
      mret ((ClientId CandidateClient =? ClientId client) &&
            RtlEqualMemory CandidateKey key (KeySize client))
  | _, _ => fault InvalidAccess
  end.

(** The duplicate scan of XdpIfRegisterClient: [true] when the loop leaves
    through its return statement. *)
Fixpoint XdpIfRegisterClient_while (Entry : list handle)
    (client : XDP_BINDING_CLIENT) (key : list Z) : M bool :=
  match Entry with
  | [] => mret false
  | Candidate :: Flink =>
      C ← get_entry Candidate;
      IsSame ← same_client C client key;
      if (IsSame : bool) then mret true
      else XdpIfRegisterClient_while Flink client key
  end.

(** InsertTailList is modelled for an entry whose link is empty, the state
    XdpIfInitializeClientEntry, XdpIfDeregisterClient and the rundown leave
    it in: the entry becomes the tail of the client list.  On an entry that
    is still on a list the C routine overwrites the entry's links and the
    list it was on is no longer well formed; a list of handles does not
    represent that, so the model is faithful for entries that are not on a
    list. *)
Definition XdpIfRegisterClient (BindingHandle : handle)
    (client : XDP_BINDING_CLIENT) (key : option (list Z)) (ClientEntry : handle)
    : M Z :=
  if ClientId client =? XDP_BINDING_CLIENT_ID_INVALID then fault FreAssert
  else if negb (0 <? KeySize client) then fault FreAssert
  else
    match key with
    | None => fault FreAssert
    | Some key =>
        X ← get_if BindingHandle;
        if BindingDeleting X then mret STATUS_DELETE_PENDING
        else
          Duplicate ← XdpIfRegisterClient_while (Clients X) client key;
          if (Duplicate : bool) then mret STATUS_DUPLICATE_OBJECTID
          else
            modify_entry ClientEntry
              (fun E => {| Linked := Linked E; Client := Some client;
                           Key := Some key |});;
            XdpIfpReferenceInterface BindingHandle;;
            modify_if BindingHandle
              (fun X => set_Clients (Clients X ++ [ClientEntry]) X);;
            modify_entry ClientEntry (set_Linked true);;
            mret STATUS_SUCCESS
    end.

(** [RemoveEntryList] unlinks the entry from the list it is on, which is the
    client list of [BindingHandle]. *)
Definition XdpIfDeregisterClient (BindingHandle : handle) (ClientEntry : handle)
    : M unit :=
  E ← get_entry ClientEntry;
  if Linked E then
    modify_if BindingHandle
      (fun X => set_Clients (RemoveEntryList ClientEntry (Clients X)) X);;
    modify_entry ClientEntry (set_Linked false);;
    XdpIfpDereferenceInterface BindingHandle
  else mret tt.

Fixpoint XdpIfFindClientEntry_while (Entry : list handle)
    (client : XDP_BINDING_CLIENT) (key : list Z) : M (option handle) :=
  match Entry with
  | [] => mret None
  | Candidate :: Flink =>
      C ← get_entry Candidate;
      IsSame ← same_client C client key;
      if (IsSame : bool) then mret (Some Candidate)
      else XdpIfFindClientEntry_while Flink client key
  end.

Definition XdpIfFindClientEntry (BindingHandle : handle)
    (client : XDP_BINDING_CLIENT) (key : list Z) : M (option handle) :=
  X ← get_if BindingHandle;
  XdpIfFindClientEntry_while (Clients X) client key.

Definition XdpIfGetIfIndex (BindingHandle : handle) : M Z :=
  X ← get_if BindingHandle; mret (IfIndex X).

Definition XdpIfGetCapabilities (BindingHandle : handle)
    : M XDP_CAPABILITIES_INTERNAL :=
  X ← get_if BindingHandle; mret (Capabilities X).

(** ** Provider references and queue creation *)

Definition XdpIfpReferenceProvider (env : OPEN_ENV) (Interface : handle) : M Z :=
  X ← get_if Interface;
  if negb (Rundown X =? 0) then mret STATUS_DELETE_PENDING
  else
    Status ←
      (if InterfaceContext X is Some _ then mret STATUS_SUCCESS
       else XdpIfpOpenInterface env Interface);
    if negb (NT_SUCCESS Status) then mret Status
    else
      modify_if Interface
        (fun X => set_ProviderReference (to_ULONG (ProviderReference X + 1)) X);;
      mret STATUS_SUCCESS.

Definition XdpIfpDereferenceProvider (Interface : handle) : M unit :=
  X ← get_if Interface;
  let Count := to_ULONG (ProviderReference X - 1) in
  modify_if Interface (set_ProviderReference Count);;
  if Count =? 0 then XdpIfpCloseInterface Interface else mret tt.

Definition XdpIfpInvokeCreateRxQueue (Interface : handle) (Config : handle)
    : M (Z * option handle * option handle) :=
  X ← get_if Interface;
  match InterfaceDispatch X with
  | None => fault InvalidAccess
  | Some Dispatch => mret (CreateRxQueue Dispatch (InterfaceContext X) Config)
  end.

(** Returns the status and the out parameters [*InterfaceRxQueue] and
    [*InterfaceRxQueueDispatch]. *)
Definition XdpIfCreateRxQueue (env : OPEN_ENV) (BindingHandle : handle)
    (Config : handle) : M (Z * option handle * option handle) :=
  Status ← XdpIfpReferenceProvider env BindingHandle;
  if negb (NT_SUCCESS Status) then mret (Status, None, None)
  else
    '(Status, InterfaceRxQueue, InterfaceRxQueueDispatch) ←
      XdpIfpInvokeCreateRxQueue BindingHandle Config;
    if negb (NT_SUCCESS Status) then
      XdpIfpDereferenceProvider BindingHandle;;
      mret (Status, InterfaceRxQueue, InterfaceRxQueueDispatch)
    else
      match InterfaceRxQueue, InterfaceRxQueueDispatch with
      | Some _, Some _ =>
          mret (Status, InterfaceRxQueue, InterfaceRxQueueDispatch)
      | _, _ => fault FreAssert
      end.

Definition XdpIfDeleteRxQueue (BindingHandle : handle)
    (InterfaceRxQueue : handle) : M unit :=
  X ← get_if BindingHandle;
  match InterfaceDispatch X with
  | None => fault InvalidAccess
  | Some _ =>
      trace (EvDeleteRxQueue InterfaceRxQueue);;
      XdpIfpDereferenceProvider BindingHandle
  end.

Definition XdpIfpInvokeCreateTxQueue (Interface : handle) (Config : handle)
    : M (Z * option handle * option handle) :=
  X ← get_if Interface;
  match InterfaceDispatch X with
  | None => fault InvalidAccess
  | Some Dispatch => mret (CreateTxQueue Dispatch (InterfaceContext X) Config)
  end.

Definition XdpIfCreateTxQueue (env : OPEN_ENV) (BindingHandle : handle)
    (Config : handle) : M (Z * option handle * option handle) :=
  Status ← XdpIfpReferenceProvider env BindingHandle;
  if negb (NT_SUCCESS Status) then mret (Status, None, None)
  else
    '(Status, InterfaceTxQueue, InterfaceTxQueueDispatch) ←
      XdpIfpInvokeCreateTxQueue BindingHandle Config;
    if negb (NT_SUCCESS Status) then
      XdpIfpDereferenceProvider BindingHandle;;
      mret (Status, InterfaceTxQueue, InterfaceTxQueueDispatch)
    else
      match InterfaceTxQueue, InterfaceTxQueueDispatch with
      | Some _, Some _ =>
          mret (Status, InterfaceTxQueue, InterfaceTxQueueDispatch)
      | _, _ => fault FreAssert
      end.

Definition XdpIfDeleteTxQueue (BindingHandle : handle)
    (InterfaceTxQueue : handle) : M unit :=
  X ← get_if BindingHandle;
  match InterfaceDispatch X with
  | None => fault InvalidAccess
  | Some _ =>
      trace (EvDeleteTxQueue InterfaceTxQueue);;
      XdpIfpDereferenceProvider BindingHandle
  end.


(** ** Statements of the specification, in its own words *)

(** The array [Offset + Count * ElementSize] does not fit: the arithmetic
    overflows 32 bits or the end lies beyond the declared total size. *)
Definition out_of_bounds (Offset Count ElementSize TotalSize : Z) : Prop :=
  UINT32_MAX < Count * ElementSize \/
  UINT32_MAX < Offset + Count * ElementSize \/
  TotalSize < Offset + Count * ElementSize.

Definition version_array_out_of_bounds (C : XDP_CAPABILITIES_EX) (TotalSize : Z)
    : Prop :=
  out_of_bounds (DriverApiVersionsOffset C) (DriverApiVersionCount C)
    sizeof_XDP_VERSION TotalSize.

Definition hook_array_out_of_bounds (C : XDP_CAPABILITIES_EX) (TotalSize : Z)
    : Prop :=
  out_of_bounds (HookIdArrayOffset C) (HookIdArrayCount C)
    sizeof_XDP_HOOK_ID TotalSize.

(** A candidate of the provider's list is accepted: the current version has
    the same major and at least the candidate's minor and patch, and the
    provider's dispatch request for the candidate succeeds. *)
Definition candidate_accepted
    (Get : XDP_VERSION -> Z * option handle * option XDP_INTERFACE_DISPATCH)
    (candidate : XDP_VERSION) : Prop :=
  (Major XdpDriverApiCurrentVersion = Major candidate /\
   Minor candidate <= Minor XdpDriverApiCurrentVersion /\
   Patch candidate <= Patch XdpDriverApiCurrentVersion) /\
  NT_SUCCESS (Get candidate).1.1 = true.

(** The list of candidates XdpRequestClientDispatch iterates over. *)
Definition candidates (C : XDP_CAPABILITIES_EX) : list XDP_VERSION :=
  take (Z.to_nat (DriverApiVersionCount C)) (DriverApiVersions C).


(** The entry linked at address [c] belongs to the same client id and carries
    the same key, compared over the [KeySize] bytes of the new client. *)
Definition same_client_and_key (s : State) (client : XDP_BINDING_CLIENT)
    (key : list Z) (c : handle) : Prop :=
  exists C cl k,
    ClientEntries s !! c = Some C /\ Client C = Some cl /\ Key C = Some k /\
    ClientId cl = ClientId client /\
    RtlEqualMemory k key (KeySize client) = true.

(** Every entry on the client list is a registered entry: its memory is
    live and it carries its client and key. *)
Definition clients_registered (s : State) (X : XDP_INTERFACE) : Prop :=
  forall c, c ∈ Clients X ->
    exists C cl k,
      ClientEntries s !! c = Some C /\ Client C = Some cl /\ Key C = Some k.

(** The state after a successful registration. *)
Definition registered (s : State) (h : handle) (X : XDP_INTERFACE)
    (client : XDP_BINDING_CLIENT) (key : list Z) (e : handle) : State :=
  with_entries
    (<[e := {| Linked := true; Client := Some client; Key := Some key |}]>
       (ClientEntries s))
    (with_ifs
       (<[h := set_Clients (Clients X ++ [e])
                 (set_ReferenceCount (InterlockedIncrement (ReferenceCount X)) X)]>
          (IfPool s)) s).

(** The state after a linked entry has been unlinked and its reference
    released, the binding staying alive. *)
Definition deregistered (s : State) (h : handle) (X : XDP_INTERFACE)
    (e : handle) (E : XDP_BINDING_CLIENT_ENTRY) : State :=
  with_ifs
    (<[h := set_ReferenceCount (InterlockedDecrement (ReferenceCount X))
              (set_Clients (RemoveEntryList e (Clients X)) X)]> (IfPool s))
    (with_entries (<[e := set_Linked false E]> (ClientEntries s)) s).


(** The binding supports the hook id [Target]: one of its hooks has the same
    layer, direction and sublayer. *)
Definition supports_hook (X : XDP_INTERFACE) (Target : XDP_HOOK_ID) : Prop :=
  exists Candidate, Candidate ∈ Hooks (Capabilities X) /\
    Layer Target = Layer Candidate /\
    Direction Target = Direction Candidate /\
    SubLayer Target = SubLayer Candidate.

(** The binding [h] in mode slot [Mode] of [IfSet] qualifies for a lookup:
    the mode filter, when given, is [Mode], and the binding supports every
    required hook id. *)
Definition qualifies (s : State) (IfSet : XDP_INTERFACE_SET)
    (HookIds : list XDP_HOOK_ID) (RequiredMode : option XDP_INTERFACE_MODE)
    (Mode : XDP_INTERFACE_MODE) (h : handle) : Prop :=
  slot Mode IfSet = Some h /\
  (RequiredMode = None \/ RequiredMode = Some Mode) /\
  exists X, IfPool s !! h = Some X /\
    forall Target, Target ∈ HookIds -> supports_hook X Target.

(** Every binding in a mode slot of [IfSet] is live memory. *)
Definition slots_live (s : State) (IfSet : XDP_INTERFACE_SET) : Prop :=
  forall Mode h, slot Mode IfSet = Some h -> is_Some (IfPool s !! h).

(** The registry has no interface set for [IfIndex]. *)
Definition no_set (s : State) (IfIndex : Z) : Prop :=
  forall p, p ∈ XdpInterfaceSets s ->
    exists S, IfSetPool s !! p = Some S /\ SetIfIndex S <> IfIndex.

(** [IfSet] is the interface set the registry finds for [IfIndex]: the first
    of the list with that index. *)
Definition found_set (s : State) (IfIndex : Z) (IfSet : XDP_INTERFACE_SET)
    : Prop :=
  exists pre hs post,
    XdpInterfaceSets s = pre ++ hs :: post /\
    IfSetPool s !! hs = Some IfSet /\
    SetIfIndex IfSet = IfIndex /\
    forall p, p ∈ pre ->
      exists S, IfSetPool s !! p = Some S /\ SetIfIndex S <> IfIndex.

(** The state after one more reference has been taken on binding [h]. *)
Definition referenced (s : State) (h : handle) (X : XDP_INTERFACE) : State :=
  with_ifs
    (<[h := set_ReferenceCount (InterlockedIncrement (ReferenceCount X)) X]>
       (IfPool s)) s.


(** The state after the client loop of rundown has unlinked and notified the
    entries [cs], the binding staying alive. *)
Definition clients_run_down (s s' : State) (h : handle) (X : XDP_INTERFACE)
    (cs : list handle) : Prop :=
  IfPool s' =
    <[h := set_ReferenceCount (ReferenceCount X - Z.of_nat (length cs))
             (set_Clients [] X)]> (IfPool s) /\
  Trace s' = Trace s ++ map EvBindingDetached cs /\
  (forall c, c ∈ cs ->
     exists E, ClientEntries s !! c = Some E /\
               ClientEntries s' !! c = Some (set_Linked false E)) /\
  (forall c, c ∉ cs -> ClientEntries s' !! c = ClientEntries s !! c) /\
  NmrPool s' = NmrPool s /\
  XdpInterfaceSets s' = XdpInterfaceSets s /\
  IfSetPool s' = IfSetPool s.


(** The binding after the provider's detach notification has queued the NMR
    work item. *)
Definition detach_queued (n : handle) (X : XDP_INTERFACE) : XDP_INTERFACE :=
  match WorkQueue X with
  | Some q => set_WorkQueue (Some (q ++ [NmrWorkItem n])) X
  | None => X
  end.

(** The NMR pool after one reference of the context [N] at [n] has been
    released. *)
Definition release_nmr (n : handle) (N : XDP_INTERFACE_NMR)
    (pool : gmap nat XDP_INTERFACE_NMR) : gmap nat XDP_INTERFACE_NMR :=
  if to_ULONG (NmrReferenceCount N - 1) =? 0 then delete n pool
  else <[n := set_NmrReferenceCount (to_ULONG (NmrReferenceCount N - 1)) N]> pool.

(** The state after XdpIfpCloseNmrInterface. *)
Definition nmr_closed (s : State) (h : handle) (X : XDP_INTERFACE) (n : handle)
    (N : XDP_INTERFACE_NMR) (ph : handle) : State :=
  with_nmrs
    (release_nmr n (set_NmrHandle None (set_DetachNotification true N))
       (NmrPool s))
    (with_ifs
       (<[h := set_Nmr None
                 (if DetachNotification N then X else detach_queued n X)]>
          (IfPool s))
       (with_trace
          (Trace s ++ [EvXdpCloseProvider ph; EvXdpCleanupProvider ph]) s)).

(** What XdpIfpCloseInterface needs of the binding [X] at [h]: a dispatch
    table when the interface is open, and, when an NMR context is attached,
    a live context with an open provider handle which, if the provider has
    not yet sent its detach notification, points back to this binding and
    its work queue. *)
Definition attachment_ok (s : State) (h : handle) (X : XDP_INTERFACE) : Prop :=
  (is_Some (InterfaceContext X) -> is_Some (InterfaceDispatch X)) /\
  (forall n, Nmr X = Some n ->
     exists N ph,
       NmrPool s !! n = Some N /\ NmrHandle N = Some ph /\
       (DetachNotification N = false ->
          WorkItem_BindingHandle N = Some h /\ is_Some (WorkQueue X))).

(** A step that touches only the binding at [h] and the trace. *)
Definition step_on (h : handle) (s s' : State) (X' : XDP_INTERFACE)
    (evs : list Event) : Prop :=
  IfPool s' = <[h := X']> (IfPool s) /\
  Trace s' = Trace s ++ evs /\
  ClientEntries s' = ClientEntries s /\
  XdpInterfaceSets s' = XdpInterfaceSets s /\
  IfSetPool s' = IfSetPool s.

(** The binding after each of the three blocks of XdpIfpCloseInterface. *)
Definition close_context (X : XDP_INTERFACE) : XDP_INTERFACE :=
  if InterfaceContext X is Some _ then set_Interface None None X else X.

Definition close_nmr (s : State) (X : XDP_INTERFACE) : XDP_INTERFACE :=
  match Nmr X with
  | Some n =>
      set_NmrDeleting false
        (set_Nmr None
           (if (if NmrPool s !! n is Some N then DetachNotification N
                else true)
            then X else detach_queued n X))
  | None => X
  end.

Definition close_complete (X : XDP_INTERFACE) : XDP_INTERFACE :=
  match XdpIfInterfaceContext X with
  | Some _ => if BindingDeleting X then set_XdpIfInterfaceContext None X else X
  | None => X
  end.

Definition closed_interface (s : State) (X : XDP_INTERFACE) : XDP_INTERFACE :=
  close_complete (close_nmr s (close_context X)).

(** The NMR pool after XdpIfpCloseInterface has closed binding [X]. *)
Definition closed_nmrs (s : State) (X : XDP_INTERFACE)
    : gmap nat XDP_INTERFACE_NMR :=
  match Nmr X with
  | Some n =>
      match NmrPool s !! n with
      | Some N =>
          release_nmr n (set_NmrHandle None (set_DetachNotification true N))
            (NmrPool s)
      | None => NmrPool s
      end
  | None => NmrPool s
  end.

(** The calls made by each block. *)
Definition close_context_events (X : XDP_INTERFACE) : list Event :=
  match InterfaceContext X, InterfaceDispatch X with
  | Some _, Some d =>
      if CloseInterface d then [EvCloseInterface (InterfaceContext X)] else []
  | _, _ => []
  end.

Definition close_nmr_events (s : State) (X : XDP_INTERFACE) : list Event :=
  match Nmr X with
  | Some n =>
      match NmrPool s !! n with
      | Some N =>
          match NmrHandle N with
          | Some ph => [EvXdpCloseProvider ph; EvXdpCleanupProvider ph]
          | None => []
          end
      | None => []
      end
  | None => []
  end.

Definition close_complete_events (X : XDP_INTERFACE) : list Event :=
  match XdpIfInterfaceContext X with
  | Some c => if BindingDeleting X then [EvRemoveInterfaceComplete c] else []
  | None => []
  end.

Definition close_events (s : State) (X : XDP_INTERFACE) : list Event :=
  close_context_events X ++ close_nmr_events s X ++ close_complete_events X.

(** [s'] is the state after XdpIfpCloseInterface has closed binding [X] at
    [h] in state [s]: only the binding, its NMR context and the trace
    change. *)
Definition interface_closed (s s' : State) (h : handle) (X : XDP_INTERFACE)
    : Prop :=
  step_on h s s' (closed_interface s X) (close_events s X) /\
  NmrPool s' = closed_nmrs s X.


(** Element [Index] of a batch passes the three steps that can fail, or
    fails one of them with [Status]. *)
Definition valid_capabilities (A : XDP_ADD_INTERFACE) : bool :=
  XdpValidateCapabilitiesEx (CapabilitiesEx (InterfaceCapabilities A))
    (CapabilitiesSize (InterfaceCapabilities A)).

Definition passes (env : ADD_ENV) (Index : nat) (A : XDP_ADD_INTERFACE) : Prop :=
  valid_capabilities A = true /\
  AllocateInterface env Index = true /\
  CreateWorkQueue env Index = true.

Definition fails_with (env : ADD_ENV) (Index : nat) (A : XDP_ADD_INTERFACE)
    (Status : Z) : Prop :=
  (valid_capabilities A = false /\ Status = STATUS_NOT_SUPPORTED) \/
  (valid_capabilities A = true /\ AllocateInterface env Index = false /\
   Status = STATUS_NO_MEMORY) \/
  (valid_capabilities A = true /\ AllocateInterface env Index = true /\
   CreateWorkQueue env Index = false /\ Status = STATUS_NO_MEMORY).

(** The handle cells of a batch that are not null. *)
Definition handles (Interfaces : list XDP_ADD_INTERFACE) : list handle :=
  omap InterfaceHandle Interfaces.

(** From [s] to [s'] the bindings [hs], fresh in [s], were added to the
    interface set at [IfSet] for the descriptors [pre]; nothing else
    changed. *)
Definition batch_added (s s' : State) (IfSet : handle)
    (pre : list XDP_ADD_INTERFACE) (hs : list handle) : Prop :=
  length hs = length pre /\
  NoDup hs /\
  (forall h, h ∈ hs -> IfPool s !! h = None) /\
  (forall i h B, hs !! i = Some h -> pre !! i = Some B ->
     exists X, IfPool s' !! h = Some X /\ ReferenceCount X = 1 /\
       Capabilities X = InterfaceCapabilities B /\ is_Some (WorkQueue X)) /\
  (forall h, h ∉ hs -> IfPool s' !! h = IfPool s !! h) /\
  is_Some (IfSetPool s' !! IfSet) /\
  (forall k, k <> IfSet -> IfSetPool s' !! k = IfSetPool s !! k) /\
  NmrPool s' = NmrPool s /\ ClientEntries s' = ClientEntries s /\
  Trace s' = Trace s /\ XdpInterfaceSets s' = XdpInterfaceSets s.


(** From [s] to [s'] the bindings [hs] of the interface set at [IfSet] were
    removed from their mode slots and released, which freed them; nothing
    else changed. *)
Definition batch_unwound (s s' : State) (IfSet : handle) (hs : list handle)
    : Prop :=
  (forall h, h ∈ hs -> IfPool s' !! h = None) /\
  (forall h, h ∉ hs -> IfPool s' !! h = IfPool s !! h) /\
  Trace s' = Trace s ++ map EvXdpShutdownWorkQueue hs /\
  is_Some (IfSetPool s' !! IfSet) /\
  (forall k, k <> IfSet -> IfSetPool s' !! k = IfSetPool s !! k) /\
  (forall S1 S2,
     IfSetPool s !! IfSet = Some S1 -> IfSetPool s' !! IfSet = Some S2 ->
     SetIfIndex S2 = SetIfIndex S1 /\
     (forall m, slot m S1 = None -> slot m S2 = None) /\
     (forall h X, h ∈ hs -> IfPool s !! h = Some X ->
        slot (Mode (Capabilities X)) S2 = None)) /\
  NmrPool s' = NmrPool s /\ ClientEntries s' = ClientEntries s /\
  XdpInterfaceSets s' = XdpInterfaceSets s.


(** The provider's side of the contract.  A dispatch table is in order when
    a queue creation that succeeds returns the queue and its dispatch table
    (the FRE_ASSERTs of XdpIfCreateRxQueue and XdpIfCreateTxQueue); the
    provider is in order when a dispatch request that succeeds returns such
    a table. *)
Definition dispatch_ok (d : XDP_INTERFACE_DISPATCH) : Prop :=
  (forall c cfg, NT_SUCCESS (CreateRxQueue d c cfg).1.1 = true ->
     is_Some (CreateRxQueue d c cfg).1.2 /\ is_Some (CreateRxQueue d c cfg).2) /\
  (forall c cfg, NT_SUCCESS (CreateTxQueue d c cfg).1.1 = true ->
     is_Some (CreateTxQueue d c cfg).1.2 /\ is_Some (CreateTxQueue d c cfg).2).

Definition provider_ok (env : OPEN_ENV) : Prop :=
  forall v, NT_SUCCESS (GetInterfaceDispatch env v).1.1 = true ->
    exists d, (GetInterfaceDispatch env v).2 = Some d /\ dispatch_ok d.

(** The fields of a binding that opening and closing the provider
    attachment leave alone. *)
Definition same_binding (X X' : XDP_INTERFACE) : Prop :=
  ProviderReference X' = ProviderReference X /\
  Clients X' = Clients X /\
  WorkQueue X' = WorkQueue X /\
  Rundown X' = Rundown X /\
  Capabilities X' = Capabilities X /\
  XdpIfInterfaceContext X' = XdpIfInterfaceContext X.

(** The state [sb] at the Exit label of XdpIfpOpenInterface, entered in
    state [s] for the binding [X] at [h], with status [St]: either no NMR
    context is attached and the status is a failure, or a fresh context [n]
    with reference count 2 is attached, the binding holds one more
    reference, and either the provider was not opened and the status is a
    failure, or the provider is open and a success means that the dispatch
    table is in place. *)
Definition at_exit (s sb : State) (h : handle) (X : XDP_INTERFACE) (St : Z)
    : Prop :=
  exists Xb evs,
    step_on h s sb Xb evs /\ same_binding X Xb /\
    ((Nmr Xb = None /\ NT_SUCCESS St = false /\ NmrPool sb = NmrPool s /\
      ReferenceCount Xb = ReferenceCount X /\ InterfaceContext Xb = None) \/
     (exists n N,
        NmrPool s !! n = None /\ Nmr Xb = Some n /\
        NmrPool sb = <[n := N]> (NmrPool s) /\
        ReferenceCount Xb = ReferenceCount X + 1 /\
        NmrReferenceCount N = 2 /\ WorkItem_BindingHandle N = Some h /\
        DetachNotification N = false /\
        ((NmrHandle N = None /\ NT_SUCCESS St = false /\
          InterfaceContext Xb = None) \/
         (is_Some (NmrHandle N) /\
          (is_Some (InterfaceContext Xb) -> is_Some (InterfaceDispatch Xb)) /\
          (NT_SUCCESS St = true ->
             St = STATUS_SUCCESS /\
             exists d, InterfaceDispatch Xb = Some d /\ dispatch_ok d))))).


(** The outcome of XdpIfpOpenInterface, entered in state [s] for the
    binding [X] at [h]: the provider reference count, the client list and
    the client entries are untouched; after a failure no attachment is
    left; after a success the status is STATUS_SUCCESS, a fresh NMR context
    with reference count 2 and an open provider handle is attached, the
    binding holds one more reference and the dispatch table is in place. *)
Definition open_result (s s' : State) (h : handle) (X : XDP_INTERFACE) (St : Z)
    : Prop :=
  exists X',
    IfPool s' !! h = Some X' /\
    ProviderReference X' = ProviderReference X /\
    Clients X' = Clients X /\
    Capabilities X' = Capabilities X /\
    ClientEntries s' = ClientEntries s /\
    (NT_SUCCESS St = false -> Nmr X' = None /\ InterfaceContext X' = None) /\
    (NT_SUCCESS St = true ->
       St = STATUS_SUCCESS /\
       Rundown X' = Rundown X /\
       ReferenceCount X' = ReferenceCount X + 1 /\
       WorkQueue X' = WorkQueue X /\
       (exists d, InterfaceDispatch X' = Some d /\ dispatch_ok d) /\
       exists n N ph,
         NmrPool s !! n = None /\ Nmr X' = Some n /\
         NmrPool s' !! n = Some N /\ NmrReferenceCount N = 2 /\
         NmrHandle N = Some ph /\ WorkItem_BindingHandle N = Some h /\
         DetachNotification N = false).


(** The NMR context [N] at [n] is attached to the binding [X] at [h] with an
    open provider handle. *)
Definition attached (s : State) (h : handle) (X : XDP_INTERFACE) (n : handle)
    (N : XDP_INTERFACE_NMR) : Prop :=
  IfPool s !! h = Some X /\ Nmr X = Some n /\
  NmrPool s !! n = Some N /\ is_Some (NmrHandle N) /\
  WorkItem_BindingHandle N = Some h.

(** ** Further statements about the registry and the binding lifecycle *)

(** The registry is well formed: the list links each interface set once,
    every linked set is live memory, and no two linked sets carry the same
    interface index. *)
Definition registry_ok (s : State) : Prop :=
  NoDup (XdpInterfaceSets s) /\
  (forall p, p ∈ XdpInterfaceSets s -> is_Some (IfSetPool s !! p)) /\
  (forall p q P Q,
     p ∈ XdpInterfaceSets s -> q ∈ XdpInterfaceSets s ->
     IfSetPool s !! p = Some P -> IfSetPool s !! q = Some Q ->
     SetIfIndex P = SetIfIndex Q -> p = q).

(** The registry links a set for [IfIndex]. *)
Definition has_set (s : State) (IfIndex : Z) : Prop :=
  exists p P, p ∈ XdpInterfaceSets s /\ IfSetPool s !! p = Some P /\
    SetIfIndex P = IfIndex.

(** The binding XdpIfAddInterfaces creates for the descriptor [A] in the
    interface set at [IfSet], whose interface index is [Index]. *)
Definition added_interface (IfSet : handle) (Index : Z) (A : XDP_ADD_INTERFACE)
    : XDP_INTERFACE :=
  {| IfIndex := Index;
     IfSet := Some IfSet;
     XdpIfInterfaceContext := AddInterfaceContext A;
     Capabilities := InterfaceCapabilities A;
     Nmr := None;
     DriverApiVersion := {| Major := 0; Minor := 0; Patch := 0 |};
     InterfaceDispatch := None;
     InterfaceContext := None;
     ReferenceCount := 1;
     Clients := [];
     ProviderReference := 0;
     Rundown := 0;
     WorkQueue := Some [] |}.

(** The interface set after the bindings [hs] have been stored, in order, in
    the mode slots of their descriptors. *)
Definition added_slots (hs : list handle) (Interfaces : list XDP_ADD_INTERFACE)
    (S : XDP_INTERFACE_SET) : XDP_INTERFACE_SET :=
  fold_left
    (fun S p => set_slot (Mode (InterfaceCapabilities p.2)) (Some p.1) S)
    (zip hs Interfaces) S.

(** The interface set at [IfSet] is the one the registry finds for its
    index: no set linked before it carries the same index. *)
Definition first_set (s : State) (IfSet : handle) (S : XDP_INTERFACE_SET)
    : Prop :=
  IfSetPool s !! IfSet = Some S /\
  exists pre post,
    XdpInterfaceSets s = pre ++ IfSet :: post /\
    forall p, p ∈ pre ->
      exists P, IfSetPool s !! p = Some P /\ SetIfIndex P <> SetIfIndex S.

(** The binding [X], whose work queue holds [q], after XdpIfRemoveInterfaces
    has unlinked it from its interface set and queued its delete work item,
    which holds one reference. *)
Definition removed_interface (X : XDP_INTERFACE)
    (q : list XDP_BINDING_WORKITEM) : XDP_INTERFACE :=
  set_WorkQueue (Some (q ++ [DeleteWorkItem]))
    (set_ReferenceCount (InterlockedIncrement (ReferenceCount X))
       (set_IfSet None X)).

(** The binding at [h] can be removed: it is live, it points back to a live
    interface set and it has a work queue. *)
Definition removable (s : State) (h : handle) : Prop :=
  exists X p, IfPool s !! h = Some X /\ IfSet X = Some p /\
    is_Some (IfSetPool s !! p) /\ is_Some (WorkQueue X).

(** Mode slots and back pointers agree: the binding found in a mode slot of
    a set is live, points back to that set and has that mode. *)
Definition slots_consistent (s : State) : Prop :=
  forall p P m x,
    IfSetPool s !! p = Some P -> slot m P = Some x ->
    exists X, IfPool s !! x = Some X /\ IfSet X = Some p /\
      Mode (Capabilities X) = m.

(** The binding [X] after XdpIfpStartRundown, entered in state [s]: closed
    when no provider reference is held, its client list empty and one
    reference released per client. *)
Definition run_down (s : State) (X : XDP_INTERFACE) : XDP_INTERFACE :=
  set_ReferenceCount (ReferenceCount X - Z.of_nat (length (Clients X)))
    (set_Clients []
       (if ProviderReference X =? 0 then closed_interface s X else X)).

(** What rundown needs of the binding [X] at [h]: an attachment in order when
    it is to be closed, a client list without repetition whose entries are
    live, and [extra] references besides the ones of the clients. *)
Definition rundown_ready (s : State) (h : handle) (X : XDP_INTERFACE)
    (extra : Z) : Prop :=
  (ProviderReference X = 0 -> attachment_ok s h X) /\
  NoDup (Clients X) /\
  (forall c, c ∈ Clients X -> is_Some (ClientEntries s !! c)) /\
  ReferenceCount X = Z.of_nat (length (Clients X)) + extra /\
  ReferenceCount X < LONG_MAX.

(** ** The driver API version reported to the provider *)

(** XdpInterfaceFromConfig: the XDP_INTERFACE_CONFIG handed to the provider
    is the address of the [OpenConfig] field of the XDP_INTERFACE, and
    CONTAINING_RECORD recovers the interface from it.  The handle of the
    interface stands for both addresses. *)
Definition XdpInterfaceFromConfig (InterfaceConfig : handle) : handle :=
  InterfaceConfig.

Definition XdpGetDriverApiVersion (InterfaceConfig : handle) : M XDP_VERSION :=
  X ← get_if (XdpInterfaceFromConfig InterfaceConfig);
  mret (DriverApiVersion X).

(** The binding [X] after XdpIfpOpenInterface has opened it: the NMR context
    [n] attached, one more reference, the negotiated version [v], and the
    provider's context and dispatch table. *)
Definition opened_interface (X : XDP_INTERFACE) (n : handle) (v : XDP_VERSION)
    (ctx : option handle) (d : XDP_INTERFACE_DISPATCH) : XDP_INTERFACE :=
  set_Interface ctx (Some d)
    (set_DriverApiVersion v
       (set_ReferenceCount (ReferenceCount X + 1) (set_Nmr (Some n) X))).

(** The NMR context of a binding [h] that has been opened with provider
    handle [ph]. *)
Definition opened_nmr (h ph : handle) : XDP_INTERFACE_NMR :=
  {| NmrHandle := Some ph; DetachNotification := false;
     NmrReferenceCount := 2; WorkItem_BindingHandle := Some h |}.

(** The header of the capabilities of [X] passes the check of
    XdpIfpOpenInterface. *)
Definition header_ok (X : XDP_INTERFACE) : Prop :=
  XDP_CAPABILITIES_EX_REVISION_1
    <= Header_Revision (CapabilitiesEx (Capabilities X)) /\
  XDP_SIZEOF_CAPABILITIES_EX_REVISION_1
    <= Header_Size (CapabilitiesEx (Capabilities X)).

(** ** Statements about the provider attachment and queue creation *)

(** The environment lets XdpIfpOpenInterface succeed on the binding [X]: the
    header of the capabilities is in order, the NMR context is allocated,
    XdpOpenProvider succeeds with the handle [ph], [v] is the first
    candidate version the provider accepts, the provider answers it with
    the context [ctx] and the dispatch table [d], and the OpenInterface
    routine of [d], if any, succeeds. *)
Definition opens_with (env : OPEN_ENV) (X : XDP_INTERFACE) (v : XDP_VERSION)
    (ph : handle) (ctx : option handle) (d : XDP_INTERFACE_DISPATCH) : Prop :=
  let C := CapabilitiesEx (Capabilities X) in
  header_ok X /\
  AllocateNmr env = true /\
  (exists St0,
     XdpOpenProvider env (IfIndex X) (InstanceId C) = (St0, ph) /\
     NT_SUCCESS St0 = true) /\
  (exists pre post,
     candidates C = pre ++ v :: post /\
     forall w, w ∈ pre -> ~ candidate_accepted (GetInterfaceDispatch env) w) /\
  candidate_accepted (GetInterfaceDispatch env) v /\
  (exists Stv, GetInterfaceDispatch env v = (Stv, ctx, Some d)) /\
  (forall f, OpenInterface d = Some f -> NT_SUCCESS (f ctx) = true).

(** The environment makes XdpIfpOpenInterface fail on the binding [X] with
    the status [St], at one of its five exits: the header check, the
    allocation of the NMR context, XdpOpenProvider, the version
    negotiation, or the OpenInterface routine of the provider. *)
Definition open_fails (env : OPEN_ENV) (X : XDP_INTERFACE) (St : Z) : Prop :=
  let C := CapabilitiesEx (Capabilities X) in
  (~ header_ok X /\ St = STATUS_NOT_SUPPORTED) \/
  (header_ok X /\ AllocateNmr env = false /\ St = STATUS_NO_MEMORY) \/
  (header_ok X /\ AllocateNmr env = true /\
   exists St0 ph,
     XdpOpenProvider env (IfIndex X) (InstanceId C) = (St0, ph) /\
     ((NT_SUCCESS St0 = false /\ St = St0) \/
      (NT_SUCCESS St0 = true /\
       (forall w, w ∈ candidates C ->
          ~ candidate_accepted (GetInterfaceDispatch env) w) /\
       St = STATUS_NOT_SUPPORTED) \/
      (NT_SUCCESS St0 = true /\
       exists pre v post Stv ctx d f,
         candidates C = pre ++ v :: post /\
         (forall w, w ∈ pre ->
            ~ candidate_accepted (GetInterfaceDispatch env) w) /\
         candidate_accepted (GetInterfaceDispatch env) v /\
         GetInterfaceDispatch env v = (Stv, ctx, Some d) /\
         OpenInterface d = Some f /\
         St = f ctx /\ NT_SUCCESS St = false))).

(** The calls XdpIfpOpenInterface makes into the provider's dispatch table
    [d] when it succeeds. *)
Definition open_events (ctx : option handle) (d : XDP_INTERFACE_DISPATCH)
    : list Event :=
  if OpenInterface d is Some _ then [EvOpenInterface ctx] else [].

(** The state after XdpIfpOpenInterface has opened the binding [X] at [h]:
    a fresh NMR context attached, and nothing else changed. *)
Definition opened_state (s : State) (h : handle) (X : XDP_INTERFACE)
    (v : XDP_VERSION) (ph : handle) (ctx : option handle)
    (d : XDP_INTERFACE_DISPATCH) : State :=
  let n := fresh (dom (NmrPool s)) in
  with_trace (Trace s ++ open_events ctx d)
    (with_nmrs (<[n := opened_nmr h ph]> (NmrPool s))
       (with_ifs (<[h := opened_interface X n v ctx d]> (IfPool s)) s)).

(** The two kinds of queue, to state what XdpIfCreateRxQueue and
    XdpIfCreateTxQueue have in common. *)
Inductive queue_kind : Type := RxQueue | TxQueue.

Definition XdpIfCreateQueue (kind : queue_kind)
    : OPEN_ENV -> handle -> handle -> M (Z * option handle * option handle) :=
  match kind with
  | RxQueue => XdpIfCreateRxQueue
  | TxQueue => XdpIfCreateTxQueue
  end.

(** The provider's routine that creates a queue of this kind. *)
Definition provider_create (kind : queue_kind) (d : XDP_INTERFACE_DISPATCH)
    : option handle -> handle -> Z * option handle * option handle :=
  match kind with
  | RxQueue => CreateRxQueue d
  | TxQueue => CreateTxQueue d
  end.

End Bind.


(** * A concrete registry *)

Module Example.

Definition constants : XdpConstants :=
  {| XDP_CAPABILITIES_EX_REVISION_1 := 1;
     XDP_SIZEOF_CAPABILITIES_EX_REVISION_1 := 44;
     XDP_DRIVER_API_MAJOR_VER := 1;
     XDP_DRIVER_API_MINOR_VER := 2;
     XDP_DRIVER_API_PATCH_VER := 0;
     XDP_BINDING_CLIENT_ID_INVALID := 0;
     sizeof_XDP_VERSION := 12;
     sizeof_XDP_HOOK_ID := 12 |}.

Definition version (major minor patch : Z) : XDP_VERSION :=
  {| Major := major; Minor := minor; Patch := patch |}.

Definition hook_rx : XDP_HOOK_ID := {| Layer := 0; Direction := 0; SubLayer := 0 |}.
Definition hook_tx : XDP_HOOK_ID := {| Layer := 0; Direction := 1; SubLayer := 0 |}.

(** A blob of 92 bytes: the structure, then four versions. *)
Definition blob : XDP_CAPABILITIES_EX :=
  {| Header_Revision := 1; Header_Size := 44;
     HookIdArrayOffset := 0; HookIdArrayCount := 0;
     DriverApiVersionsOffset := 44; DriverApiVersionCount := 4;
     DriverApiVersions :=
       [version 2 0 0; version 1 0 0; version 1 1 0; version 1 2 0];
     InstanceId := 7 |}.

(** The same blob announcing far more versions than it holds. *)
Definition blob_versions_overflow : XDP_CAPABILITIES_EX :=
  {| Header_Revision := 1; Header_Size := 44;
     HookIdArrayOffset := 0; HookIdArrayCount := 0;
     DriverApiVersionsOffset := 44; DriverApiVersionCount := 400000000;
     DriverApiVersions := [version 1 0 0];
     InstanceId := 7 |}.

(** A blob whose hook id array would end far beyond its 92 bytes. *)
Definition blob_hooks_outside : XDP_CAPABILITIES_EX :=
  {| Header_Revision := 1; Header_Size := 44;
     HookIdArrayOffset := 44; HookIdArrayCount := 1000;
     DriverApiVersionsOffset := 44; DriverApiVersionCount := 4;
     DriverApiVersions :=
       [version 2 0 0; version 1 0 0; version 1 1 0; version 1 2 0];
     InstanceId := 7 |}.

Definition capabilities (mode : XDP_INTERFACE_MODE) (hooks : list XDP_HOOK_ID)
    (ex : XDP_CAPABILITIES_EX) : XDP_CAPABILITIES_INTERNAL :=
  {| Mode := mode; Hooks := hooks; CapabilitiesEx := ex; CapabilitiesSize := 92 |}.

(** A provider that cannot create queue 0. *)
Definition dispatch : XDP_INTERFACE_DISPATCH :=
  {| OpenInterface := Some (fun _ => STATUS_SUCCESS);
     CloseInterface := true;
     CreateRxQueue := fun _ Config =>
       match Config with
       | O => (STATUS_NO_MEMORY, None, None)
       | _ => (STATUS_SUCCESS, Some 60%nat, Some 61%nat)
       end;
     CreateTxQueue := fun _ Config =>
       match Config with
       | O => (STATUS_NO_MEMORY, None, None)
       | _ => (STATUS_SUCCESS, Some 62%nat, Some 63%nat)
       end |}.

(** Its dispatch request fails for versions with minor 0. *)
Definition get_dispatch (v : XDP_VERSION)
    : Z * option handle * option XDP_INTERFACE_DISPATCH :=
  if Minor v =? 0 then (STATUS_NOT_SUPPORTED, None, None)
  else (STATUS_SUCCESS, Some 30%nat, Some dispatch).

Definition open_env : OPEN_ENV :=
  {| AllocateNmr := true;
     XdpOpenProvider := fun _ _ => (STATUS_SUCCESS, 51%nat);
     GetInterfaceDispatch := get_dispatch |}.

Definition add_env : ADD_ENV :=
  {| AllocateInterface := fun _ => true; CreateWorkQueue := fun _ => true |}.

(** The generic binding: open, one provider reference, two clients. *)
Definition generic : XDP_INTERFACE :=
  {| IfIndex := 7; IfSet := Some 10%nat; XdpIfInterfaceContext := Some 5%nat;
     Capabilities := capabilities XDP_INTERFACE_MODE_GENERIC [hook_rx] blob;
     Nmr := Some 40%nat; DriverApiVersion := version 1 1 0;
     InterfaceDispatch := Some dispatch; InterfaceContext := Some 30%nat;
     ReferenceCount := 4; Clients := [20%nat; 21%nat];
     ProviderReference := 1; Rundown := 0; WorkQueue := Some [] |}.

(** The native binding: never opened. *)
Definition native : XDP_INTERFACE :=
  {| IfIndex := 7; IfSet := Some 10%nat; XdpIfInterfaceContext := Some 6%nat;
     Capabilities :=
       capabilities XDP_INTERFACE_MODE_NATIVE [hook_rx; hook_tx] blob;
     Nmr := None; DriverApiVersion := version 0 0 0;
     InterfaceDispatch := None; InterfaceContext := None;
     ReferenceCount := 1; Clients := [];
     ProviderReference := 0; Rundown := 0; WorkQueue := Some [] |}.

(** A binding the provider has started to detach: NmrDeleting is set. *)
Definition detaching : XDP_INTERFACE := set_NmrDeleting true generic.

Definition nmr : XDP_INTERFACE_NMR :=
  {| NmrHandle := Some 50%nat; DetachNotification := false;
     NmrReferenceCount := 2; WorkItem_BindingHandle := Some 1%nat |}.

Definition nmr_detached : XDP_INTERFACE_NMR := set_DetachNotification true nmr.

Definition client (id : Z) : XDP_BINDING_CLIENT := {| ClientId := id; KeySize := 4 |}.

Definition entry (id : Z) (key : list Z) : XDP_BINDING_CLIENT_ENTRY :=
  {| Linked := true; Client := Some (client id); Key := Some key |}.

Definition fresh_entry : XDP_BINDING_CLIENT_ENTRY :=
  {| Linked := false; Client := None; Key := None |}.

Definition ifset (slots : option handle * option handle) : XDP_INTERFACE_SET :=
  {| SetIfIndex := 7; XdpIfInterfaceSetContext := 0%nat; Interfaces := slots |}.

Definition other_ifset : XDP_INTERFACE_SET :=
  {| SetIfIndex := 3; XdpIfInterfaceSetContext := 0%nat;
     Interfaces := (None, None) |}.

Definition state : State :=
  {| XdpInterfaceSets := [11%nat; 10%nat];
     IfSetPool := {[ 10%nat := ifset (Some 1%nat, Some 2%nat);
                     11%nat := other_ifset ]};
     IfPool := {[ 1%nat := generic; 2%nat := native ]};
     NmrPool := {[ 40%nat := nmr ]};
     ClientEntries := {[ 20%nat := entry 1 [1; 2; 3; 4];
                         21%nat := entry 2 [1; 2; 3; 4];
                         22%nat := fresh_entry ]};
     Trace := [] |}.

(** The same registry after the provider's detach notification for the
    generic binding. *)
Definition state_detaching : State :=
  with_nmrs {[ 40%nat := nmr_detached ]}
    (with_ifs {[ 1%nat := detaching; 2%nat := native ]} state).

(** A registry whose interface set has no binding yet. *)
Definition state_empty : State :=
  {| XdpInterfaceSets := [10%nat];
     IfSetPool := {[ 10%nat := ifset (None, None) ]};
     IfPool := ∅; NmrPool := ∅; ClientEntries := ∅; Trace := [] |}.

Definition add (mode : XDP_INTERFACE_MODE) (ex : XDP_CAPABILITIES_EX)
    : XDP_ADD_INTERFACE :=
  {| InterfaceCapabilities := capabilities mode [hook_rx] ex;
     AddInterfaceContext := Some 5%nat; InterfaceHandle := None |}.

(** The native binding after XdpIfRemoveInterfaces: unlinked from its set,
    its delete work item queued. *)
Definition removed_native : XDP_INTERFACE :=
  {| IfIndex := 7; IfSet := None; XdpIfInterfaceContext := Some 6%nat;
     Capabilities :=
       capabilities XDP_INTERFACE_MODE_NATIVE [hook_rx; hook_tx] blob;
     Nmr := None; DriverApiVersion := version 0 0 0;
     InterfaceDispatch := None; InterfaceContext := None;
     ReferenceCount := 2; Clients := [];
     ProviderReference := 0; Rundown := 0;
     WorkQueue := Some [DeleteWorkItem] |}.

Definition state_removed : State :=
  with_ifsets {[ 10%nat := ifset (Some 1%nat, None); 11%nat := other_ifset ]}
    (with_ifs {[ 1%nat := generic; 2%nat := removed_native ]} state).

(** The same, while a caller still holds a reference from a lookup. *)
Definition state_removed_held : State :=
  with_ifs {[ 1%nat := generic;
              2%nat := set_ReferenceCount 3 removed_native ]} state_removed.

(** The generic binding with two queues. *)
Definition state_two_queues : State :=
  with_ifs {[ 1%nat := set_ProviderReference 2 generic; 2%nat := native ]} state.

(** The registry after the provider's detach notification for the generic
    binding, before its work item has run. *)
Definition state_notified : State :=
  with_nmrs {[ 40%nat := nmr_detached ]} state.

(** Environments in which the NMR context cannot be allocated, and in which
    the provider cannot be opened. *)
Definition open_env_no_memory : OPEN_ENV :=
  {| AllocateNmr := false;
     XdpOpenProvider := fun _ _ => (STATUS_SUCCESS, 51%nat);
     GetInterfaceDispatch := get_dispatch |}.

Definition open_env_no_provider : OPEN_ENV :=
  {| AllocateNmr := true;
     XdpOpenProvider := fun _ _ => (STATUS_NOT_SUPPORTED, 0%nat);
     GetInterfaceDispatch := get_dispatch |}.

(** An environment in which the provider opens but accepts no version. *)
Definition open_env_no_version : OPEN_ENV :=
  {| AllocateNmr := true;
     XdpOpenProvider := fun _ _ => (STATUS_SUCCESS, 51%nat);
     GetInterfaceDispatch := fun _ => (STATUS_NOT_SUPPORTED, None, None) |}.

(** A batch of two descriptors, one per mode. *)
Definition batch : list XDP_ADD_INTERFACE :=
  [add XDP_INTERFACE_MODE_GENERIC blob; add XDP_INTERFACE_MODE_NATIVE blob].

End Example.

(** * Properties *)

Section Properties.
Context {K : XdpConstants}.

(** ** Integers *)

Lemma NT_SUCCESS_STATUS_NOT_SUPPORTED : NT_SUCCESS STATUS_NOT_SUPPORTED = false.
Proof. reflexivity. Qed.

Lemma NT_SUCCESS_STATUS_SUCCESS : NT_SUCCESS STATUS_SUCCESS = true.
Proof. reflexivity. Qed.

Lemma to_LONG_id x : -2147483648 <= x <= LONG_MAX -> to_LONG x = x.
Proof.
  unfold to_LONG, LONG_MAX. intros Hx.
  rewrite Z.mod_small by lia. lia.
Qed.

Lemma to_ULONG_id x : 0 <= x <= UINT32_MAX -> to_ULONG x = x.
Proof. unfold to_ULONG, UINT32_MAX. intros Hx. apply Z.mod_small. lia. Qed.

Lemma to_ULONG_succ_pred x :
  0 <= x <= UINT32_MAX -> to_ULONG (to_ULONG (x + 1) - 1) = x.
Proof.
  unfold to_ULONG, UINT32_MAX. intros Hx.
  destruct (decide (x = 4294967295)) as [->|Hne]; [reflexivity|].
  rewrite (Z.mod_small (x + 1)) by lia.
  replace (x + 1 - 1) with x by lia. apply Z.mod_small. lia.
Qed.


(** ** Running the monad *)

Lemma bind_run {A B} (m : M A) (f : A -> M B) s :
  (m ≫= f) s = match m s with Done a s' => f a s' | Stop e => Stop e end.
Proof. reflexivity. Qed.

Lemma ret_run {A} (a : A) s : (mret a : M A) s = Done a s.
Proof. reflexivity. Qed.

Lemma bind_Done_inv {A B} (m : M A) (f : A -> M B) s b s' :
  (m ≫= f) s = Done b s' ->
  exists a s1, m s = Done a s1 /\ f a s1 = Done b s'.
Proof. rewrite bind_run. destruct (m s) as [a s1|]; [eauto | done]. Qed.

Lemma get_if_run s h X : IfPool s !! h = Some X -> get_if h s = Done X s.
Proof. unfold get_if. by intros ->. Qed.

Lemma modify_if_run s h X f :
  IfPool s !! h = Some X ->
  modify_if h f s = Done tt (with_ifs (<[h := f X]> (IfPool s)) s).
Proof. unfold modify_if. by intros ->. Qed.

Lemma get_nmr_run s n N : NmrPool s !! n = Some N -> get_nmr n s = Done N s.
Proof. unfold get_nmr. by intros ->. Qed.

Lemma modify_nmr_run s n N f :
  NmrPool s !! n = Some N ->
  modify_nmr n f s = Done tt (with_nmrs (<[n := f N]> (NmrPool s)) s).
Proof. unfold modify_nmr. by intros ->. Qed.

Lemma get_entry_run s e E :
  ClientEntries s !! e = Some E -> get_entry e s = Done E s.
Proof. unfold get_entry. by intros ->. Qed.

Lemma modify_entry_run s e E f :
  ClientEntries s !! e = Some E ->
  modify_entry e f s = Done tt (with_entries (<[e := f E]> (ClientEntries s)) s).
Proof. unfold modify_entry. by intros ->. Qed.

Lemma get_ifset_run s h S :
  IfSetPool s !! h = Some S -> get_ifset h s = Done S s.
Proof. unfold get_ifset. by intros ->. Qed.

Lemma modify_ifset_run s h S f :
  IfSetPool s !! h = Some S ->
  modify_ifset h f s = Done tt (with_ifsets (<[h := f S]> (IfSetPool s)) s).
Proof. unfold modify_ifset. by intros ->. Qed.

Lemma free_if_run s h X :
  IfPool s !! h = Some X ->
  free_if h s = Done tt (with_ifs (delete h (IfPool s)) s).
Proof. unfold free_if. by intros ->. Qed.

Lemma free_nmr_run s n N :
  NmrPool s !! n = Some N ->
  free_nmr n s = Done tt (with_nmrs (delete n (NmrPool s)) s).
Proof. unfold free_nmr. by intros ->. Qed.

(** One step of symbolic execution: expose the first action of a bind and
    run it with a lookup that is known. *)
Ltac mrun :=
  repeat first
    [ rewrite bind_run
    | rewrite ret_run
    | erewrite get_if_run by (simpl; first [eassumption | apply lookup_insert_eq])
    | erewrite modify_if_run by (simpl; first [eassumption | apply lookup_insert_eq])
    | erewrite get_nmr_run by (simpl; first [eassumption | apply lookup_insert_eq])
    | erewrite modify_nmr_run by (simpl; first [eassumption | apply lookup_insert_eq])
    | erewrite get_entry_run by (simpl; first [eassumption | apply lookup_insert_eq])
    | erewrite modify_entry_run by (simpl; first [eassumption | apply lookup_insert_eq])
    | erewrite free_if_run by (simpl; first [eassumption | apply lookup_insert_eq])
    | erewrite free_nmr_run by (simpl; first [eassumption | apply lookup_insert_eq])
    | erewrite get_ifset_run by (simpl; first [eassumption | apply lookup_insert_eq])
    | erewrite modify_ifset_run by (simpl; first [eassumption | apply lookup_insert_eq])
    | progress cbn [with_ifs with_nmrs with_entries with_trace with_sets
                    with_ifsets IfPool NmrPool ClientEntries Trace
                    XdpInterfaceSets IfSetPool] ].

(** Bring states and records to constructor form. *)
Ltac norm :=
  repeat (progress
    (unfold with_sets, with_ifsets, with_ifs, with_nmrs, with_entries,
       with_trace,
       set_BindingDeleting, set_NmrDeleting,
       set_IfSet, set_XdpIfInterfaceContext, set_Nmr, set_DriverApiVersion,
       set_Interface, set_ReferenceCount, set_Clients, set_ProviderReference,
       set_Rundown, set_WorkQueue, set_NmrHandle, set_DetachNotification,
       set_NmrReferenceCount, set_WorkItem_BindingHandle, set_Linked,
       set_InterfaceHandle;
     simpl)).

(** ** Reference counting *)

Lemma InterlockedIncrement_succ x :
  -2147483648 <= x < LONG_MAX -> InterlockedIncrement x = x + 1.
Proof. intros Hx. unfold InterlockedIncrement. apply to_LONG_id. unfold LONG_MAX in *. lia. Qed.

Lemma InterlockedDecrement_pred x :
  -2147483648 < x <= LONG_MAX -> InterlockedDecrement x = x - 1.
Proof. intros Hx. unfold InterlockedDecrement. apply to_LONG_id. unfold LONG_MAX in *. lia. Qed.

Lemma XdpIfpReferenceInterface_run s h X :
  IfPool s !! h = Some X ->
  XdpIfpReferenceInterface h s =
    Done tt (with_ifs
      (<[h := set_ReferenceCount (InterlockedIncrement (ReferenceCount X)) X]>
         (IfPool s)) s).
Proof. intros H. unfold XdpIfpReferenceInterface. by mrun. Qed.

(** A dereference that leaves the binding alive. *)
Lemma XdpIfpDereferenceInterface_run s h X :
  IfPool s !! h = Some X ->
  InterlockedDecrement (ReferenceCount X) <> 0 ->
  XdpIfpDereferenceInterface h s =
    Done tt (with_ifs
      (<[h := set_ReferenceCount (InterlockedDecrement (ReferenceCount X)) X]>
         (IfPool s)) s).
Proof.
  intros H Hnz. unfold XdpIfpDereferenceInterface. mrun.
  apply Z.eqb_neq in Hnz. by rewrite Hnz.
Qed.

(** The dereference that releases the last reference frees the binding
    after shutting down its work queue. *)
Lemma XdpIfpDereferenceInterface_run_last s h X :
  IfPool s !! h = Some X ->
  InterlockedDecrement (ReferenceCount X) = 0 ->
  XdpIfpDereferenceInterface h s =
    Done tt (with_ifs (delete h (IfPool s))
      (with_trace
         (Trace s ++
            if WorkQueue X is Some _ then [EvXdpShutdownWorkQueue h] else [])
         s)).
Proof.
  intros H Hz. unfold XdpIfpDereferenceInterface. mrun. rewrite Hz. simpl.
  destruct s as [sets ifsets ifs nmrs ents tr]; simpl in *.
  destruct (WorkQueue X); mrun; unfold trace; mrun; simpl.
  - by rewrite delete_insert_eq.
  - by rewrite delete_insert_eq, app_nil_r.
Qed.


(** ** Client registration *)

Lemma Rundown_of_NmrDeleting X : NmrDeleting X = true -> Rundown X <> 0.
Proof. unfold NmrDeleting. intros H Hz. rewrite Hz in H. discriminate. Qed.

Lemma Rundown_of_BindingDeleting X : BindingDeleting X = true -> Rundown X <> 0.
Proof. unfold BindingDeleting. intros H Hz. rewrite Hz in H. discriminate. Qed.

Lemma XdpIfRegisterClient_while_run s client key l :
  (forall c, c ∈ l ->
     exists C cl k,
       ClientEntries s !! c = Some C /\ Client C = Some cl /\ Key C = Some k) ->
  exists b,
    XdpIfRegisterClient_while l client key s = Done b s /\
    (b = true <-> exists c, c ∈ l /\ same_client_and_key s client key c).
Proof.
  induction l as [|c l IH]; intros Hl; simpl.
  - exists false. split; [done|]. split; [done|].
    intros (c & Hc & _). by apply elem_of_nil in Hc.
  - destruct (Hl c) as (C & cl & k & HC & Hcl & Hk); [left|].
    destruct IH as (b & Hrun & Hb); [intros; apply Hl; by right|].
    mrun. unfold same_client. rewrite Hcl, Hk. mrun.
    destruct ((ClientId cl =? ClientId client) &&
              RtlEqualMemory k key (KeySize client)) eqn:Hsame.
    + exists true. split; [done|]. split; [|done]. intros _.
      exists c. split; [left|].
      apply andb_true_iff in Hsame as [Hid Hmem]. apply Z.eqb_eq in Hid.
      by exists C, cl, k.
    + exists b. split; [done|]. rewrite Hb. split.
      * intros (c' & Hc' & Hm). exists c'. split; [by right | done].
      * intros (c' & Hc' & Hm). apply elem_of_cons in Hc' as [->|Hc'].
        -- destruct Hm as (C' & cl' & k' & HC' & Hcl' & Hk' & Hid & Hmem).
           rewrite HC in HC'. injection HC' as <-.
           rewrite Hcl in Hcl'. injection Hcl' as <-.
           rewrite Hk in Hk'. injection Hk' as <-.
           apply Z.eqb_eq in Hid. rewrite Hid, Hmem in Hsame. discriminate.
        -- by exists c'.
Qed.

Lemma XdpIfRegisterClient_delete_pending s h X client key e :
  IfPool s !! h = Some X ->
  ClientId client <> XDP_BINDING_CLIENT_ID_INVALID -> 0 < KeySize client ->
  BindingDeleting X = true ->
  XdpIfRegisterClient h client (Some key) e s = Done STATUS_DELETE_PENDING s.
Proof.
  intros HX Hid Hsz Hdel. unfold XdpIfRegisterClient.
  apply Z.eqb_neq in Hid. apply Z.ltb_lt in Hsz. rewrite Hid, Hsz. simpl.
  mrun. by rewrite Hdel.
Qed.

Lemma XdpIfRegisterClient_duplicate s h X client key e :
  IfPool s !! h = Some X ->
  ClientId client <> XDP_BINDING_CLIENT_ID_INVALID -> 0 < KeySize client ->
  clients_registered s X ->
  BindingDeleting X = false ->
  (exists c, c ∈ Clients X /\ same_client_and_key s client key c) ->
  XdpIfRegisterClient h client (Some key) e s = Done STATUS_DUPLICATE_OBJECTID s.
Proof.
  intros HX Hid Hsz Hreg Hdel Hdup. unfold XdpIfRegisterClient.
  apply Z.eqb_neq in Hid. apply Z.ltb_lt in Hsz. rewrite Hid, Hsz. simpl.
  mrun. rewrite Hdel.
  destruct (XdpIfRegisterClient_while_run s client key (Clients X) Hreg)
    as (b & Hrun & Hb).
  mrun. rewrite Hrun. apply Hb in Hdup as ->. done.
Qed.

Lemma XdpIfRegisterClient_success s h X client key e E :
  IfPool s !! h = Some X ->
  ClientEntries s !! e = Some E ->
  ClientId client <> XDP_BINDING_CLIENT_ID_INVALID -> 0 < KeySize client ->
  clients_registered s X ->
  BindingDeleting X = false ->
  ~ (exists c, c ∈ Clients X /\ same_client_and_key s client key c) ->
  XdpIfRegisterClient h client (Some key) e s =
    Done STATUS_SUCCESS (registered s h X client key e).
Proof.
  intros HX HE Hid Hsz Hreg Hdel Hdup. unfold XdpIfRegisterClient.
  apply Z.eqb_neq in Hid. apply Z.ltb_lt in Hsz. rewrite Hid, Hsz. simpl.
  mrun. rewrite Hdel.
  destruct (XdpIfRegisterClient_while_run s client key (Clients X) Hreg)
    as (b & Hrun & Hb).
  mrun. rewrite Hrun.
  destruct b; [exfalso; apply Hdup, Hb; done|].
  mrun. rewrite (XdpIfpReferenceInterface_run _ h X) by done.
  mrun. unfold registered. destruct s as [sets ifsets ifs nmrs ents tr]; simpl.
  by rewrite !insert_insert_eq.
Qed.

(** C8.  XdpIfRegisterClient on a live binding, with a request that passes
    the routine's FRE_ASSERTs: it returns STATUS_DELETE_PENDING when the
    binding is marked BindingDeleting, STATUS_DUPLICATE_OBJECTID when a
    linked entry has the same client id and key, and in both cases leaves
    the whole state, hence the client list and the reference count, as it
    was.  Otherwise, for an entry that is not on a list (its link is empty
    and the client list of the binding does not hold it), it returns
    STATUS_SUCCESS, appends the entry to the client list, marks it linked,
    increments the reference count once and leaves the other fields of the
    binding, the other bindings and the other entries as they were. *)
Theorem XdpIfRegisterClient_outcomes s h X client key e E :
  IfPool s !! h = Some X ->
  ClientEntries s !! e = Some E ->
  ClientId client <> XDP_BINDING_CLIENT_ID_INVALID ->
  0 < KeySize client ->
  clients_registered s X ->
  (BindingDeleting X = true ->
     XdpIfRegisterClient h client (Some key) e s =
       Done STATUS_DELETE_PENDING s) /\
  (BindingDeleting X = false ->
   (exists c, c ∈ Clients X /\ same_client_and_key s client key c) ->
     XdpIfRegisterClient h client (Some key) e s =
       Done STATUS_DUPLICATE_OBJECTID s) /\
  (BindingDeleting X = false ->
   ~ (exists c, c ∈ Clients X /\ same_client_and_key s client key c) ->
   Linked E = false -> e ∉ Clients X ->
     exists s' X' E',
       XdpIfRegisterClient h client (Some key) e s = Done STATUS_SUCCESS s' /\
       IfPool s' !! h = Some X' /\
       Clients X' = Clients X ++ [e] /\
       (NoDup (Clients X) -> NoDup (Clients X')) /\
       ReferenceCount X' = InterlockedIncrement (ReferenceCount X) /\
       (-2147483648 <= ReferenceCount X < LONG_MAX ->
          ReferenceCount X' = ReferenceCount X + 1) /\
       X' = set_Clients (Clients X') (set_ReferenceCount (ReferenceCount X') X) /\
       (forall h', h' <> h -> IfPool s' !! h' = IfPool s !! h') /\
       ClientEntries s' !! e = Some E' /\ Linked E' = true /\
       Client E' = Some client /\ Key E' = Some key /\
       (forall e', e' <> e -> ClientEntries s' !! e' = ClientEntries s !! e') /\
       NmrPool s' = NmrPool s /\ IfSetPool s' = IfSetPool s /\
       XdpInterfaceSets s' = XdpInterfaceSets s /\ Trace s' = Trace s).
Proof.
  intros HX HE Hid Hsz Hreg. split; [|split].
  - intros Hdel. by eapply XdpIfRegisterClient_delete_pending.
  - intros Hdel Hdup. by eapply XdpIfRegisterClient_duplicate.
  - intros Hdel Hdup Hl Hne. eexists _, _, _. split.
    + by eapply XdpIfRegisterClient_success.
    + unfold registered; simpl. rewrite !lookup_insert_eq.
      split_and!; try done.
      * intros Hnd. apply NoDup_app. split_and!; [done| |apply NoDup_singleton].
        intros c Hc ->%list_elem_of_singleton. done.
      * apply InterlockedIncrement_succ.
      * intros h' Hh'. by rewrite lookup_insert_ne.
      * intros e' He'. by rewrite lookup_insert_ne.
Qed.

Lemma RemoveEntryList_not_elem e l : e ∉ l -> RemoveEntryList e l = l.
Proof.
  induction l as [|x l IH]; intros Hn; simpl; [done|].
  apply not_elem_of_cons in Hn as [Hne Hn].
  rewrite bool_decide_eq_false_2 by done. by rewrite IH.
Qed.

Lemma RemoveEntryList_unlinks e l : NoDup l -> e ∉ RemoveEntryList e l.
Proof.
  induction l as [|x l IH]; intros Hnd; simpl; [apply not_elem_of_nil|].
  apply NoDup_cons in Hnd as [Hx Hnd].
  destruct (decide (x = e)) as [->|Hne].
  - by rewrite bool_decide_eq_true_2.
  - rewrite bool_decide_eq_false_2 by done.
    apply not_elem_of_cons. split; [done | by apply IH].
Qed.

Lemma RemoveEntryList_length e l :
  e ∈ l -> S (length (RemoveEntryList e l)) = length l.
Proof.
  induction l as [|x l IH]; intros Hin; simpl; [by apply elem_of_nil in Hin|].
  destruct (decide (x = e)) as [->|Hne].
  - by rewrite bool_decide_eq_true_2.
  - rewrite bool_decide_eq_false_2 by done. simpl. f_equal. apply IH.
    apply elem_of_cons in Hin as [->|]; done.
Qed.

Lemma XdpIfDeregisterClient_linked s h X e E :
  IfPool s !! h = Some X ->
  ClientEntries s !! e = Some E ->
  Linked E = true ->
  InterlockedDecrement (ReferenceCount X) <> 0 ->
  XdpIfDeregisterClient h e s = Done tt (deregistered s h X e E).
Proof.
  intros HX HE Hl Hnz. unfold XdpIfDeregisterClient. mrun. rewrite Hl. mrun.
  erewrite XdpIfpDereferenceInterface_run; [|simpl; apply lookup_insert_eq|done].
  unfold deregistered. destruct s; simpl. by rewrite insert_insert_eq.
Qed.

Lemma XdpIfDeregisterClient_unlinked s h e E :
  ClientEntries s !! e = Some E ->
  Linked E = false ->
  XdpIfDeregisterClient h e s = Done tt s.
Proof. intros HE Hl. unfold XdpIfDeregisterClient. mrun. by rewrite Hl. Qed.

(** C9.  XdpIfDeregisterClient is idempotent.  On a linked entry of a
    binding that holds more than this one reference, the call removes the
    entry from the client list, marks it unlinked and decrements the
    reference count once.  On an entry that is not linked (freshly
    initialized, already deregistered, or unlinked by rundown) the call
    leaves the whole state as it was; in particular a second call after the
    first changes nothing. *)
Theorem XdpIfDeregisterClient_idempotent s h X e E :
  IfPool s !! h = Some X ->
  ClientEntries s !! e = Some E ->
  (Linked E = true ->
   NoDup (Clients X) ->
   1 < ReferenceCount X <= LONG_MAX ->
     exists s' X' E',
       XdpIfDeregisterClient h e s = Done tt s' /\
       IfPool s' !! h = Some X' /\
       ClientEntries s' !! e = Some E' /\
       Linked E' = false /\
       Clients X' = RemoveEntryList e (Clients X) /\
       (e ∉ Clients X') /\
       ReferenceCount X' = ReferenceCount X - 1 /\
       XdpIfDeregisterClient h e s' = Done tt s') /\
  (Linked E = false ->
     XdpIfDeregisterClient h e s = Done tt s).
Proof.
  intros HX HE. split.
  - intros Hl Hnd Hrc.
    assert (Hdec : InterlockedDecrement (ReferenceCount X) = ReferenceCount X - 1)
      by (apply InterlockedDecrement_pred; lia).
    exists (deregistered s h X e E). eexists _, _. split.
    + apply XdpIfDeregisterClient_linked; try done. lia.
    + unfold deregistered; simpl. rewrite !lookup_insert_eq.
      repeat split; try done.
      * by apply RemoveEntryList_unlinks.
      * eapply XdpIfDeregisterClient_unlinked; simpl;
          [apply lookup_insert_eq | done].
  - intros Hl. by eapply XdpIfDeregisterClient_unlinked.
Qed.


(** ** Provider references *)

Lemma XdpIfpReferenceProvider_rundown env s h X :
  IfPool s !! h = Some X ->
  Rundown X <> 0 ->
  XdpIfpReferenceProvider env h s = Done STATUS_DELETE_PENDING s.
Proof.
  intros HX Hr. unfold XdpIfpReferenceProvider. mrun.
  apply Z.eqb_neq in Hr. by rewrite Hr.
Qed.

(** C10.  A binding whose NmrDeleting bit is set and whose BindingDeleting
    bit is clear: XdpIfRegisterClient never returns STATUS_DELETE_PENDING
    and succeeds when the request is well formed and no linked entry has the
    same client id and key, whereas XdpIfpReferenceProvider, and with it
    XdpIfCreateRxQueue and XdpIfCreateTxQueue, fails with
    STATUS_DELETE_PENDING without changing the state, because it tests the
    whole Rundown byte. *)
Theorem NmrDeleting_refuses_queues_not_clients env s h X client key e E Config :
  IfPool s !! h = Some X ->
  ClientEntries s !! e = Some E ->
  NmrDeleting X = true ->
  BindingDeleting X = false ->
  (forall k s', XdpIfRegisterClient h client k e s <> Done STATUS_DELETE_PENDING s') /\
  (ClientId client <> XDP_BINDING_CLIENT_ID_INVALID ->
   0 < KeySize client ->
   clients_registered s X ->
   ~ (exists c, c ∈ Clients X /\ same_client_and_key s client key c) ->
     XdpIfRegisterClient h client (Some key) e s =
       Done STATUS_SUCCESS (registered s h X client key e)) /\
  XdpIfpReferenceProvider env h s = Done STATUS_DELETE_PENDING s /\
  XdpIfCreateRxQueue env h Config s = Done (STATUS_DELETE_PENDING, None, None) s /\
  XdpIfCreateTxQueue env h Config s = Done (STATUS_DELETE_PENDING, None, None) s.
Proof.
  intros HX HE Hnmr Hdel.
  assert (Hrun : XdpIfpReferenceProvider env h s = Done STATUS_DELETE_PENDING s)
    by (eapply XdpIfpReferenceProvider_rundown; [done | by apply Rundown_of_NmrDeleting]).
  split; [|split; [|split; [|split]]].
  - intros k s'. unfold XdpIfRegisterClient.
    destruct (ClientId client =? XDP_BINDING_CLIENT_ID_INVALID); [done|].
    destruct (0 <? KeySize client); simpl; [|done].
    destruct k as [k|]; [|done]. mrun. rewrite Hdel. intros Hret.
    apply bind_Done_inv in Hret as ([] & s1 & _ & Hret); [done|].
    repeat (apply bind_Done_inv in Hret as (? & ? & _ & Hret)).
    discriminate Hret.
  - intros. by eapply XdpIfRegisterClient_success.
  - done.
  - unfold XdpIfCreateRxQueue. mrun. by rewrite Hrun.
  - unfold XdpIfCreateTxQueue. mrun. by rewrite Hrun.
Qed.


(** ** Lookup *)

Lemma XdpIfSupportsHookId_true X Target :
  XdpIfSupportsHookId (Capabilities X) Target = true <-> supports_hook X Target.
Proof.
  unfold XdpIfSupportsHookId, supports_hook.
  induction (Hooks (Capabilities X)) as [|c l IH]; simpl.
  - split; [done|]. intros (c & Hc & _). by apply elem_of_nil in Hc.
  - destruct ((Layer Target =? Layer c) && (Direction Target =? Direction c) &&
              (SubLayer Target =? SubLayer c)) eqn:Heq.
    + split; [|done]. intros _. exists c. split; [left|].
      rewrite !andb_true_iff, !Z.eqb_eq in Heq. tauto.
    + rewrite IH. split.
      * intros (c' & Hc' & H'). exists c'. split; [by right | done].
      * intros (c' & Hc' & H1 & H2 & H3).
        apply elem_of_cons in Hc' as [->|Hc']; [|by exists c'].
        rewrite H1, H2, H3, !Z.eqb_refl in Heq. discriminate.
Qed.

Lemma XdpIfpSupportsHookIds_true X HookIds :
  XdpIfpSupportsHookIds (Capabilities X) HookIds = true <->
  forall Target, Target ∈ HookIds -> supports_hook X Target.
Proof.
  induction HookIds as [|t l IH]; simpl.
  - split; [|done]. intros _ t Ht. by apply elem_of_nil in Ht.
  - destruct (XdpIfSupportsHookId (Capabilities X) t) eqn:Ht; simpl.
    + rewrite IH. apply XdpIfSupportsHookId_true in Ht. split.
      * intros Hl t' Ht'. apply elem_of_cons in Ht' as [->|Ht']; auto.
      * intros Hl t' Ht'. apply Hl. by right.
    + split; [done|]. intros Hl.
      assert (supports_hook X t) as Hs by (apply Hl; left).
      apply XdpIfSupportsHookId_true in Hs. congruence.
Qed.

Lemma XdpIfpFindIfSet_while_none s IfIndex l :
  (forall p, p ∈ l ->
     exists S, IfSetPool s !! p = Some S /\ SetIfIndex S <> IfIndex) ->
  XdpIfpFindIfSet_while IfIndex l s = Done None s.
Proof.
  induction l as [|p l IH]; intros Hl; simpl; [done|].
  destruct (Hl p) as (S & HS & Hp); [left|].
  apply Z.eqb_neq in Hp. mrun. rewrite Hp. apply IH. intros q Hq. apply Hl.
  by right.
Qed.

Lemma XdpIfpFindIfSet_while_first s IfIndex pre hs IfSet post :
  IfSetPool s !! hs = Some IfSet ->
  SetIfIndex IfSet = IfIndex ->
  (forall p, p ∈ pre ->
     exists S, IfSetPool s !! p = Some S /\ SetIfIndex S <> IfIndex) ->
  XdpIfpFindIfSet_while IfIndex (pre ++ hs :: post) s = Done (Some hs) s.
Proof.
  intros Hhs Hi. induction pre as [|p l IH]; intros Hl; simpl.
  - apply Z.eqb_eq in Hi. mrun. by rewrite Hi.
  - destruct (Hl p) as (S & HS & Hp); [left|].
    apply Z.eqb_neq in Hp. mrun. rewrite Hp. apply IH. intros q Hq. apply Hl.
    by right.
Qed.

(** One iteration of the loop over the modes keeps the candidate found so
    far unless the slot of this mode holds a binding that qualifies. *)
Lemma XdpIfpFindInterface_body_run s IfSet HookIds RequiredMode Mode Interface :
  slots_live s IfSet ->
  exists r,
    XdpIfpFindInterface_body IfSet HookIds RequiredMode Mode Interface s
      = Done r s /\
    (forall h, qualifies s IfSet HookIds RequiredMode Mode h -> r = Some h) /\
    ((forall h, ~ qualifies s IfSet HookIds RequiredMode Mode h) -> r = Interface).
Proof.
  intros Hlive. unfold XdpIfpFindInterface_body, qualifies.
  destruct (slot Mode IfSet) as [c|] eqn:Hslot.
  2:{ exists Interface. split; [done|]. split; [|done]. by intros h [? _]. }
  destruct (Hlive Mode c Hslot) as [C HC].
  destruct RequiredMode as [Required|]; simpl.
  - destruct (decide (Required = Mode)) as [->|Hne].
    + rewrite bool_decide_eq_true_2 by done. simpl. mrun.
      destruct (XdpIfpSupportsHookIds (Capabilities C) HookIds) eqn:Hsup; simpl.
      * exists (Some c). split; [done|]. split.
        -- by intros h [[= ->] _].
        -- intros Hno. exfalso. apply (Hno c). split; [done|]. split; [by right|].
           exists C. split; [done|]. by apply XdpIfpSupportsHookIds_true.
      * exists Interface. split; [done|]. split; [|done].
        intros h ([= <-] & _ & X & HX & Hall). rewrite HC in HX. injection HX as <-.
        apply XdpIfpSupportsHookIds_true in Hall. congruence.
    + rewrite bool_decide_eq_false_2 by done. simpl.
      exists Interface. split; [done|]. split; [|done].
      intros h (_ & [|[= ]] & _); done.
  - mrun.
    destruct (XdpIfpSupportsHookIds (Capabilities C) HookIds) eqn:Hsup; simpl.
    + exists (Some c). split; [done|]. split.
      * by intros h [[= ->] _].
      * intros Hno. exfalso. apply (Hno c). split; [done|]. split; [by left|].
        exists C. split; [done|]. by apply XdpIfpSupportsHookIds_true.
    + exists Interface. split; [done|]. split; [|done].
      intros h ([= <-] & _ & X & HX & Hall). rewrite HC in HX. injection HX as <-.
      apply XdpIfpSupportsHookIds_true in Hall. congruence.
Qed.

Lemma XdpIfpFindInterface_no_set s IfIndex HookIds RequiredMode :
  no_set s IfIndex ->
  XdpIfpFindInterface IfIndex HookIds RequiredMode s = Done None s.
Proof.
  intros Hno. unfold XdpIfpFindInterface, XdpIfpFindIfSet. mrun.
  by rewrite XdpIfpFindIfSet_while_none.
Qed.

Lemma XdpIfpFindInterface_run s IfIndex IfSet HookIds RequiredMode :
  found_set s IfIndex IfSet ->
  slots_live s IfSet ->
  exists r,
    XdpIfpFindInterface IfIndex HookIds RequiredMode s = Done r s /\
    (forall h, qualifies s IfSet HookIds RequiredMode XDP_INTERFACE_MODE_NATIVE h ->
       r = Some h) /\
    (forall h, qualifies s IfSet HookIds RequiredMode XDP_INTERFACE_MODE_GENERIC h ->
       (forall h', ~ qualifies s IfSet HookIds RequiredMode XDP_INTERFACE_MODE_NATIVE h') ->
       r = Some h) /\
    ((forall Mode h, ~ qualifies s IfSet HookIds RequiredMode Mode h) -> r = None).
Proof.
  intros (pre & hs & post & Hsets & Hhs & Hidx & Hpre) Hlive.
  unfold XdpIfpFindInterface, XdpIfpFindIfSet. mrun.
  rewrite Hsets. erewrite XdpIfpFindIfSet_while_first by done. mrun.
  destruct (XdpIfpFindInterface_body_run s IfSet HookIds RequiredMode
              XDP_INTERFACE_MODE_GENERIC None Hlive) as (r1 & Hrun1 & Hq1 & Hn1).
  destruct (XdpIfpFindInterface_body_run s IfSet HookIds RequiredMode
              XDP_INTERFACE_MODE_NATIVE r1 Hlive) as (r2 & Hrun2 & Hq2 & Hn2).
  mrun. rewrite Hrun1, Hrun2. exists r2. split; [done|]. split; [done|]. split.
  - intros h Hg Hno. rewrite (Hn2 Hno). by apply Hq1.
  - intros Hno. rewrite Hn2, Hn1; [done| |]; intros h; apply Hno.
Qed.

(** C4.  XdpIfFindAndReferenceBinding, when every slotted binding of the
    set is live memory.  It returns null, leaving the state as it was, when
    the registry has no interface set for the index or when no slotted
    binding of the set qualifies (mode filter, every required hook id
    supported).  Otherwise it returns the last qualifying binding in the
    scan order generic, native: the native binding when it qualifies, else
    the generic one; and the state differs only by that binding's reference
    count, incremented once. *)
Theorem XdpIfFindAndReferenceBinding_outcomes
    s IfIndex HookIds RequiredMode :
  (no_set s IfIndex ->
     XdpIfFindAndReferenceBinding IfIndex HookIds RequiredMode s = Done None s) /\
  (forall IfSet,
     found_set s IfIndex IfSet ->
     slots_live s IfSet ->
     ((forall Mode h, ~ qualifies s IfSet HookIds RequiredMode Mode h) ->
        XdpIfFindAndReferenceBinding IfIndex HookIds RequiredMode s = Done None s) /\
     (forall h X,
        (qualifies s IfSet HookIds RequiredMode XDP_INTERFACE_MODE_NATIVE h \/
         qualifies s IfSet HookIds RequiredMode XDP_INTERFACE_MODE_GENERIC h /\
         forall h', ~ qualifies s IfSet HookIds RequiredMode
                        XDP_INTERFACE_MODE_NATIVE h') ->
        IfPool s !! h = Some X ->
        XdpIfFindAndReferenceBinding IfIndex HookIds RequiredMode s
          = Done (Some h) (referenced s h X) /\
        (-2147483648 <= ReferenceCount X < LONG_MAX ->
           ReferenceCount <$> IfPool (referenced s h X) !! h
             = Some (ReferenceCount X + 1)))).
Proof.
  split.
  - intros Hno. unfold XdpIfFindAndReferenceBinding. mrun.
    by rewrite XdpIfpFindInterface_no_set.
  - intros IfSet Hfound Hlive.
    destruct (XdpIfpFindInterface_run s IfIndex IfSet HookIds RequiredMode
                Hfound Hlive) as (r & Hrun & Hnat & Hgen & Hnone).
    unfold XdpIfFindAndReferenceBinding. split.
    + intros Hno. mrun. rewrite Hrun, (Hnone Hno). done.
    + intros h X Hq HX. split.
      * assert (r = Some h) as -> by (destruct Hq as [Hq|[Hq Hn]]; auto).
        mrun. rewrite Hrun. mrun.
        by rewrite (XdpIfpReferenceInterface_run s h X).
      * intros Hrc. unfold referenced; simpl. rewrite lookup_insert_eq. simpl.
        by rewrite InterlockedIncrement_succ.
Qed.


(** ** Rundown: the client loop *)

Lemma XdpIfpStartRundown_while_run cs : forall fuel s h X,
  IfPool s !! h = Some X ->
  Clients X = cs ->
  (length cs <= fuel)%nat ->
  NoDup cs ->
  (forall c, c ∈ cs -> is_Some (ClientEntries s !! c)) ->
  Z.of_nat (length cs) < ReferenceCount X <= LONG_MAX ->
  exists s',
    XdpIfpStartRundown_while fuel h s = Done tt s' /\
    clients_run_down s s' h X cs.
Proof.
  induction cs as [|c cs IH]; intros fuel s h X HX Hcs Hfuel Hnd Hents Hrc.
  - exists s. split.
    + destruct fuel; simpl; mrun; by rewrite Hcs.
    + unfold clients_run_down; simpl. rewrite Z.sub_0_r, app_nil_r.
      repeat split; try done.
      * symmetry. apply insert_id. rewrite HX. f_equal.
        destruct X; simpl in *. by subst.
      * intros c Hc. by apply elem_of_nil in Hc.
  - destruct fuel as [|fuel]; [simpl in Hfuel; lia|].
    apply NoDup_cons in Hnd as [Hc Hnd].
    destruct (Hents c) as [E HE]; [left|].
    simpl XdpIfpStartRundown_while. mrun. rewrite Hcs. mrun.
    unfold trace. mrun.
    rewrite Hcs. simpl RemoveEntryList. rewrite bool_decide_eq_true_2 by done.
    simpl length in Hrc.
    assert (Hdec : InterlockedDecrement (ReferenceCount X) = ReferenceCount X - 1)
      by (apply InterlockedDecrement_pred; lia).
    erewrite XdpIfpDereferenceInterface_run;
      [|simpl; apply lookup_insert_eq | simpl; lia].
    simpl ReferenceCount. rewrite Hdec.
    set (X1 := set_ReferenceCount (ReferenceCount X - 1) (set_Clients cs X)).
    set (s1 := with_ifs _ _).
    destruct (IH fuel s1 h X1)
      as (s' & Hrun & Hifs & Htr & Hin & Hout & Hnmr & Hsets & Hsp).
    { subst s1; simpl. apply lookup_insert_eq. }
    { done. }
    { simpl in Hfuel. lia. }
    { done. }
    { intros c' Hc'. subst s1; simpl.
      destruct (decide (c' = c)) as [->|Hne]; [by rewrite lookup_insert_eq|].
      rewrite lookup_insert_ne by done. apply Hents. by right. }
    { subst X1; simpl. lia. }
    exists s'. split; [done|].
    unfold clients_run_down. subst s1 X1; simpl in *.
    rewrite !insert_insert_eq in Hifs.
    repeat split.
    + rewrite Hifs. f_equal. unfold set_ReferenceCount, set_Clients; simpl.
      f_equal. lia.
    + rewrite Htr, <- app_assoc. done.
    + intros c' Hc'. apply elem_of_cons in Hc' as [->|Hc'].
      * exists E. split; [done|]. rewrite Hout by done. apply lookup_insert_eq.
      * destruct (Hin c' Hc') as (E' & HE' & HE'').
        assert (c' <> c) by (intros ->; done).
        rewrite lookup_insert_ne in HE' by done. by exists E'.
    + intros c' Hc'. apply not_elem_of_cons in Hc' as [Hne Hc'].
      rewrite Hout by done. by rewrite lookup_insert_ne.
    + done.
    + done.
    + done.
Qed.


(** ** Closing the provider attachment *)

Lemma XdpIfpDereferenceNmr_run s n N :
  NmrPool s !! n = Some N ->
  XdpIfpDereferenceNmr n s = Done tt (with_nmrs (release_nmr n N (NmrPool s)) s).
Proof.
  intros HN. unfold XdpIfpDereferenceNmr, release_nmr. mrun.
  destruct (to_ULONG (NmrReferenceCount N - 1) =? 0); mrun; [|done].
  by rewrite delete_insert_eq.
Qed.

Lemma Interlocked_inc_dec x :
  0 < x < LONG_MAX -> InterlockedDecrement (InterlockedIncrement x) = x.
Proof.
  intros Hx. rewrite InterlockedIncrement_succ by lia.
  rewrite InterlockedDecrement_pred by lia. lia.
Qed.

Lemma XdpIfQueueWorkItem_run s h X q item :
  IfPool s !! h = Some X ->
  WorkQueue X = Some q ->
  XdpIfQueueWorkItem h item s =
    Done tt (with_ifs
      (<[h := set_WorkQueue (Some (q ++ [item]))
                (set_ReferenceCount (InterlockedIncrement (ReferenceCount X)) X)]>
         (IfPool s)) s).
Proof.
  intros HX Hq. unfold XdpIfQueueWorkItem. mrun.
  rewrite (XdpIfpReferenceInterface_run s h X) by done. mrun.
  simpl. rewrite Hq. mrun. by rewrite insert_insert_eq.
Qed.

Lemma XdpIfpDetachNmrInterface_run s h X n N :
  IfPool s !! h = Some X ->
  NmrPool s !! n = Some N ->
  WorkItem_BindingHandle N = Some h ->
  is_Some (WorkQueue X) ->
  0 < ReferenceCount X < LONG_MAX ->
  XdpIfpDetachNmrInterface n s =
    Done tt (with_ifs (<[h := detach_queued n X]> (IfPool s))
               (with_nmrs (<[n := set_DetachNotification true N]> (NmrPool s)) s)).
Proof.
  intros HX HN Hb [q Hq] Hrc. unfold XdpIfpDetachNmrInterface. mrun.
  rewrite Hb. mrun.
  erewrite XdpIfQueueWorkItem_run; [|simpl; eassumption|done].
  erewrite XdpIfpDereferenceInterface_run; [|simpl; apply lookup_insert_eq|].
  2:{ simpl. rewrite Interlocked_inc_dec by done. lia. }
  simpl. rewrite Interlocked_inc_dec by done. rewrite insert_insert_eq.
  unfold detach_queued. rewrite Hq.
  destruct s, X; simpl in *. done.
Qed.

Lemma XdpIfpCloseNmrInterface_run s h X n N ph :
  IfPool s !! h = Some X ->
  Nmr X = Some n ->
  NmrPool s !! n = Some N ->
  NmrHandle N = Some ph ->
  (DetachNotification N = false ->
     WorkItem_BindingHandle N = Some h /\ is_Some (WorkQueue X)) ->
  0 < ReferenceCount X < LONG_MAX ->
  XdpIfpCloseNmrInterface h s = Done tt (nmr_closed s h X n N ph).
Proof.
  intros HX Hn HN Hph Hdet Hrc. unfold XdpIfpCloseNmrInterface, nmr_closed.
  mrun. rewrite Hn. mrun. rewrite Hph. unfold trace. mrun.
  destruct (DetachNotification N) eqn:Hd.
  - mrun. erewrite XdpIfpDereferenceNmr_run by (simpl; apply lookup_insert_eq).
    destruct s, N; simpl in *. subst. unfold release_nmr. norm.
    destruct (to_ULONG (NmrReferenceCount0 - 1) =? 0).
    + by rewrite delete_insert_eq, <- app_assoc.
    + by rewrite insert_insert_eq, <- app_assoc.
  - destruct Hdet as [Hb Hq]; [done|].
    erewrite XdpIfpDetachNmrInterface_run; [|simpl; eassumption..].
    mrun. erewrite XdpIfpDereferenceNmr_run by (simpl; apply lookup_insert_eq).
    destruct s, N; simpl in *. subst. unfold release_nmr. norm.
    rewrite !insert_insert_eq.
    destruct (to_ULONG (NmrReferenceCount0 - 1) =? 0).
    + by rewrite ?delete_insert_eq, <- app_assoc.
    + by rewrite ?insert_insert_eq, <- app_assoc.
Qed.

Lemma BindingDeleting_set_NmrDeleting b X :
  BindingDeleting (set_NmrDeleting b X) = BindingDeleting X.
Proof.
  unfold BindingDeleting, set_NmrDeleting, set_Rundown. cbn [Rundown].
  destruct b; [rewrite Z.lor_spec | rewrite Z.land_spec].
  - apply orb_false_r.
  - apply andb_true_r.
Qed.

Ltac side := simpl; first [eassumption | apply lookup_insert_eq | reflexivity | done].

Lemma step_on_refl h s X : IfPool s !! h = Some X -> step_on h s s X [].
Proof.
  intros HX. unfold step_on. rewrite app_nil_r, insert_id by done. done.
Qed.

Lemma step_on_trans h s s1 s2 X1 X2 e1 e2 :
  step_on h s s1 X1 e1 -> step_on h s1 s2 X2 e2 ->
  step_on h s s2 X2 (e1 ++ e2).
Proof.
  intros (H1 & H2 & H3 & H4 & H4') (H5 & H6 & H7 & H8 & H8'). unfold step_on.
  rewrite H5, H1, insert_insert_eq, H6, H2, H7, H3, H8, H4, H8', H4', app_assoc.
  done.
Qed.

Lemma step_on_lookup h s s' X' evs :
  step_on h s s' X' evs -> IfPool s' !! h = Some X'.
Proof. intros (-> & _). apply lookup_insert_eq. Qed.

Lemma XdpIfpCloseInterface_context_run s h X :
  IfPool s !! h = Some X ->
  (is_Some (InterfaceContext X) -> is_Some (InterfaceDispatch X)) ->
  exists s',
    XdpIfpCloseInterface_context h s = Done tt s' /\
    step_on h s s' (close_context X) (close_context_events X) /\
    NmrPool s' = NmrPool s.
Proof.
  intros HX Hd.
  unfold XdpIfpCloseInterface_context, close_context, close_context_events.
  mrun. destruct (InterfaceContext X) as [c|] eqn:Hc.
  - destruct Hd as [d Hd]; [done|]. rewrite Hd.
    unfold XdpIfpInvokeCloseInterface. mrun. rewrite Hd.
    destruct (CloseInterface d); unfold trace; mrun;
      (eexists; split; [reflexivity|]); unfold step_on; simpl;
      rewrite ?app_nil_r, ?Hc; done.
  - eexists; split; [reflexivity|]. split; [by apply step_on_refl | done].
Qed.

Lemma XdpIfpCloseInterface_nmr_run s h X :
  IfPool s !! h = Some X ->
  (forall n, Nmr X = Some n ->
     exists N ph,
       NmrPool s !! n = Some N /\ NmrHandle N = Some ph /\
       (DetachNotification N = false ->
          WorkItem_BindingHandle N = Some h /\ is_Some (WorkQueue X))) ->
  0 < ReferenceCount X < LONG_MAX ->
  exists s',
    XdpIfpCloseInterface_nmr h s = Done tt s' /\
    step_on h s s' (close_nmr s X) (close_nmr_events s X) /\
    NmrPool s' = closed_nmrs s X.
Proof.
  intros HX Hnmr Hrc.
  unfold XdpIfpCloseInterface_nmr, close_nmr, close_nmr_events, closed_nmrs.
  mrun. destruct (Nmr X) as [n|] eqn:Hn.
  - destruct (Hnmr n eq_refl) as (N & ph & HN & Hph & Hdet).
    rewrite HN, Hph. mrun.
    erewrite XdpIfpCloseNmrInterface_run; [|side..].
    unfold nmr_closed. mrun.
    eexists; split; [reflexivity|]. unfold step_on; simpl.
    by rewrite insert_insert_eq.
  - eexists; split; [reflexivity|]. split; [by apply step_on_refl | done].
Qed.

Lemma XdpIfpCloseInterface_complete_run s h X :
  IfPool s !! h = Some X ->
  exists s',
    XdpIfpCloseInterface_complete h s = Done tt s' /\
    step_on h s s' (close_complete X) (close_complete_events X) /\
    NmrPool s' = NmrPool s.
Proof.
  intros HX.
  unfold XdpIfpCloseInterface_complete, close_complete, close_complete_events.
  mrun. destruct (XdpIfInterfaceContext X) as [c|] eqn:Hc.
  - destruct (BindingDeleting X); unfold trace; mrun.
    + eexists; split; [reflexivity|]. unfold step_on; simpl. done.
    + eexists; split; [reflexivity|]. split; [by apply step_on_refl | done].
  - eexists; split; [reflexivity|]. split; [by apply step_on_refl | done].
Qed.

Lemma Nmr_close_context X : Nmr (close_context X) = Nmr X.
Proof. unfold close_context. by destruct (InterfaceContext X). Qed.

Lemma WorkQueue_close_context X : WorkQueue (close_context X) = WorkQueue X.
Proof. unfold close_context. by destruct (InterfaceContext X). Qed.

Lemma ReferenceCount_close_context X :
  ReferenceCount (close_context X) = ReferenceCount X.
Proof. unfold close_context. by destruct (InterfaceContext X). Qed.

(** XdpIfpCloseInterface on a live binding whose attachment is in order. *)
Lemma XdpIfpCloseInterface_run s h X :
  IfPool s !! h = Some X ->
  attachment_ok s h X ->
  0 < ReferenceCount X < LONG_MAX ->
  exists s',
    XdpIfpCloseInterface h s = Done tt s' /\ interface_closed s s' h X.
Proof.
  intros HX [Hdisp Hnmr] Hrc. unfold XdpIfpCloseInterface.
  destruct (XdpIfpCloseInterface_context_run s h X HX Hdisp)
    as (s1 & Hrun1 & Hstep1 & Hn1).
  destruct (XdpIfpCloseInterface_nmr_run s1 h (close_context X))
    as (s2 & Hrun2 & Hstep2 & Hn2).
  { by eapply step_on_lookup. }
  { rewrite Nmr_close_context, WorkQueue_close_context, Hn1. apply Hnmr. }
  { by rewrite ReferenceCount_close_context. }
  destruct (XdpIfpCloseInterface_complete_run s2 h (close_nmr s1 (close_context X)))
    as (s3 & Hrun3 & Hstep3 & Hn3).
  { by eapply step_on_lookup. }
  exists s3. split.
  - mrun. rewrite Hrun1. mrun. rewrite Hrun2. done.
  - assert (Hcn : close_nmr s1 (close_context X) = close_nmr s (close_context X))
      by (unfold close_nmr; by rewrite Hn1).
    assert (Hev : close_nmr_events s1 (close_context X) = close_nmr_events s X)
      by (unfold close_nmr_events; by rewrite Hn1, Nmr_close_context).
    assert (Hce : close_complete_events (close_nmr s1 (close_context X))
                  = close_complete_events X).
    { unfold close_complete_events, close_nmr, close_context.
      destruct (InterfaceContext X); simpl;
        destruct (Nmr X); simpl; try done;
        by rewrite BindingDeleting_set_NmrDeleting;
           destruct (if NmrPool s1 !! _ is Some N then DetachNotification N else true);
           unfold detach_queued; simpl; destruct (WorkQueue X). }
    split.
    + unfold closed_interface, close_events. rewrite <- Hcn, <- Hev, <- Hce.
      eapply step_on_trans; [done|]. eapply step_on_trans; done.
    + rewrite Hn3, Hn2. unfold closed_nmrs. by rewrite Nmr_close_context, Hn1.
Qed.


Lemma closed_interface_kept s X :
  Clients (closed_interface s X) = Clients X /\
  ReferenceCount (closed_interface s X) = ReferenceCount X /\
  ProviderReference (closed_interface s X) = ProviderReference X /\
  Capabilities (closed_interface s X) = Capabilities X /\
  BindingDeleting (closed_interface s X) = BindingDeleting X /\
  InterfaceContext (closed_interface s X) = None /\
  Nmr (closed_interface s X) = None.
Proof.
  unfold closed_interface, close_complete, close_nmr, close_context,
    detach_queued.
  destruct X as [ifi ifs xctx caps nmr ver disp ctx rc cl pr rd wq]. simpl.
  assert (Hodd : forall r, Z.odd (Z.land r 253) = Z.odd r).
  { intros r. rewrite <- !Z.bit0_odd, Z.land_spec. apply andb_true_r. }
  unfold BindingDeleting.
  destruct ctx; destruct nmr as [nm|]; destruct xctx; destruct wq; simpl;
    try destruct (if NmrPool s !! nm is Some N then DetachNotification N else true);
    simpl; rewrite ?Hodd; try destruct (Z.odd rd) eqn:Hb; simpl;
    rewrite ?Hodd, ?Hb; done.
Qed.

(** C5.  XdpIfpStartRundown on a live binding that is referenced by more
    than its client entries.  The provider attachment is closed, before any
    client is notified, exactly when the provider reference count is zero at
    entry: then the state [s1] the client loop starts from is the one left
    by XdpIfpCloseInterface, otherwise it is the entry state.  The loop then
    empties the client list: every entry that was linked is unlinked, its
    client's BindingDetached is called once, in list order, and the
    binding's reference count drops by one per entry. *)
Theorem XdpIfpStartRundown_closes_and_detaches fuel s h X :
  IfPool s !! h = Some X ->
  (ProviderReference X = 0 -> attachment_ok s h X) ->
  (length (Clients X) <= fuel)%nat ->
  NoDup (Clients X) ->
  (forall c, c ∈ Clients X -> is_Some (ClientEntries s !! c)) ->
  Z.of_nat (length (Clients X)) < ReferenceCount X < LONG_MAX ->
  exists s1 X1 s' X',
    (if ProviderReference X =? 0
     then XdpIfpCloseInterface h s = Done tt s1 /\
          interface_closed s s1 h X /\
          InterfaceContext X1 = None /\ Nmr X1 = None
     else s1 = s /\ X1 = X) /\
    IfPool s1 !! h = Some X1 /\
    XdpIfpStartRundown fuel h s = Done tt s' /\
    IfPool s' !! h = Some X' /\
    Clients X' = [] /\
    ReferenceCount X' = ReferenceCount X - Z.of_nat (length (Clients X)) /\
    Trace s' = Trace s1 ++ map EvBindingDetached (Clients X) /\
    (forall c, c ∈ Clients X ->
       exists E E',
         ClientEntries s !! c = Some E /\ ClientEntries s' !! c = Some E' /\
         Linked E' = false) /\
    (forall c, c ∉ Clients X -> ClientEntries s' !! c = ClientEntries s !! c).
Proof.
  intros HX Hatt Hfuel Hnd Hents Hrc. unfold XdpIfpStartRundown. mrun.
  destruct (Z.eqb_spec (ProviderReference X) 0) as [Hpr|Hpr].
  - destruct (XdpIfpCloseInterface_run s h X HX (Hatt Hpr)) as (s1 & Hrun & Hcl);
      [lia|].
    pose proof Hcl as [Hstep Hnmrs].
    destruct (closed_interface_kept s X) as (Hk1 & Hk2 & Hk3 & Hk4 & Hk5 & Hk6 & Hk7).
    pose proof (step_on_lookup _ _ _ _ _ Hstep) as HX1.
    destruct Hstep as (Hifs & Htr & Hce & Hsets & Hsp).
    destruct (XdpIfpStartRundown_while_run (Clients X) fuel s1 h
                (closed_interface s X)) as (s' & Hloop & Hi & Ht & Hin & Hout & _);
      try done.
    { intros c Hc. rewrite Hce. by apply Hents. }
    { rewrite Hk2. lia. }
    exists s1, (closed_interface s X), s'. eexists.
    rewrite Hrun. mrun. rewrite Hloop.
    split; [done|]. split; [done|]. split; [done|].
    split; [rewrite Hi; apply lookup_insert_eq|]. simpl.
    split; [done|]. split; [by rewrite Hk2|]. split; [done|]. split.
    + intros c Hc. destruct (Hin c Hc) as (E & HE & HE').
      rewrite Hce in HE. by exists E, (set_Linked false E).
    + intros c Hc. rewrite Hout by done. by rewrite Hce.
  - destruct (XdpIfpStartRundown_while_run (Clients X) fuel s h X)
      as (s' & Hloop & Hi & Ht & Hin & Hout & _); try done; [lia|].
    exists s, X, s'. eexists. mrun. rewrite Hloop.
    split; [done|]. split; [done|]. split; [done|].
    split; [rewrite Hi; apply lookup_insert_eq|]. simpl.
    split; [done|]. split; [done|]. split; [done|]. split; [|done].
    intros c Hc. destruct (Hin c Hc) as (E & HE & HE').
    by exists E, (set_Linked false E).
Qed.

(** ** Capability validation *)

Lemma XdpValidateCapabilitiesEx_true C TotalSize :
  XdpValidateCapabilitiesEx C TotalSize = true <->
  XDP_CAPABILITIES_EX_REVISION_1 <= Header_Revision C /\
  XDP_SIZEOF_CAPABILITIES_EX_REVISION_1 <= Header_Size C /\
  ~ version_array_out_of_bounds C TotalSize.
Proof.
  unfold XdpValidateCapabilitiesEx, version_array_out_of_bounds, out_of_bounds,
    RtlUInt32Mult, RtlUInt32Add.
  destruct (Z.ltb_spec (Header_Revision C) XDP_CAPABILITIES_EX_REVISION_1);
  destruct (Z.ltb_spec (Header_Size C) XDP_SIZEOF_CAPABILITIES_EX_REVISION_1);
    simpl; try (split; [discriminate | lia]).
  destruct (Z.leb_spec (DriverApiVersionCount C * sizeof_XDP_VERSION) UINT32_MAX);
    simpl; [| split; [discriminate | lia]].
  destruct (Z.leb_spec
    (DriverApiVersionsOffset C + DriverApiVersionCount C * sizeof_XDP_VERSION)
    UINT32_MAX); simpl; [| split; [discriminate | lia]].
  rewrite Z.leb_le. lia.
Qed.

(** ** Version negotiation *)

Lemma XdpVersionIsSupported_true Version Minimum :
  XdpVersionIsSupported Version Minimum = true <->
  Major Version = Major Minimum /\
  Minor Minimum <= Minor Version /\
  Patch Minimum <= Patch Version.
Proof.
  unfold XdpVersionIsSupported.
  rewrite !andb_true_iff, Z.eqb_eq, !Z.leb_le. tauto.
Qed.

Lemma candidate_accepted_dec Get v :
  candidate_accepted Get v <->
  XdpVersionIsSupported XdpDriverApiCurrentVersion v &&
    NT_SUCCESS (Get v).1.1 = true.
Proof.
  unfold candidate_accepted.
  rewrite andb_true_iff, XdpVersionIsSupported_true. tauto.
Qed.

Lemma XdpRequestClientDispatch_for_none Get l out X :
  (forall v, v ∈ l -> ~ candidate_accepted Get v) ->
  let r := XdpRequestClientDispatch_for Get l STATUS_NOT_SUPPORTED out X in
  r.1.1 = STATUS_NOT_SUPPORTED /\ r.2 = X.
Proof.
  revert out. induction l as [|v l IH]; intros out Hno; simpl; [done|].
  assert (Hv : ~ candidate_accepted Get v) by (apply Hno; left).
  assert (Hl : forall w, w ∈ l -> ~ candidate_accepted Get w)
    by (intros w Hw; apply Hno; by right).
  rewrite candidate_accepted_dec in Hv.
  destruct (XdpVersionIsSupported _ v); [|by apply IH].
  destruct (Get v) as [[St ctx] disp]; simpl in Hv.
  destruct (NT_SUCCESS St); [done|]. by apply IH.
Qed.

Lemma XdpRequestClientDispatch_for_first Get pre v post out X :
  (forall w, w ∈ pre -> ~ candidate_accepted Get w) ->
  candidate_accepted Get v ->
  XdpRequestClientDispatch_for Get (pre ++ v :: post) STATUS_NOT_SUPPORTED out X
  = ((Get v).1.1, ((Get v).1.2, (Get v).2), set_DriverApiVersion v X).
Proof.
  revert out. induction pre as [|w pre IH]; intros out Hno Hv; simpl.
  - apply candidate_accepted_dec, andb_true_iff in Hv as [-> Hs].
    destruct (Get v) as [[St ctx] disp]; simpl in *. by rewrite Hs.
  - assert (Hw : ~ candidate_accepted Get w) by (apply Hno; left).
    assert (Hl : forall u, u ∈ pre -> ~ candidate_accepted Get u)
      by (intros u Hu; apply Hno; by right).
    rewrite candidate_accepted_dec in Hw.
    destruct (XdpVersionIsSupported _ w); [|by apply IH].
    destruct (Get w) as [[St ctx] disp]; simpl in Hw.
    destruct (NT_SUCCESS St); [done|]. by apply IH.
Qed.

(** C2.  XdpRequestClientDispatch walks the provider's list in the
    provider's order.  It succeeds with exactly the first candidate that is
    accepted (same major, minor and patch not above the current version, and
    the provider's dispatch request for it succeeds): it returns that
    request's status and out parameters and records the candidate as the
    negotiated version.  Candidates before it, whose version does not fit or
    whose dispatch request fails, are skipped.  When no candidate is
    accepted the result is STATUS_NOT_SUPPORTED and the interface is left as
    it was. *)
Theorem XdpRequestClientDispatch_first_accepted
    (C : XDP_CAPABILITIES_EX)
    (Get : XDP_VERSION -> Z * option handle * option XDP_INTERFACE_DISPATCH)
    (X : XDP_INTERFACE) :
  (forall pre v post,
     candidates C = pre ++ v :: post ->
     (forall w, w ∈ pre -> ~ candidate_accepted Get w) ->
     candidate_accepted Get v ->
     XdpRequestClientDispatch C Get X =
       ((Get v).1.1, ((Get v).1.2, (Get v).2), set_DriverApiVersion v X) /\
     NT_SUCCESS (XdpRequestClientDispatch C Get X).1.1 = true) /\
  ((forall w, w ∈ candidates C -> ~ candidate_accepted Get w) ->
     (XdpRequestClientDispatch C Get X).1.1 = STATUS_NOT_SUPPORTED /\
     NT_SUCCESS (XdpRequestClientDispatch C Get X).1.1 = false /\
     (XdpRequestClientDispatch C Get X).2 = X).
Proof.
  unfold XdpRequestClientDispatch. fold (candidates C). split.
  - intros pre v post -> Hpre Hv.
    rewrite XdpRequestClientDispatch_for_first by done. split; [done|].
    apply Hv.
  - intros Hno.
    destruct (XdpRequestClientDispatch_for_none Get (candidates C) (None, None) X Hno)
      as [H1 H2].
    rewrite H1. done.
Qed.


Lemma alloc_if_run s X :
  alloc_if X s =
    Done (fresh (dom (IfPool s)))
      (with_ifs (<[fresh (dom (IfPool s)) := X]> (IfPool s)) s).
Proof. reflexivity. Qed.

Lemma fresh_pool_None {A} (m : gmap nat A) : m !! fresh (dom m) = None.
Proof. apply not_elem_of_dom, is_fresh. Qed.

Lemma XdpIfAddInterfaces_for_fail env IfSet A post St pre : forall Index s,
  is_Some (IfSetPool s !! IfSet) ->
  (forall i B, pre !! i = Some B -> passes env (Index + i) B) ->
  fails_with env (Index + length pre) A St ->
  exists s1 hs,
    XdpIfAddInterfaces_for env IfSet Index (pre ++ A :: post) s =
      Done (St, zip_with (fun h B => set_InterfaceHandle (Some h) B) hs pre
                ++ A :: post) s1 /\
    batch_added s s1 IfSet pre hs.
Proof.
  induction pre as [|B pre IH]; intros Index s [IS HS] Hpass Hfail.
  - exists s, []. simpl in *. rewrite Nat.add_0_r in Hfail. split.
    + fold (valid_capabilities A).
      destruct Hfail as [[Hv ->]|[(Hv & Ha & ->)|(Hv & Ha & Hw & ->)]];
        rewrite Hv; simpl; [done|rewrite Ha; done|].
      rewrite Ha, Hw. simpl. mrun. rewrite alloc_if_run. mrun.
      destruct s; simpl. rewrite delete_insert_eq.
      rewrite delete_id by apply fresh_pool_None. done.
    + unfold batch_added. simpl. split_and!; try done.
      * apply NoDup_nil_2.
      * intros h Hh. by apply elem_of_nil in Hh.
  - destruct (Hpass 0%nat B eq_refl) as (Hv & Ha & Hw).
    rewrite Nat.add_0_r in Ha, Hw. unfold valid_capabilities in Hv.
    simpl. rewrite Hv, Ha, Hw. simpl. mrun. rewrite alloc_if_run. mrun.
    set (h := fresh (dom (IfPool s))).
    rewrite !insert_insert_eq.
    set (sb := with_ifsets _ _).
    destruct (IH (S Index) sb) as (s1 & hs & Hrun & Hadd).
    { subst sb; simpl. rewrite lookup_insert_eq. eauto. }
    { intros i B' HB'. rewrite Nat.add_succ_l, <- Nat.add_succ_r.
      by apply Hpass. }
    { simpl in Hfail. by rewrite Nat.add_succ_l, <- Nat.add_succ_r. }
    exists s1, (h :: hs). rewrite Hrun. split; [done|].
    destruct Hadd as (Hlen & Hnd & Hfresh & Hnew & Hold & Hset & Hsets & Hn & He & Ht & Hl).
    assert (Hh : h ∉ hs).
    { intros Hin. apply Hfresh in Hin. subst sb; simpl in Hin.
      by rewrite lookup_insert_eq in Hin. }
    unfold batch_added. subst sb; simpl in *. split_and!; try done.
    + by rewrite Hlen.
    + by apply NoDup_cons.
    + intros h' [->|Hin]%elem_of_cons; [apply fresh_pool_None|].
      pose proof (Hfresh h' Hin) as Hf.
      rewrite lookup_insert_ne in Hf; [done|]. intros <-. done.
    + intros [|i] h' B' Hh' HB'; simpl in Hh', HB'.
      * injection Hh' as <-. injection HB' as <-.
        rewrite Hold by done. rewrite lookup_insert_eq.
        eexists. split; [done|]. simpl. eauto.
      * eapply Hnew; eauto.
    + intros h' [Hne Hin]%not_elem_of_cons. rewrite Hold by done.
      by rewrite lookup_insert_ne.
    + intros k Hk. rewrite Hsets by done. by rewrite lookup_insert_ne.
Qed.

Lemma set_InterfaceHandle_None A :
  InterfaceHandle A = None -> set_InterfaceHandle None A = A.
Proof. destruct A; simpl. by intros ->. Qed.

Lemma slot_set_slot_None m m' IS :
  slot m IS = None -> slot m (set_slot m' None IS) = None.
Proof. destruct m, m'; simpl; done. Qed.

Lemma slot_set_slot_eq m v IS : slot m (set_slot m v IS) = v.
Proof. by destruct m. Qed.

Lemma XdpIfAddInterfaces_unwind_run IfSet outs : forall s1,
  NoDup (handles outs) ->
  (forall h, h ∈ handles outs ->
     exists X, IfPool s1 !! h = Some X /\ ReferenceCount X = 1 /\
       is_Some (WorkQueue X)) ->
  is_Some (IfSetPool s1 !! IfSet) ->
  exists s2,
    XdpIfAddInterfaces_unwind IfSet outs s1 =
      Done (map (set_InterfaceHandle None) outs) s2 /\
    batch_unwound s1 s2 IfSet (handles outs).
Proof.
  unfold batch_unwound.
  induction outs as [|O outs IH]; intros s1 Hnd Hlive [IS HS].
  - exists s1. simpl. rewrite app_nil_r. split_and!; try done.
    + intros h Hh. by apply elem_of_nil in Hh.
    + intros S1 S2 H1 H2. rewrite H1 in H2. injection H2 as <-.
      split_and!; try done. intros h X Hh. by apply elem_of_nil in Hh.
  - unfold handles in *. simpl in *.
    destruct (InterfaceHandle O) as [h|] eqn:HO; simpl in *.
    + apply NoDup_cons in Hnd as [Hh Hnd].
      destruct (Hlive h) as (X & HX & Hrc & [q Hq]); [left|].
      mrun.
      erewrite XdpIfpDereferenceInterface_run_last;
        [|simpl; eassumption | rewrite Hrc; reflexivity].
      rewrite Hq. mrun.
      set (sa := with_ifs _ _).
      destruct (IH sa) as (s2 & Hrun & Hgone & Hkeep & Htr & Hset & Hsets & Hslots & Hn & He & Hl).
      { done. }
      { intros h' Hh'. destruct (Hlive h') as (X' & HX' & HX''); [by right|].
        exists X'. split; [|done]. subst sa; simpl.
        rewrite lookup_delete_ne; [done|]. intros <-. done. }
      { subst sa; simpl. rewrite lookup_insert_eq. eauto. }
      exists s2. rewrite Hrun. subst sa; simpl in *. split_and!; try done.
      * intros h' [->|Hh']%elem_of_cons; [|by apply Hgone].
        rewrite Hkeep by done. apply lookup_delete_eq.
      * intros h' [Hne Hh']%not_elem_of_cons. rewrite Hkeep by done.
        by rewrite lookup_delete_ne.
      * by rewrite Htr, <- app_assoc.
      * intros k Hk. rewrite Hsets by done. by rewrite lookup_insert_ne.
      * intros S1 S2 H1 H2. rewrite HS in H1. injection H1 as <-.
        destruct (Hslots (set_slot (Mode (Capabilities X)) None IS) S2)
          as (Hi & Hnone & Hcleared); [apply lookup_insert_eq | done |].
        split_and!; [done| |].
        -- intros m Hm. by apply Hnone, slot_set_slot_None.
        -- intros h' X' [->|Hh']%elem_of_cons HX'.
           ++ rewrite HX in HX'. injection HX' as <-.
              apply Hnone, slot_set_slot_eq.
           ++ apply (Hcleared h'); [done|].
              rewrite lookup_delete_ne; [done|]. intros <-. done.
    + destruct (IH s1) as (s2 & Hrun & Hrest); [done|done|eauto|].
      exists s2. mrun. rewrite Hrun. split; [|done].
      by rewrite set_InterfaceHandle_None.
Qed.

Lemma handles_zip hs pre post :
  length hs = length pre ->
  Forall (fun A => InterfaceHandle A = None) post ->
  handles (zip_with (fun h B => set_InterfaceHandle (Some h) B) hs pre ++ post)
    = hs.
Proof.
  unfold handles. intros Hlen Hpost. rewrite omap_app.
  assert (omap InterfaceHandle post = []) as ->.
  { induction Hpost as [|A post HA _ IH]; simpl; [done|]. by rewrite HA. }
  rewrite app_nil_r. revert pre Hlen.
  induction hs as [|h hs IH]; intros [|B pre] Hlen; simpl in *; try done.
  f_equal. apply IH. lia.
Qed.

Lemma unwind_zip hs pre post :
  length hs = length pre ->
  Forall (fun A => InterfaceHandle A = None) (pre ++ post) ->
  map (set_InterfaceHandle None)
    (zip_with (fun h B => set_InterfaceHandle (Some h) B) hs pre ++ post)
    = pre ++ post.
Proof.
  intros Hlen [Hpre Hpost]%Forall_app. rewrite map_app. f_equal.
  - revert hs Hlen. induction Hpre as [|B pre HB _ IH]; intros [|h hs] Hlen;
      simpl in *; try done.
    f_equal; [destruct B; simpl in *; by subst | apply IH; lia].
  - induction Hpost as [|A post HA _ IH]; simpl; [done|].
    by rewrite set_InterfaceHandle_None, IH.
Qed.

(** The lookup routines only read the state. *)
Lemma get_if_inv s h X s' : get_if h s = Done X s' -> s' = s /\ IfPool s !! h = Some X.
Proof. unfold get_if. destruct (IfPool s !! h); [|done]. by intros [= -> ->]. Qed.

Lemma get_ifset_inv s h S s' :
  get_ifset h s = Done S s' -> s' = s /\ IfSetPool s !! h = Some S.
Proof. unfold get_ifset. destruct (IfSetPool s !! h); [|done]. by intros [= -> ->]. Qed.

Lemma XdpIfpFindIfSet_while_inv IfIndex l s r s' :
  XdpIfpFindIfSet_while IfIndex l s = Done r s' -> s' = s.
Proof.
  induction l as [|p l IH]; simpl; [by intros [= _ ->]|].
  intros (C & s1 & [-> _]%get_ifset_inv & Hrest)%bind_Done_inv.
  destruct (SetIfIndex C =? IfIndex); [by injection Hrest as _ ->|by apply IH].
Qed.

Lemma XdpIfpFindInterface_body_inv IfSet HookIds RequiredMode Mode Interface s r s' :
  XdpIfpFindInterface_body IfSet HookIds RequiredMode Mode Interface s = Done r s' ->
  s' = s /\ (r = Interface \/ exists h, r = Some h /\ is_Some (IfPool s !! h)).
Proof.
  unfold XdpIfpFindInterface_body.
  destruct (slot Mode IfSet) as [c|]; [|intros [= <- <-]; auto].
  destruct (match RequiredMode with Some _ => _ | None => _ end);
    [intros [= <- <-]; auto|].
  intros (C & s1 & [-> HC]%get_if_inv & Hrest)%bind_Done_inv.
  destruct (negb _); injection Hrest as <- <-; eauto.
Qed.


Lemma fails_with_not_success env Index A St :
  fails_with env Index A St -> NT_SUCCESS St = false.
Proof. intros [[_ ->]|[(_ & _ & ->)|(_ & _ & _ & ->)]]; reflexivity. Qed.

(** A batch whose element [A] is the first to fail. *)
Lemma XdpIfAddInterfaces_failure env IfSet pre A post St s :
  is_Some (IfSetPool s !! IfSet) ->
  Forall (fun A => InterfaceHandle A = None) (pre ++ A :: post) ->
  (forall i B, pre !! i = Some B -> passes env i B) ->
  fails_with env (length pre) A St ->
  exists s' hs,
    XdpIfAddInterfaces env IfSet (pre ++ A :: post) s
      = Done (St, pre ++ A :: post) s' /\
    length hs = length pre /\
    (forall h, h ∈ hs -> IfPool s !! h = None) /\
    IfPool s' = IfPool s /\
    Trace s' = Trace s ++ map EvXdpShutdownWorkQueue hs /\
    (exists S', IfSetPool s' !! IfSet = Some S' /\
       forall B, B ∈ pre -> slot (Mode (InterfaceCapabilities B)) S' = None) /\
    (forall k, k <> IfSet -> IfSetPool s' !! k = IfSetPool s !! k) /\
    NmrPool s' = NmrPool s /\ ClientEntries s' = ClientEntries s /\
    XdpInterfaceSets s' = XdpInterfaceSets s.
Proof.
  intros [IS HS] Hnull Hpass Hfail. unfold XdpIfAddInterfaces. mrun.
  destruct (XdpIfAddInterfaces_for_fail env IfSet A post St pre 0%nat s)
    as (s1 & hs & Hrun & Hadd); [eauto|done|done|].
  rewrite Hrun. rewrite (fails_with_not_success _ _ _ _ Hfail). simpl.
  destruct Hadd as (Hlen & Hnd & Hfresh & Hnew & Hold & Hset1 & Hsets1
                    & Hn1 & He1 & Ht1 & Hl1).
  assert (Hpost : Forall (fun A => InterfaceHandle A = None) (A :: post))
    by (by apply Forall_app in Hnull as [_ ?]).
  pose proof (handles_zip hs pre (A :: post) Hlen Hpost) as Hhs.
  destruct (XdpIfAddInterfaces_unwind_run IfSet
              (zip_with (fun h B => set_InterfaceHandle (Some h) B) hs pre
                 ++ A :: post) s1)
    as (s2 & Hrun2 & Hgone & Hkeep & Htr & Hset2 & Hsets2 & Hslots & Hn2 & He2 & Hl2).
  { by rewrite Hhs. }
  { rewrite Hhs. intros h Hh. apply list_elem_of_lookup in Hh as [i Hi].
    destruct (lookup_lt_is_Some_2 pre i) as [B HB].
    { rewrite <- Hlen. by eapply lookup_lt_Some. }
    destruct (Hnew i h B Hi HB) as (X & HX & Hrc & _ & Hq). eauto. }
  { done. }
  rewrite Hhs in *. mrun. rewrite Hrun2. rewrite unwind_zip by done.
  exists s2, hs. split_and!; try done.
  - apply map_eq. intros h. destruct (decide (h ∈ hs)) as [Hh|Hh].
    + by rewrite Hgone, Hfresh.
    + by rewrite Hkeep, Hold.
  - by rewrite Htr, Ht1.
  - destruct Hset1 as [S1 HS1]. destruct Hset2 as [S2 HS2].
    exists S2. split; [done|]. intros B HB.
    apply list_elem_of_lookup in HB as [i HB].
    destruct (lookup_lt_is_Some_2 hs i) as [h Hh].
    { rewrite Hlen. by eapply lookup_lt_Some. }
    destruct (Hnew i h B Hh HB) as (X & HX & _ & Hcaps & _).
    destruct (Hslots S1 S2 HS1 HS2) as (_ & _ & Hcl).
    rewrite <- Hcaps. eapply Hcl; [|done]. apply list_elem_of_lookup. eauto.
  - intros k Hk. by rewrite Hsets2, Hsets1.
  - by rewrite Hn2.
  - by rewrite He2.
  - by rewrite Hl2.
Qed.


(** C1, as the code has it.  XdpValidateCapabilitiesEx rejects every blob
    whose driver API version array, DriverApiVersionsOffset +
    DriverApiVersionCount * sizeof(XDP_VERSION), overflows 32 bits or ends
    beyond the total size of the blob; the hook id array is not examined.
    XdpIfAddInterfaces, reaching such an element [A] of a batch whose
    handle cells are null on entry, fails with STATUS_NOT_SUPPORTED before
    allocating anything for it: the handle cells are null on return and the
    pool of bindings is what it was before the call. *)
Theorem XdpValidateCapabilitiesEx_rejects_version_array env IfSet pre A post s :
  version_array_out_of_bounds (CapabilitiesEx (InterfaceCapabilities A))
    (CapabilitiesSize (InterfaceCapabilities A)) ->
  XdpValidateCapabilitiesEx (CapabilitiesEx (InterfaceCapabilities A))
    (CapabilitiesSize (InterfaceCapabilities A)) = false /\
  (is_Some (IfSetPool s !! IfSet) ->
   Forall (fun A => InterfaceHandle A = None) (pre ++ A :: post) ->
   (forall i B, pre !! i = Some B -> passes env i B) ->
   exists s' out,
     XdpIfAddInterfaces env IfSet (pre ++ A :: post) s
       = Done (STATUS_NOT_SUPPORTED, out) s' /\
     Forall (fun A => InterfaceHandle A = None) out /\
     IfPool s' = IfPool s).
Proof.
  intros Hoob.
  assert (Hv : XdpValidateCapabilitiesEx (CapabilitiesEx (InterfaceCapabilities A))
                 (CapabilitiesSize (InterfaceCapabilities A)) = false).
  { apply not_true_is_false. intros Ht.
    apply XdpValidateCapabilitiesEx_true in Ht as (_ & _ & Hin). done. }
  split; [done|]. intros HS Hnull Hpass.
  destruct (XdpIfAddInterfaces_failure env IfSet pre A post STATUS_NOT_SUPPORTED s
              HS Hnull Hpass) as (s' & hs & Hrun & _ & _ & Hifs & _).
  { left. done. }
  by exists s', (pre ++ A :: post).
Qed.

(** ** Opening the provider attachment *)

Lemma XdpRequestClientDispatch_for_frame Get l : forall St out X,
  let r := XdpRequestClientDispatch_for Get l St out X in
  NT_SUCCESS St = false ->
  (r.2 = X \/ exists v, r.2 = set_DriverApiVersion v X) /\
  (NT_SUCCESS r.1.1 = true -> exists v, Get v = (r.1.1, r.1.2.1, r.1.2.2)).
Proof.
  induction l as [|v l IH]; intros St out X; simpl; intros HSt.
  - split; [by left | congruence].
  - destruct (XdpVersionIsSupported _ v); [|by apply IH].
    destruct (Get v) as [[St' ctx] disp] eqn:HG.
    destruct (NT_SUCCESS St') eqn:HS; simpl.
    + split; [right; eauto | intros _; eauto].
    + by apply IH.
Qed.

Lemma XdpRequestClientDispatch_frame C Get X :
  ((XdpRequestClientDispatch C Get X).2 = X \/
   exists v, (XdpRequestClientDispatch C Get X).2 = set_DriverApiVersion v X) /\
  (NT_SUCCESS (XdpRequestClientDispatch C Get X).1.1 = true ->
   exists v, Get v = ((XdpRequestClientDispatch C Get X).1.1,
                      (XdpRequestClientDispatch C Get X).1.2.1,
                      (XdpRequestClientDispatch C Get X).1.2.2)).
Proof. unfold XdpRequestClientDispatch. by apply XdpRequestClientDispatch_for_frame. Qed.

Lemma alloc_nmr_run s N :
  alloc_nmr N s =
    Done (fresh (dom (NmrPool s)))
      (with_nmrs (<[fresh (dom (NmrPool s)) := N]> (NmrPool s)) s).
Proof. reflexivity. Qed.

Lemma same_binding_refl X : same_binding X X.
Proof. by unfold same_binding. Qed.

Ltac snorm :=
  unfold with_sets, with_ifsets, with_ifs, with_nmrs, with_entries, with_trace;
  simpl.

Ltac mrun' := repeat (mrun; progress snorm).

Lemma XdpIfpOpenInterface_body_run env s h X :
  IfPool s !! h = Some X ->
  InterfaceContext X = None ->
  Nmr X = None ->
  -2147483648 <= ReferenceCount X < LONG_MAX ->
  provider_ok env ->
  exists St sb,
    XdpIfpOpenInterface_body env h s = Done St sb /\ at_exit s sb h X St.
Proof.
  intros HX Hctx Hnmr Hrc Hprov. unfold XdpIfpOpenInterface_body, at_exit. mrun.
  destruct (_ || _).
  { exists STATUS_NOT_SUPPORTED, s. split; [done|]. exists X, [].
    split_and!; [by apply step_on_refl | apply same_binding_refl |]. left. done. }
  destruct (AllocateNmr env); simpl.
  2:{ mrun. eexists _, _. split; [done|]. exists (set_Nmr None X), [].
      split_and!; [|done|left; done].
      unfold step_on; simpl. by rewrite app_nil_r. }
  mrun. rewrite alloc_nmr_run. 
  pose proof (fresh_pool_None (NmrPool s)) as Hfresh.
  set (n := fresh (dom (NmrPool s))) in *.
  destruct s as [sets ifsets ifs nmrs ents tr]; simpl in *.
  mrun'.
  rewrite (XdpIfpReferenceInterface_run _ h (set_Nmr (Some n) X)) by side.
  mrun'. rewrite !insert_insert_eq. 
  rewrite InterlockedIncrement_succ by done.
  destruct (XdpOpenProvider env _ _) as [St ph].
  destruct (NT_SUCCESS St) eqn:HSt; simpl.
  2:{ mrun. eexists _, _. split; [done|]. eexists _, []. split_and!.
      - unfold step_on; simpl. by rewrite app_nil_r.
      - done.
      - right. eexists n, _. split_and!; try done.
        left. done. }
  mrun'. rewrite !insert_insert_eq.
  set (X4 := set_ReferenceCount _ _).
  set (N4 := set_NmrHandle _ _).
  assert (HN4 : NmrReferenceCount N4 = 2 /\ WorkItem_BindingHandle N4 = Some h /\
                DetachNotification N4 = false /\ is_Some (NmrHandle N4))
    by (subst N4; simpl; eauto).
  clearbody N4.
  pose proof (XdpRequestClientDispatch_frame (CapabilitiesEx (Capabilities X))
                (GetInterfaceDispatch env) X4) as [Hshape Hget].
  destruct (XdpRequestClientDispatch _ _ X4) as [[St1 [ctx disp]] X'].
  simpl in Hshape, Hget.
  assert (HX' : same_binding X X' /\ Nmr X' = Some n /\
                ReferenceCount X' = ReferenceCount X + 1 /\
                InterfaceContext X' = None).
  { destruct Hshape as [->|[v ->]]; subst X4; simpl; by rewrite ?Hctx. }
  clear Hshape. clearbody X4.
  destruct HX' as ((Hs1 & Hs2 & Hs3 & Hs4 & Hs5 & Hs6) & Hn' & Hrc' & Hctx').
  destruct HN4 as (HN1 & HN2 & HN3 & HN5).
  mrun'. rewrite !insert_insert_eq.
  destruct (NT_SUCCESS St1) eqn:HSt1; simpl.
  2:{ eexists _, _. split; [done|]. exists X', []. split_and!.
      - unfold step_on; simpl. by rewrite app_nil_r.
      - done.
      - right. exists n, N4. split_and!; try done. right.
        split_and!; [done| |congruence]. rewrite Hctx'. by intros [? ?]. }
  destruct (Hget eq_refl) as [v Hv].
  destruct (Hprov v) as (d & Hd & Hdok); [by rewrite Hv|].
  rewrite Hv in Hd. simpl in Hd. subst disp.
  mrun'. rewrite !insert_insert_eq. unfold XdpIfpInvokeOpenInterface.
  destruct (OpenInterface d) as [f|]; unfold trace; mrun'.
  - destruct (NT_SUCCESS (f ctx)) eqn:HSt2; simpl;
      (eexists _, _; split; [done|]);
      exists (set_Interface ctx (Some d) X'), [EvOpenInterface ctx];
      (split_and!; [by unfold step_on | done |]);
      right; exists n, N4; (split_and!; try done); right;
      (split_and!; [done| simpl; eauto |]); [eauto | congruence].
  - eexists _, _. split; [done|].
    exists (set_Interface ctx (Some d) X'), [].
    split_and!; [unfold step_on; simpl; by rewrite app_nil_r | done |].
    right. exists n, N4. split_and!; try done. right.
    split_and!; [done| simpl; eauto | eauto].
Qed.

Lemma XdpIfpOpenInterface_run env s h X :
  IfPool s !! h = Some X ->
  InterfaceContext X = None ->
  Nmr X = None ->
  0 < ReferenceCount X < LONG_MAX - 1 ->
  is_Some (WorkQueue X) ->
  provider_ok env ->
  exists St s',
    XdpIfpOpenInterface env h s = Done St s' /\ open_result s s' h X St.
Proof.
  intros HX Hctx Hnmr Hrc Hwq Hprov.
  assert (Hrc' : -2147483648 <= ReferenceCount X < LONG_MAX)
    by (unfold LONG_MAX in *; lia).
  destruct (XdpIfpOpenInterface_body_run env s h X HX Hctx Hnmr Hrc' Hprov)
    as (St & sb & Hbody & Hexit).
  unfold XdpIfpOpenInterface. mrun. rewrite Hbody. mrun.
  destruct Hexit as (Xb & evs & Hstep & Hsame & Hcases).
  pose proof (step_on_lookup _ _ _ _ _ Hstep) as HXb.
  destruct Hstep as (Hifs & Htr & Hents & Hsets & Hifsets).
  destruct Hsame as (Hs1 & Hs2 & Hs3 & Hs4 & Hs5 & Hs6).
  unfold XdpIfpOpenInterface_exit, open_result.
  destruct Hcases as [(HnX & HSt & Hnmrs & HrcX & HctxX)
                     |(n & N & Hfresh & HnX & Hnmrs & HrcX & HN1 & HN2 & HN3 & Hcases)].
  - rewrite HSt. simpl. mrun. rewrite HnX. mrun.
    exists St, sb. split; [done|]. exists Xb. split_and!; try done. congruence.
  - assert (HN : NmrPool sb !! n = Some N) by (rewrite Hnmrs; apply lookup_insert_eq).
    destruct Hcases as [(HNh & HSt & HctxX)|(HNh & Hdisp & Hsucc)].
    + rewrite HSt. simpl. mrun. rewrite HnX. mrun. rewrite HNh. mrun.
      erewrite XdpIfpDereferenceInterface_run; [|side|].
      2:{ rewrite HrcX, InterlockedDecrement_pred; unfold LONG_MAX in *; lia. }
      mrun. simpl. rewrite HnX. mrun.
      eexists _, _. split; [done|]. eexists. simpl. rewrite lookup_insert_eq.
      split_and!; try done. congruence.
    + destruct HNh as [ph HNh]. destruct (NT_SUCCESS St) eqn:HSt; simpl.
      * mrun. destruct (Hsucc eq_refl) as (-> & d & Hd & Hdok).
        exists STATUS_SUCCESS, sb. split; [done|]. exists Xb.
        split_and!; try done. intros _. split_and!; try done; [eauto|].
        by exists n, N, ph.
      * mrun. rewrite HnX. mrun. rewrite HNh.
        destruct (XdpIfpCloseInterface_run sb h Xb) as (s1 & Hclose & Hclosed);
          [exact HXb| |unfold LONG_MAX in *; lia|].
        { split; [done|]. intros n' Hn'. rewrite HnX in Hn'. injection Hn' as <-.
          exists N, ph. split_and!; try done. intros _. by rewrite Hs3. }
        rewrite Hclose. destruct Hclosed as [Hstep1 Hn1].
        pose proof (step_on_lookup _ _ _ _ _ Hstep1) as HX1.
        destruct Hstep1 as (Hifs1 & Htr1 & Hents1 & Hsets1 & Hifsets1).
        destruct (closed_interface_kept sb Xb) as (Hk1 & Hk2 & Hk3 & Hk4 & Hk5 & Hk6 & Hk7).
        mrun. eexists _, _. split; [done|]. eexists. simpl.
        rewrite lookup_insert_eq. split_and!; try done; simpl; congruence.
Qed.

(** ** The attachment under changes elsewhere *)

Lemma attachment_ok_frame s s' h X X' :
  NmrPool s' = NmrPool s ->
  InterfaceContext X' = InterfaceContext X ->
  InterfaceDispatch X' = InterfaceDispatch X ->
  Nmr X' = Nmr X ->
  WorkQueue X' = WorkQueue X ->
  attachment_ok s h X -> attachment_ok s' h X'.
Proof.
  intros Hn Hc Hd Hm Hq [H1 H2]. unfold attachment_ok.
  rewrite Hn, Hc, Hd, Hm, Hq. done.
Qed.

(** ** The reference count of the NMR context *)

Lemma XdpIfpInterfaceNmrDelete_closed fuel s n N h :
  NmrPool s !! n = Some N ->
  WorkItem_BindingHandle N = Some h ->
  NmrHandle N = None ->
  XdpIfpInterfaceNmrDelete fuel n s =
    Done tt (with_nmrs (release_nmr n N (NmrPool s)) s).
Proof.
  intros HN Hb Hh. unfold XdpIfpInterfaceNmrDelete. mrun. rewrite Hb, Hh. mrun.
  by apply XdpIfpDereferenceNmr_run.
Qed.

Lemma XdpIfpInterfaceNmrDelete_attached fuel s h X n N :
  attached s h X n N ->
  ProviderReference X <> 0 ->
  (length (Clients X) <= fuel)%nat ->
  NoDup (Clients X) ->
  (forall c, c ∈ Clients X -> is_Some (ClientEntries s !! c)) ->
  Z.of_nat (length (Clients X)) < ReferenceCount X <= LONG_MAX ->
  exists s1,
    XdpIfpInterfaceNmrDelete fuel n s = Done tt s1 /\
    NmrPool s1 = release_nmr n N (NmrPool s) /\
    IfPool s1 !! h =
      Some (set_ReferenceCount
              (ReferenceCount X - Z.of_nat (length (Clients X)))
              (set_Clients [] (set_NmrDeleting true X))).
Proof.
  intros (HX & Hn & HN & [ph Hph] & Hb) Hpr Hfuel Hnd Hents Hrc.
  unfold XdpIfpInterfaceNmrDelete. mrun. rewrite Hb, Hph. mrun.
  unfold XdpIfpStartRundown. mrun.
  change (ProviderReference (set_NmrDeleting true X)) with (ProviderReference X).
  apply Z.eqb_neq in Hpr. rewrite Hpr. mrun.
  destruct (XdpIfpStartRundown_while_run (Clients X) fuel
              (with_ifs (<[h := set_NmrDeleting true X]> (IfPool s)) s) h
              (set_NmrDeleting true X))
    as (s1 & Hloop & Hifs & _ & _ & _ & Hnmrs & _); try done.
  { simpl. apply lookup_insert_eq. }
  rewrite Hloop.
  erewrite XdpIfpDereferenceNmr_run by (rewrite Hnmrs; simpl; eassumption).
  eexists. split; [done|]. simpl. rewrite Hnmrs. simpl. split; [done|].
  rewrite Hifs. apply lookup_insert_eq.
Qed.

(** * Further properties *)

Lemma XdpIfpFindIfSet_run s IfIndex :
  (forall p, p ∈ XdpInterfaceSets s -> is_Some (IfSetPool s !! p)) ->
  exists r,
    XdpIfpFindIfSet IfIndex s = Done r s /\
    (r = None -> no_set s IfIndex) /\
    (forall p, r = Some p ->
       p ∈ XdpInterfaceSets s /\
       exists P, IfSetPool s !! p = Some P /\ SetIfIndex P = IfIndex).
Proof.
  unfold XdpIfpFindIfSet, no_set.
  induction (XdpInterfaceSets s) as [|c l IH]; intros Hl; simpl.
  - exists None. split; [done|]. split; [|done].
    intros _ p Hp. by apply elem_of_nil in Hp.
  - destruct (Hl c) as [C HC]; [left|].
    destruct IH as (r & Hrun & Hnone & Hsome); [intros; apply Hl; by right|].
    mrun. destruct (Z.eqb_spec (SetIfIndex C) IfIndex) as [Heq|Hne].
    + exists (Some c). split; [done|]. split; [done|].
      intros p [= <-]. split; [left|]. by exists C.
    + exists r. split; [done|]. split.
      * intros Hr p [->|Hp]%elem_of_cons; [by exists C | by apply Hnone].
      * intros p Hp. destruct (Hsome p Hp) as [Hin HP]. split; [by right | done].
Qed.

Lemma no_set_has_set s IfIndex : no_set s IfIndex -> ~ has_set s IfIndex.
Proof.
  intros Hno (p & P & Hp & HP & Hi). destruct (Hno p Hp) as (S & HS & Hne).
  rewrite HP in HS. injection HS as <-. done.
Qed.

Lemma no_set_live s IfIndex p :
  no_set s IfIndex -> p ∈ XdpInterfaceSets s -> is_Some (IfSetPool s !! p).
Proof. intros Hno Hp. destruct (Hno p Hp) as (S & HS & _). eauto. Qed.

Lemma XdpIfpFindIfSet_has_set s IfIndex :
  (forall p, p ∈ XdpInterfaceSets s -> is_Some (IfSetPool s !! p)) ->
  has_set s IfIndex ->
  exists p, XdpIfpFindIfSet IfIndex s = Done (Some p) s.
Proof.
  intros Hl Hhas. destruct (XdpIfpFindIfSet_run s IfIndex Hl) as (r & Hrun & Hnone & _).
  destruct r as [p|]; [eauto|].
  exfalso. by eapply no_set_has_set; [apply Hnone|].
Qed.

Lemma XdpIfpFindIfSet_no_set s IfIndex :
  no_set s IfIndex -> XdpIfpFindIfSet IfIndex s = Done None s.
Proof. intros Hno. unfold XdpIfpFindIfSet. by apply XdpIfpFindIfSet_while_none. Qed.

(** X1.  XdpIfCreateInterfaceSet on a registry whose linked sets are live.
    When a set with the interface index is already registered it returns
    STATUS_DUPLICATE_OBJECTID, and when the pool allocation fails it returns
    STATUS_NO_MEMORY; in both cases the state is untouched.  Otherwise it
    returns STATUS_SUCCESS with a fresh set, appended at the tail of the
    list, carrying the index and the caller's context, with both mode slots
    empty; nothing else changes, and XdpIfpFindIfSet then finds this set for
    the index. *)
Theorem XdpIfCreateInterfaceSet_outcomes s Allocate IfIndex Context :
  (forall p, p ∈ XdpInterfaceSets s -> is_Some (IfSetPool s !! p)) ->
  (has_set s IfIndex ->
     XdpIfCreateInterfaceSet Allocate IfIndex Context s
       = Done (STATUS_DUPLICATE_OBJECTID, None) s) /\
  (~ has_set s IfIndex -> Allocate = false ->
     XdpIfCreateInterfaceSet Allocate IfIndex Context s
       = Done (STATUS_NO_MEMORY, None) s) /\
  (~ has_set s IfIndex -> Allocate = true ->
     exists h s',
       XdpIfCreateInterfaceSet Allocate IfIndex Context s
         = Done (STATUS_SUCCESS, Some h) s' /\
       IfSetPool s !! h = None /\ (h ∉ XdpInterfaceSets s) /\
       XdpInterfaceSets s' = XdpInterfaceSets s ++ [h] /\
       IfSetPool s' =
         (<[h := {| SetIfIndex := IfIndex;
                    XdpIfInterfaceSetContext := Context;
                    Interfaces := (None, None) |}]> (IfSetPool s)) /\
       IfPool s' = IfPool s /\ NmrPool s' = NmrPool s /\
       ClientEntries s' = ClientEntries s /\ Trace s' = Trace s /\
       XdpIfpFindIfSet IfIndex s' = Done (Some h) s').
Proof.
  intros Hl. unfold XdpIfCreateInterfaceSet.
  destruct (XdpIfpFindIfSet_run s IfIndex Hl) as (r & Hrun & Hnone & Hsome).
  split; [|split].
  - intros Hhas. destruct (XdpIfpFindIfSet_has_set s IfIndex Hl Hhas) as [p Hp].
    mrun. by rewrite Hp.
  - intros Hno ->. mrun. rewrite Hrun. destruct r as [p|]; [|done].
    exfalso. apply Hno. destruct (Hsome p eq_refl) as (Hin & P & HP & Hi).
    by exists p, P.
  - intros Hno ->. mrun. rewrite Hrun. destruct r as [p|].
    { exfalso. apply Hno. destruct (Hsome p eq_refl) as (Hin & P & HP & Hi).
      by exists p, P. }
    simpl. set (h := fresh (dom (IfSetPool s))).
    assert (Hfresh : IfSetPool s !! h = None) by apply fresh_pool_None.
    assert (Hnotin : h ∉ XdpInterfaceSets s).
    { intros Hin. destruct (Hl h Hin) as [P HP]. by rewrite Hfresh in HP. }
    eexists h, _. split; [reflexivity|].
    split; [done|]. split; [done|]. simpl.
    split; [done|]. split; [done|]. split; [done|]. split; [done|].
    split; [done|]. split; [done|].
    unfold XdpIfpFindIfSet. simpl.
    eapply XdpIfpFindIfSet_while_first; simpl.
    + apply lookup_insert_eq.
    + done.
    + intros p Hp. destruct (Hnone eq_refl p Hp) as (P & HP & Hne).
      exists P. split; [|done]. rewrite lookup_insert_ne; [done|].
      intros <-. done.
Qed.

Lemma XdpIfpFindIfSet_while_delete i h P l : forall s s' r,
  IfSetPool s !! h = Some P ->
  SetIfIndex P <> i ->
  IfSetPool s' = delete h (IfSetPool s) ->
  XdpIfpFindIfSet_while i l s = Done r s ->
  XdpIfpFindIfSet_while i (filter (fun p => p ≠ h) l) s' = Done r s'.
Proof.
  induction l as [|c l IH]; intros s s' r HP Hne Hpool; simpl.
  - by intros [= <-].
  - destruct (decide (c = h)) as [->|Hc].
    + rewrite filter_cons_False by (intros Hn; by apply Hn).
      mrun. rewrite (proj2 (Z.eqb_neq _ _) Hne). by apply IH.
    + rewrite filter_cons_True by done. simpl. rewrite !bind_run.
      unfold get_ifset at 1 2. rewrite Hpool, lookup_delete_ne by done.
      destruct (IfSetPool s !! c) as [C|]; [|done].
      destruct (SetIfIndex C =? i); [by intros [= <-]|]. by apply IH.
Qed.

(** X3.  XdpIfDeleteInterfaceSet.  When a mode slot of the set still holds
    a binding the FRE_ASSERT fails.  When both slots are empty the set is
    unlinked and freed and nothing else changes: the other sets stay linked
    and live, a lookup by any other interface index returns what it returned
    before, and in a well-formed registry a lookup by the index of the
    deleted set now finds nothing. *)
Theorem XdpIfDeleteInterfaceSet_outcomes s h P :
  IfSetPool s !! h = Some P ->
  ((exists Mode Interface, slot Mode P = Some Interface) ->
     XdpIfDeleteInterfaceSet h s = Stop FreAssert) /\
  (Interfaces P = (None, None) ->
     exists s',
       XdpIfDeleteInterfaceSet h s = Done tt s' /\
       (h ∉ XdpInterfaceSets s') /\ IfSetPool s' !! h = None /\
       (forall p, p <> h ->
          (p ∈ XdpInterfaceSets s' <-> p ∈ XdpInterfaceSets s) /\
          IfSetPool s' !! p = IfSetPool s !! p) /\
       IfPool s' = IfPool s /\ NmrPool s' = NmrPool s /\
       ClientEntries s' = ClientEntries s /\ Trace s' = Trace s /\
       (forall i r, i <> SetIfIndex P ->
          XdpIfpFindIfSet i s = Done r s -> XdpIfpFindIfSet i s' = Done r s') /\
       (registry_ok s -> h ∈ XdpInterfaceSets s ->
          XdpIfpFindIfSet (SetIfIndex P) s' = Done None s')).
Proof.
  intros HP. unfold XdpIfDeleteInterfaceSet. split.
  - intros (Mode & Interface & Hslot). mrun.
    destruct P as [i c [[g|] [n|]]]; destruct Mode; simpl in *; done.
  - intros Hempty. mrun. rewrite Hempty. eexists. split; [reflexivity|]. simpl.
    split. { rewrite list_elem_of_filter. intros [Hn _]. by apply Hn. }
    split; [apply lookup_delete_eq|].
    split. { intros p Hp. rewrite list_elem_of_filter, lookup_delete_ne by done.
             split; [|done]. split; [by intros [_ ?] | by intros ?]. }
    split; [done|]. split; [done|]. split; [done|]. split; [done|]. split.
    + intros i r Hi Hrun. unfold XdpIfpFindIfSet in *. simpl.
      by eapply XdpIfpFindIfSet_while_delete.
    + intros (Hnd & Hlive & Huniq) Hin. apply XdpIfpFindIfSet_no_set.
      intros p [Hp Hpin]%list_elem_of_filter. simpl.
      rewrite lookup_delete_ne by done.
      destruct (Hlive p Hpin) as [Q HQ]. exists Q. split; [done|].
      intros Heq. apply Hp. by eapply (Huniq p h Q P).
Qed.

(** X4.  Creating an interface set for an index that is not registered and
    deleting it again restores the state exactly. *)
Theorem XdpIfCreateInterfaceSet_then_delete s IfIndex Context :
  no_set s IfIndex ->
  exists h s',
    XdpIfCreateInterfaceSet true IfIndex Context s = Done (STATUS_SUCCESS, Some h) s' /\
    XdpIfDeleteInterfaceSet h s' = Done tt s.
Proof.
  intros Hno. unfold XdpIfCreateInterfaceSet. mrun.
  rewrite (XdpIfpFindIfSet_no_set _ _ Hno). simpl.
  set (h := fresh (dom (IfSetPool s))).
  assert (Hfresh : IfSetPool s !! h = None) by apply fresh_pool_None.
  assert (Hnotin : h ∉ XdpInterfaceSets s).
  { intros Hin. destruct (no_set_live _ _ _ Hno Hin) as [P HP]. by rewrite Hfresh in HP. }
  eexists h, _. split; [reflexivity|].
  unfold XdpIfDeleteInterfaceSet. mrun. simpl.
  destruct s as [sets ifsets ifs nmrs ents tr]; simpl in *.
  unfold with_sets, with_ifsets; simpl. do 2 f_equal.
  - rewrite filter_app, filter_cons_False, filter_nil, app_nil_r
      by (intros Hn; by apply Hn).
    clear -Hnotin. induction sets as [|c l IH]; [done|].
    apply not_elem_of_cons in Hnotin as [Hne Hl].
    rewrite filter_cons_True by done. by rewrite IH.
  - by rewrite delete_insert_eq, delete_id.
Qed.

Lemma list_elem_of_snoc {A} (l : list A) (x y : A) : y ∈ l ++ [x] <-> y ∈ l \/ y = x.
Proof. by rewrite elem_of_app, list_elem_of_singleton. Qed.

(** X2.  XdpIfCreateInterfaceSet and XdpIfDeleteInterfaceSet keep the
    registry well formed: each set is linked once, every linked set is live,
    and no two linked sets carry the same interface index.  This holds
    whatever the outcome of the creation, and for the deletion of a set
    whose mode slots are empty. *)
Theorem registry_ok_kept s :
  registry_ok s ->
  (forall Allocate IfIndex Context,
     exists r s',
       XdpIfCreateInterfaceSet Allocate IfIndex Context s = Done r s' /\
       registry_ok s') /\
  (forall h P,
     IfSetPool s !! h = Some P -> Interfaces P = (None, None) ->
     exists s',
       XdpIfDeleteInterfaceSet h s = Done tt s' /\ registry_ok s').
Proof.
  intros Hok. pose proof Hok as (Hnd & Hlive & Huniq). split.
  - intros Allocate IfIndex Context. unfold XdpIfCreateInterfaceSet.
    destruct (XdpIfpFindIfSet_run s IfIndex Hlive) as (r & Hrun & Hnone & Hsome).
    mrun. rewrite Hrun. destruct r as [p|]; [by eexists _, _|].
    destruct Allocate; simpl; [|by eexists _, _].
    specialize (Hnone eq_refl).
    set (h := fresh (dom (IfSetPool s))).
    assert (Hfresh : IfSetPool s !! h = None) by apply fresh_pool_None.
    assert (Hnotin : h ∉ XdpInterfaceSets s).
    { intros Hin. destruct (Hlive h Hin) as [P HP]. by rewrite Hfresh in HP. }
    eexists _, _. split; [reflexivity|]. unfold registry_ok; simpl.
    split; [|split].
    + apply NoDup_app. split; [done|]. split; [|apply NoDup_singleton].
      intros x Hx ->%list_elem_of_singleton. done.
    + intros p [Hp| ->]%list_elem_of_snoc.
      * rewrite lookup_insert_ne by (intros <-; done). by apply Hlive.
      * rewrite lookup_insert_eq. eauto.
    + intros p q P Q [Hp| ->]%list_elem_of_snoc
        [Hq| ->]%list_elem_of_snoc; try done.
      * rewrite !lookup_insert_ne by (intros <-; done). by apply Huniq.
      * rewrite lookup_insert_ne by (intros <-; done). rewrite lookup_insert_eq.
        intros HP [= <-]. simpl. intros Heq.
        destruct (Hnone p Hp) as (P' & HP' & Hne). congruence.
      * rewrite lookup_insert_eq. rewrite lookup_insert_ne by (intros <-; done).
        intros [= <-] HQ. simpl. intros Heq.
        destruct (Hnone q Hq) as (Q' & HQ' & Hne). congruence.
  - intros h P HP Hempty. unfold XdpIfDeleteInterfaceSet. mrun. rewrite Hempty.
    eexists. split; [reflexivity|]. unfold registry_ok; simpl.
    split; [by apply NoDup_filter|]. split.
    + intros p [Hp Hin]%list_elem_of_filter.
      rewrite lookup_delete_ne by done. by apply Hlive.
    + intros p q P' Q' [Hp Hpin]%list_elem_of_filter [Hq Hqin]%list_elem_of_filter.
      rewrite !lookup_delete_ne by done. by apply Huniq.
Qed.

(** ** Adding a batch that passes *)

Lemma added_slots_index hs : forall l S,
  SetIfIndex (added_slots hs l S) = SetIfIndex S.
Proof.
  unfold added_slots.
  induction hs as [|h hs IH]; intros [|A l] S; simpl; try done.
  by rewrite IH.
Qed.

Lemma added_slots_other m hs : forall l S,
  (forall B, B ∈ l -> Mode (InterfaceCapabilities B) <> m) ->
  slot m (added_slots hs l S) = slot m S.
Proof.
  unfold added_slots.
  induction hs as [|h hs IH]; intros [|A l] S Hl; simpl; try done.
  rewrite IH by (intros B HB; apply Hl; by right).
  assert (Hne : Mode (InterfaceCapabilities A) <> m) by (apply Hl; left).
  destruct m, (Mode (InterfaceCapabilities A)); done.
Qed.

Lemma added_slots_slot hs : forall l S i h B,
  NoDup (map (fun A => Mode (InterfaceCapabilities A)) l) ->
  hs !! i = Some h -> l !! i = Some B ->
  slot (Mode (InterfaceCapabilities B)) (added_slots hs l S) = Some h.
Proof.
  induction hs as [|h0 hs IH]; intros [|A l] S i h B Hnd Hh HB; try done.
  apply NoDup_cons in Hnd as [Hnotin Hnd].
  destruct i as [|i]; simpl in Hh, HB.
  - injection Hh as <-. injection HB as <-.
    change (added_slots (h0 :: hs) (A :: l) S)
      with (added_slots hs l
              (set_slot (Mode (InterfaceCapabilities A)) (Some h0) S)).
    rewrite added_slots_other; [apply slot_set_slot_eq|].
    intros B HB Heq. apply Hnotin. rewrite <- Heq.
    by apply (list_elem_of_fmap_2 (fun A => Mode (InterfaceCapabilities A))).
  - change (added_slots (h0 :: hs) (A :: l) S)
      with (added_slots hs l
              (set_slot (Mode (InterfaceCapabilities A)) (Some h0) S)).
    by eapply IH.
Qed.

Lemma added_slots_inv m x hs : forall l S,
  slot m (added_slots hs l S) = Some x -> x ∈ hs \/ slot m S = Some x.
Proof.
  induction hs as [|h hs IH]; intros [|A l] S; try (by right).
  change (added_slots (h :: hs) (A :: l) S)
    with (added_slots hs l
            (set_slot (Mode (InterfaceCapabilities A)) (Some h) S)).
  intros [Hin|Hs]%IH; [left; by right|].
  destruct m, (Mode (InterfaceCapabilities A)); simpl in Hs;
    first [injection Hs as ->; left; left | by right].
Qed.

Lemma XdpIfAddInterfaces_for_ok env IfSet l : forall Index s S0,
  IfSetPool s !! IfSet = Some S0 ->
  (forall i B, l !! i = Some B -> passes env (Index + i) B) ->
  exists hs s1,
    XdpIfAddInterfaces_for env IfSet Index l s =
      Done (STATUS_SUCCESS,
            zip_with (fun h B => set_InterfaceHandle (Some h) B) hs l) s1 /\
    length hs = length l /\ NoDup hs /\
    (forall h, h ∈ hs -> IfPool s !! h = None) /\
    (forall i h B, hs !! i = Some h -> l !! i = Some B ->
       IfPool s1 !! h = Some (added_interface IfSet (SetIfIndex S0) B)) /\
    (forall h, h ∉ hs -> IfPool s1 !! h = IfPool s !! h) /\
    IfSetPool s1 = <[IfSet := added_slots hs l S0]> (IfSetPool s) /\
    NmrPool s1 = NmrPool s /\ ClientEntries s1 = ClientEntries s /\
    Trace s1 = Trace s /\ XdpInterfaceSets s1 = XdpInterfaceSets s.
Proof.
  induction l as [|B l IH]; intros Index s S0 HS Hpass.
  - exists [], s. simpl. split; [done|]. split; [done|].
    split; [apply NoDup_nil_2|]. split; [intros h Hh; by apply elem_of_nil in Hh|].
    split; [done|]. split; [done|]. split; [|done].
    unfold added_slots; simpl. by rewrite insert_id.
  - destruct (Hpass 0%nat B eq_refl) as (Hv & Ha & Hw).
    rewrite Nat.add_0_r in Ha, Hw. unfold valid_capabilities in Hv.
    simpl. rewrite Hv, Ha, Hw. simpl. mrun. rewrite alloc_if_run. mrun.
    set (h := fresh (dom (IfPool s))).
    rewrite !insert_insert_eq.
    set (sb := with_ifsets _ _).
    destruct (IH (S Index) sb
                (set_slot (Mode (InterfaceCapabilities B)) (Some h) S0))
      as (hs & s1 & Hrun & Hlen & Hnd & Hfresh & Hnew & Hold & Hset & Hn & He & Ht & Hl).
    { subst sb; simpl. apply lookup_insert_eq. }
    { intros i B' HB'. rewrite Nat.add_succ_l, <- Nat.add_succ_r.
      by apply Hpass. }
    exists (h :: hs), s1. rewrite Hrun.
    assert (Hh : h ∉ hs).
    { intros Hin. apply Hfresh in Hin. subst sb; simpl in Hin.
      by rewrite lookup_insert_eq in Hin. }
    subst sb; simpl in *. split_and!; try done.
    + by rewrite Hlen.
    + by apply NoDup_cons.
    + intros h' [->|Hin]%elem_of_cons; [apply fresh_pool_None|].
      pose proof (Hfresh h' Hin) as Hf.
      rewrite lookup_insert_ne in Hf; [done|]. intros <-. done.
    + intros [|i] h' B' Hh' HB'; simpl in Hh', HB'.
      * injection Hh' as <-. injection HB' as <-.
        rewrite Hold by done. by rewrite lookup_insert_eq.
      * eapply Hnew; eauto.
    + intros h' [Hne Hin]%not_elem_of_cons. rewrite Hold by done.
      by rewrite lookup_insert_ne.
    + rewrite Hset. by rewrite insert_insert_eq.
Qed.

(** X5.  XdpIfAddInterfaces on a batch in which every descriptor passes
    validation and both allocations succeed: it returns STATUS_SUCCESS and
    writes one fresh, pairwise distinct handle into every handle cell.  Each
    new binding holds one reference, has an empty client list and work
    queue, no provider attachment, the interface index of its set (as
    reported by XdpIfGetIfIndex) and a copy of the capabilities of its
    descriptor (as reported by XdpIfGetCapabilities).  The mode slots of the
    set are filled in batch order; nothing else changes. *)
Theorem XdpIfAddInterfaces_success env IfSet l s S0 :
  IfSetPool s !! IfSet = Some S0 ->
  (forall i B, l !! i = Some B -> passes env i B) ->
  exists hs s',
    XdpIfAddInterfaces env IfSet l s =
      Done (STATUS_SUCCESS,
            zip_with (fun h B => set_InterfaceHandle (Some h) B) hs l) s' /\
    length hs = length l /\ NoDup hs /\
    (forall h, h ∈ hs -> IfPool s !! h = None) /\
    (forall i h B, hs !! i = Some h -> l !! i = Some B ->
       IfPool s' !! h = Some (added_interface IfSet (SetIfIndex S0) B) /\
       XdpIfGetIfIndex h s' = Done (SetIfIndex S0) s' /\
       XdpIfGetCapabilities h s' = Done (InterfaceCapabilities B) s') /\
    (forall h, h ∉ hs -> IfPool s' !! h = IfPool s !! h) /\
    IfSetPool s' = <[IfSet := added_slots hs l S0]> (IfSetPool s) /\
    NmrPool s' = NmrPool s /\ ClientEntries s' = ClientEntries s /\
    Trace s' = Trace s /\ XdpInterfaceSets s' = XdpInterfaceSets s.
Proof.
  intros HS Hpass.
  destruct (XdpIfAddInterfaces_for_ok env IfSet l 0%nat s S0 HS Hpass)
    as (hs & s1 & Hrun & Hlen & Hnd & Hfresh & Hnew & Hold & Hrest).
  exists hs, s1. unfold XdpIfAddInterfaces. mrun. rewrite Hrun. simpl.
  split; [done|]. split; [done|]. split; [done|]. split; [done|].
  split; [|by split].
  intros i h B Hh HB. pose proof (Hnew i h B Hh HB) as HX.
  split; [done|]. unfold XdpIfGetIfIndex, XdpIfGetCapabilities. by mrun.
Qed.

(** X6.  A binding added by XdpIfAddInterfaces is found by
    XdpIfFindAndReferenceBinding.  For a batch with one descriptor per mode,
    added to the set the registry finds for its index: a lookup by that
    index, restricted to the mode of a descriptor and requiring only hook
    ids the descriptor lists, returns the handle written to that
    descriptor's cell and raises its reference count from 1 to 2. *)
Theorem XdpIfAddInterfaces_then_find env IfSet l s S0 :
  first_set s IfSet S0 ->
  slots_live s S0 ->
  (forall i B, l !! i = Some B -> passes env i B) ->
  NoDup (map (fun A => Mode (InterfaceCapabilities A)) l) ->
  exists hs s',
    XdpIfAddInterfaces env IfSet l s =
      Done (STATUS_SUCCESS,
            zip_with (fun h B => set_InterfaceHandle (Some h) B) hs l) s' /\
    length hs = length l /\
    forall i h B HookIds,
      hs !! i = Some h -> l !! i = Some B ->
      (forall Target, Target ∈ HookIds ->
         Target ∈ Hooks (InterfaceCapabilities B)) ->
      XdpIfFindAndReferenceBinding (SetIfIndex S0) HookIds
        (Some (Mode (InterfaceCapabilities B))) s'
      = Done (Some h)
          (referenced s' h (added_interface IfSet (SetIfIndex S0) B)) /\
      ReferenceCount <$>
        IfPool (referenced s' h (added_interface IfSet (SetIfIndex S0) B)) !! h
      = Some 2.
Proof.
  intros (HS & pre & post & Hlist & Hpre) Hlive Hpass Hmodes.
  destruct (XdpIfAddInterfaces_for_ok env IfSet l 0%nat s S0 HS Hpass)
    as (hs & s1 & Hrun & Hlen & Hnd & Hfresh & Hnew & Hold & Hset & _ & _ & _ & Hl).
  exists hs, s1. unfold XdpIfAddInterfaces. mrun. rewrite Hrun. simpl.
  split; [done|]. split; [done|].
  intros i h B HookIds Hh HB Hhooks.
  pose proof (Hnew i h B Hh HB) as HX.
  set (S1 := added_slots hs l S0).
  assert (Hfound : found_set s1 (SetIfIndex S0) S1).
  { exists pre, IfSet, post. rewrite Hl, Hset, lookup_insert_eq.
    split; [done|]. split; [done|].
    split; [apply added_slots_index|].
    intros p Hp. destruct (Hpre p Hp) as (P & HP & Hne). exists P.
    split; [|done]. rewrite lookup_insert_ne; [done|].
    intros <-. rewrite HS in HP. injection HP as <-. done. }
  assert (Hlive1 : slots_live s1 S1).
  { intros m x Hx. apply added_slots_inv in Hx as [Hin|Hx].
    - apply list_elem_of_lookup in Hin as [j Hj].
      destruct (lookup_lt_is_Some_2 l j) as [B' HB'].
      { rewrite <- Hlen. by eapply lookup_lt_Some. }
      rewrite (Hnew j x B' Hj HB'). eauto.
    - destruct (decide (x ∈ hs)) as [Hin|Hnin].
      + apply list_elem_of_lookup in Hin as [j Hj].
        destruct (lookup_lt_is_Some_2 l j) as [B' HB'].
        { rewrite <- Hlen. by eapply lookup_lt_Some. }
        rewrite (Hnew j x B' Hj HB'). eauto.
      + rewrite Hold by done. by eapply Hlive. }
  assert (Hq : qualifies s1 S1 HookIds (Some (Mode (InterfaceCapabilities B)))
                 (Mode (InterfaceCapabilities B)) h).
  { split; [by eapply added_slots_slot|]. split; [by right|].
    eexists. split; [exact HX|]. intros Target HT. exists Target.
    split; [by apply Hhooks | done]. }
  destruct (XdpIfpFindInterface_run s1 (SetIfIndex S0) S1 HookIds
              (Some (Mode (InterfaceCapabilities B))) Hfound Hlive1)
    as (r & Hfind & Hnative & Hgeneric & _).
  assert (Hr : r = Some h).
  { destruct (Mode (InterfaceCapabilities B)) eqn:Hm.
    - apply Hgeneric; [done|]. intros h' (_ & [Hno|Hno] & _); done.
    - by apply Hnative. }
  subst r. unfold XdpIfFindAndReferenceBinding. mrun. rewrite Hfind.
  split.
  - rewrite bind_run, (XdpIfpReferenceInterface_run _ h _ HX). by mrun.
  - by rewrite lookup_insert_eq.
Qed.

(** ** Removing bindings *)

Lemma slot_set_slot_None_or m m' P :
  slot m (set_slot m' None P) = None \/
  (m <> m' /\ slot m (set_slot m' None P) = slot m P).
Proof. destruct m, m'; simpl; auto. Qed.

Lemma XdpIfRemoveInterfaces_run hs : forall s,
  NoDup hs ->
  (forall h, h ∈ hs -> removable s h) ->
  exists s',
    XdpIfRemoveInterfaces hs s = Done tt s' /\
    (forall h X q, h ∈ hs -> IfPool s !! h = Some X -> WorkQueue X = Some q ->
       IfPool s' !! h = Some (removed_interface X q)) /\
    (forall h, h ∉ hs -> IfPool s' !! h = IfPool s !! h) /\
    (forall p P, IfSetPool s !! p = Some P ->
       exists P', IfSetPool s' !! p = Some P' /\
         SetIfIndex P' = SetIfIndex P /\
         XdpIfInterfaceSetContext P' = XdpIfInterfaceSetContext P /\
         (forall m, slot m P' = None \/ slot m P' = slot m P) /\
         (forall m,
            (forall h X, h ∈ hs -> IfPool s !! h = Some X ->
               IfSet X = Some p -> Mode (Capabilities X) <> m) ->
            slot m P' = slot m P) /\
         (forall h X, h ∈ hs -> IfPool s !! h = Some X -> IfSet X = Some p ->
            slot (Mode (Capabilities X)) P' = None)) /\
    (forall p, IfSetPool s !! p = None -> IfSetPool s' !! p = None) /\
    NmrPool s' = NmrPool s /\ ClientEntries s' = ClientEntries s /\
    Trace s' = Trace s /\ XdpInterfaceSets s' = XdpInterfaceSets s.
Proof.
  induction hs as [|h hs IH]; intros s Hnd Hrem.
  - exists s. simpl. split; [done|].
    split; [intros h X q Hh; by apply elem_of_nil in Hh|]. split; [done|].
    split; [|done]. intros p P HP. exists P. split_and!; try done.
    + by right.
    + intros h X Hh. by apply elem_of_nil in Hh.
  - apply NoDup_cons in Hnd as [Hnotin Hnd].
    destruct (Hrem h) as (X & p & HX & Hp & [P HP] & [q Hq]); [left|].
    simpl. mrun. rewrite Hp. mrun.
    rewrite (XdpIfQueueWorkItem_run _ h (set_IfSet None X) q)
      by (simpl; first [apply lookup_insert_eq | done]).
    mrun. rewrite !insert_insert_eq.
    fold (removed_interface X q).
    set (sa := with_ifs _ _).
    assert (Hifs : forall h', h' <> h -> IfPool sa !! h' = IfPool s !! h').
    { intros h' Hne. subst sa; simpl. by rewrite lookup_insert_ne. }
    assert (Hne : forall h', h' ∈ hs -> h' <> h) by (intros h' Hin ->; done).
    destruct (IH sa Hnd) as (s' & Hrun & Hnew & Hold & Hsets & Hnone & Hn & He & Ht & Hl).
    { intros h' Hin. destruct (Hrem h') as (X' & p' & HX' & Hp' & [P' HP'] & Hq');
        [by right|].
      exists X', p'. rewrite Hifs by auto. split; [done|]. split; [done|].
      split; [|done]. subst sa; simpl.
      destruct (decide (p' = p)) as [->|Hpp].
      - rewrite lookup_insert_eq. eauto.
      - rewrite lookup_insert_ne by done. eauto. }
    exists s'. rewrite Hrun. split; [done|]. split_and!.
    + intros h' X' q' [->|Hin]%elem_of_cons HX' Hq'.
      * rewrite HX in HX'. injection HX' as <-.
        rewrite Hq in Hq'. injection Hq' as <-.
        rewrite Hold by done. subst sa; simpl. apply lookup_insert_eq.
      * eapply Hnew; try done. by rewrite Hifs by auto.
    + intros h' [Hh' Hin]%not_elem_of_cons. rewrite Hold by done. by apply Hifs.
    + intros p0 P0 HP0.
      destruct (decide (p0 = p)) as [->|Hpp].
      * rewrite HP in HP0. injection HP0 as <-.
        destruct (Hsets p (set_slot (Mode (Capabilities X)) None P))
          as (P' & HP' & Hi & Hc & Hs & Hf & Hz).
        { subst sa; simpl. apply lookup_insert_eq. }
        exists P'. split; [done|]. split; [done|]. split; [done|]. split_and!.
        -- intros m. destruct (Hs m) as [Hm|Hm]; [by left|]. rewrite Hm.
           destruct (slot_set_slot_None_or m (Mode (Capabilities X)) P)
             as [Hz'|[_ Hz']]; [by left | by right].
        -- intros m Hm.
           assert (Hmx : Mode (Capabilities X) <> m)
             by (eapply (Hm h X); [left|done|done]).
           rewrite Hf.
           ++ destruct m, (Mode (Capabilities X)); simpl; done.
           ++ intros h' X' Hin HX' Hp'. eapply (Hm h' X'); [by right| |done].
              by rewrite <- Hifs by auto.
        -- intros h' X' [->|Hin]%elem_of_cons HX' Hp'.
           ++ rewrite HX in HX'. injection HX' as <-.
              destruct (Hs (Mode (Capabilities X))) as [Hm|Hm]; [done|].
              rewrite Hm. apply slot_set_slot_eq.
           ++ eapply Hz; try done. by rewrite Hifs by auto.
      * destruct (Hsets p0 P0) as (P' & HP' & Hi & Hc & Hs & Hf & Hz).
        { subst sa; simpl. by rewrite lookup_insert_ne. }
        exists P'. split; [done|]. split; [done|]. split; [done|]. split_and!.
        -- done.
        -- intros m Hm. apply Hf. intros h' X' Hin HX' Hp'.
           eapply (Hm h' X'); [by right| |done]. by rewrite <- Hifs by auto.
        -- intros h' X' [->|Hin]%elem_of_cons HX' Hp'.
           ++ rewrite HX in HX'. injection HX' as <-. congruence.
           ++ eapply Hz; try done. by rewrite Hifs by auto.
    + intros p0 Hp0. apply Hnone. subst sa; simpl.
      rewrite lookup_insert_ne; [done|]. intros <-. by rewrite HP in Hp0.
    + done.
    + done.
    + done.
    + done.
Qed.

(** X7.  XdpIfRemoveInterfaces on distinct live bindings that point back
    to live sets and have work queues: every binding loses its back pointer,
    gains the reference held by the delete work item, which is appended to
    its work queue, and keeps its clients, rundown flags and provider
    references; its mode slot in its set is cleared; other bindings are not
    touched.  Removing one of them a second time dereferences the null back
    pointer. *)
Theorem XdpIfRemoveInterfaces_unlinks hs s :
  NoDup hs ->
  (forall h, h ∈ hs -> removable s h) ->
  exists s',
    XdpIfRemoveInterfaces hs s = Done tt s' /\
    (forall h X q, h ∈ hs -> IfPool s !! h = Some X -> WorkQueue X = Some q ->
       exists X',
         IfPool s' !! h = Some X' /\ IfSet X' = None /\
         WorkQueue X' = Some (q ++ [DeleteWorkItem]) /\
         ReferenceCount X' = InterlockedIncrement (ReferenceCount X) /\
         Clients X' = Clients X /\ Rundown X' = Rundown X /\
         ProviderReference X' = ProviderReference X /\
         XdpIfRemoveInterfaces [h] s' = Stop InvalidAccess) /\
    (forall h X p, h ∈ hs -> IfPool s !! h = Some X -> IfSet X = Some p ->
       exists P', IfSetPool s' !! p = Some P' /\
         slot (Mode (Capabilities X)) P' = None) /\
    (forall h, h ∉ hs -> IfPool s' !! h = IfPool s !! h) /\
    NmrPool s' = NmrPool s /\ ClientEntries s' = ClientEntries s /\
    Trace s' = Trace s /\ XdpInterfaceSets s' = XdpInterfaceSets s.
Proof.
  intros Hnd Hrem.
  destruct (XdpIfRemoveInterfaces_run hs s Hnd Hrem)
    as (s' & Hrun & Hnew & Hold & Hsets & _ & Hrest).
  exists s'. split; [done|]. split; [|split; [|by split]].
  - intros h X q Hh HX Hq. pose proof (Hnew h X q Hh HX Hq) as HX'.
    eexists. split; [exact HX'|]. split_and!; try done.
    simpl. by mrun.
  - intros h X p Hh HX Hp.
    destruct (Hrem h Hh) as (X0 & p0 & HX0 & Hp0 & [P HP] & _).
    rewrite HX in HX0. injection HX0 as <-. rewrite Hp in Hp0. injection Hp0 as <-.
    destruct (Hsets p P HP) as (P' & HP' & _ & _ & _ & _ & Hz).
    exists P'. split; [done|]. by eapply Hz.
Qed.

Lemma XdpIfpFindInterface_body_slot IfSet HookIds RequiredMode Mode Interface s r s' :
  XdpIfpFindInterface_body IfSet HookIds RequiredMode Mode Interface s = Done r s' ->
  r = Interface \/ r = slot Mode IfSet.
Proof.
  unfold XdpIfpFindInterface_body.
  destruct (slot Mode IfSet) as [c|]; [|intros [= <- <-]; by left].
  destruct (match RequiredMode with
            | Some Required => negb (bool_decide (Required = Mode))
            | None => false end); [intros [= <- <-]; by left|].
  intros H. apply bind_Done_inv in H as (C & s1 & Hget & H).
  destruct (negb (XdpIfpSupportsHookIds (Capabilities C) HookIds));
    injection H as <- <-; [by left | by right].
Qed.

Lemma XdpIfpFindInterface_slot IfIndex HookIds RequiredMode s r s' :
  XdpIfpFindInterface IfIndex HookIds RequiredMode s = Done (Some r) s' ->
  s' = s /\ exists p P m, IfSetPool s !! p = Some P /\ slot m P = Some r.
Proof.
  unfold XdpIfpFindInterface. intros H.
  apply bind_Done_inv in H as (Found & s1 & Hfind & H).
  unfold XdpIfpFindIfSet in Hfind.
  pose proof (XdpIfpFindIfSet_while_inv _ _ _ _ _ Hfind) as ->.
  destruct Found as [p|]; [|discriminate H].
  apply bind_Done_inv in H as (P & s1 & Hget & H).
  apply get_ifset_inv in Hget as [-> HP].
  apply bind_Done_inv in H as (I1 & s1 & Hg & Hn).
  pose proof (XdpIfpFindInterface_body_inv _ _ _ _ _ _ _ _ Hg) as [-> _].
  pose proof (XdpIfpFindInterface_body_inv _ _ _ _ _ _ _ _ Hn) as [-> _].
  split; [done|].
  apply XdpIfpFindInterface_body_slot in Hg, Hn.
  destruct Hn as [Hn|Hn]; [subst I1|by exists p, P, XDP_INTERFACE_MODE_NATIVE].
  destruct Hg as [Hg|Hg]; [done|]. by exists p, P, XDP_INTERFACE_MODE_GENERIC.
Qed.

(** X8.  In a registry whose mode slots and back pointers agree,
    XdpIfRemoveInterfaces keeps them in agreement, leaves no removed binding
    in any mode slot, and no lookup by XdpIfFindAndReferenceBinding returns
    a removed binding afterwards. *)
Theorem XdpIfRemoveInterfaces_not_found hs s :
  NoDup hs ->
  (forall h, h ∈ hs -> removable s h) ->
  slots_consistent s ->
  exists s',
    XdpIfRemoveInterfaces hs s = Done tt s' /\
    slots_consistent s' /\
    (forall p P m x, IfSetPool s' !! p = Some P -> slot m P = Some x -> x ∉ hs) /\
    (forall IfIndex HookIds RequiredMode r s'',
       XdpIfFindAndReferenceBinding IfIndex HookIds RequiredMode s'
         = Done (Some r) s'' -> r ∉ hs).
Proof.
  intros Hnd Hrem Hcons.
  destruct (XdpIfRemoveInterfaces_run hs s Hnd Hrem)
    as (s' & Hrun & Hnew & Hold & Hsets & Hnone & Hrest).
  exists s'. split; [done|].
  assert (Hslots : forall p P' m x,
            IfSetPool s' !! p = Some P' -> slot m P' = Some x ->
            (x ∉ hs) /\ exists X, IfPool s !! x = Some X /\ IfSet X = Some p /\
              Mode (Capabilities X) = m).
  { intros p P' m x HP' Hx.
    destruct (IfSetPool s !! p) as [P|] eqn:HP;
      [|by rewrite (Hnone p HP) in HP'].
    destruct (Hsets p P HP) as (P'' & HP'' & _ & _ & Hs & _ & Hz).
    rewrite HP' in HP''. injection HP'' as <-.
    destruct (Hs m) as [Hm|Hm]; [by rewrite Hm in Hx|].
    rewrite Hm in Hx. destruct (Hcons p P m x HP Hx) as (X & HX & Hp & Hmode).
    split; [|by exists X].
    intros Hin. pose proof (Hz x X Hin HX Hp) as Hzero.
    rewrite Hmode, Hm, Hx in Hzero. done. }
  split; [|split].
  - intros p P' m x HP' Hx.
    destruct (Hslots p P' m x HP' Hx) as (Hnin & X & HX & Hp & Hmode).
    exists X. by rewrite Hold.
  - intros p P' m x HP' Hx. by destruct (Hslots p P' m x HP' Hx).
  - intros IfIndex HookIds RequiredMode r s'' Hfind.
    unfold XdpIfFindAndReferenceBinding in Hfind.
    apply bind_Done_inv in Hfind as (Found & s1 & Hfind & H).
    destruct Found as [x|]; [|discriminate H].
    apply bind_Done_inv in H as ([] & s2 & _ & H). injection H as <- <-.
    apply XdpIfpFindInterface_slot in Hfind as (-> & p & P' & m & HP' & Hx).
    by destruct (Hslots p P' m x HP' Hx).
Qed.

(** ** Rundown and the delete work item *)

Lemma XdpIfpStartRundown_run fuel s h X extra :
  IfPool s !! h = Some X ->
  rundown_ready s h X extra -> 0 < extra ->
  (length (Clients X) <= fuel)%nat ->
  exists s',
    XdpIfpStartRundown fuel h s = Done tt s' /\
    IfPool s' = <[h := run_down s X]> (IfPool s) /\
    ReferenceCount (run_down s X) = extra /\
    Trace s' =
      Trace s ++ (if ProviderReference X =? 0 then close_events s X else [])
        ++ map EvBindingDetached (Clients X) /\
    NmrPool s' =
      (if ProviderReference X =? 0 then closed_nmrs s X else NmrPool s) /\
    (forall c, c ∈ Clients X ->
       exists E, ClientEntries s !! c = Some E /\
         ClientEntries s' !! c = Some (set_Linked false E)) /\
    (forall c, c ∉ Clients X -> ClientEntries s' !! c = ClientEntries s !! c) /\
    XdpInterfaceSets s' = XdpInterfaceSets s /\ IfSetPool s' = IfSetPool s.
Proof.
  intros HX (Hatt & Hnd & Hents & Hrc & Hmax) Hextra Hfuel.
  assert (Hrange : Z.of_nat (length (Clients X)) < ReferenceCount X <= LONG_MAX)
    by (unfold LONG_MAX in *; lia).
  unfold XdpIfpStartRundown, run_down. mrun.
  destruct (Z.eqb_spec (ProviderReference X) 0) as [Hpr|Hpr].
  - destruct (XdpIfpCloseInterface_run s h X HX (Hatt Hpr)) as (s1 & Hrun & Hcl).
    { unfold LONG_MAX in *; lia. }
    destruct Hcl as [Hstep Hnmrs].
    destruct (closed_interface_kept s X) as (Hk1 & Hk2 & _).
    pose proof (step_on_lookup _ _ _ _ _ Hstep) as HX1.
    destruct Hstep as (Hifs & Htr & Hce & Hsets & Hsp).
    destruct (XdpIfpStartRundown_while_run (Clients X) fuel s1 h
                (closed_interface s X))
      as (s' & Hloop & Hi & Ht & Hin & Hout & Hn & Hl & Hp); try done.
    { intros c Hc. rewrite Hce. by apply Hents. }
    { by rewrite Hk2. }
    exists s'. rewrite Hrun. mrun. rewrite Hloop. split; [done|].
    split. { rewrite Hi, Hifs, insert_insert_eq, Hk2. done. }
    split. { simpl. lia. }
    split. { rewrite Ht, Htr. by rewrite <- app_assoc. }
    split. { by rewrite Hn. }
    split. { intros c Hc. destruct (Hin c Hc) as (E & HE & HE').
             rewrite Hce in HE. by exists E. }
    split. { intros c Hc. rewrite Hout by done. by rewrite Hce. }
    split; [by rewrite Hl | by rewrite Hp].
  - destruct (XdpIfpStartRundown_while_run (Clients X) fuel s h X)
      as (s' & Hloop & Hi & Ht & Hin & Hout & Hn & Hl & Hp); try done.
    exists s'. mrun. rewrite Hloop. split; [done|].
    split; [done|]. split. { simpl. lia. }
    split; [done|]. split; [done|]. split; [done|]. done.
Qed.

Lemma BindingDeleting_set_true X : BindingDeleting (set_BindingDeleting true X) = true.
Proof.
  unfold BindingDeleting, set_BindingDeleting, set_Rundown. cbn [Rundown].
  rewrite Z.lor_spec. apply orb_true_r.
Qed.

Lemma closed_interface_WorkQueue s X :
  is_Some (WorkQueue X) -> is_Some (WorkQueue (closed_interface s X)).
Proof.
  unfold closed_interface, close_complete, close_nmr, close_context,
    detach_queued.
  destruct X as [ifi ifs xctx caps nmr ver disp ctx rc cl pr rd wq]. simpl.
  intros [q ->].
  destruct ctx; destruct nmr as [nm|]; destruct xctx; simpl;
    try destruct (if NmrPool s !! nm is Some N then DetachNotification N else true);
    simpl; try destruct (BindingDeleting _); simpl; eauto.
Qed.

Lemma closed_interface_complete s X :
  BindingDeleting X = true ->
  XdpIfInterfaceContext (closed_interface s X) = None.
Proof.
  unfold closed_interface, close_complete, close_nmr, close_context,
    detach_queued.
  destruct X as [ifi ifs xctx caps nmr ver disp ctx rc cl pr rd wq]. simpl.
  assert (Hodd : forall r, Z.odd (Z.land r 253) = Z.odd r).
  { intros r. rewrite <- !Z.bit0_odd, Z.land_spec. apply andb_true_r. }
  unfold BindingDeleting. simpl. intros Hb.
  destruct ctx; destruct nmr as [nm|]; destruct xctx; destruct wq; simpl;
    try destruct (if NmrPool s !! nm is Some N then DetachNotification N else true);
    simpl; rewrite ?Hodd, ?Hb; done.
Qed.

Lemma rundown_ready_deleting s h X extra :
  IfPool s !! h = Some X ->
  rundown_ready s h X extra ->
  rundown_ready
    (with_ifs (<[h := set_BindingDeleting true X]> (IfPool s)) s) h
    (set_BindingDeleting true X) extra.
Proof.
  intros HX (Hatt & Hnd & Hents & Hrc & Hmax). by split_and!.
Qed.

Lemma XdpIfpInterfaceDelete_run fuel s h X extra :
  IfPool s !! h = Some X ->
  rundown_ready s h X extra -> 1 < extra ->
  (length (Clients X) <= fuel)%nat ->
  exists s',
    XdpIfpInterfaceDelete fuel h s = Done tt s' /\
    IfPool s' =
      <[h := set_ReferenceCount (extra - 1)
               (run_down s (set_BindingDeleting true X))]> (IfPool s) /\
    Trace s' =
      Trace s ++
        (if ProviderReference X =? 0
         then close_events s (set_BindingDeleting true X) else [])
        ++ map EvBindingDetached (Clients X) /\
    NmrPool s' =
      (if ProviderReference X =? 0 then closed_nmrs s X else NmrPool s) /\
    (forall c, c ∈ Clients X ->
       exists E, ClientEntries s !! c = Some E /\
         ClientEntries s' !! c = Some (set_Linked false E)) /\
    (forall c, c ∉ Clients X -> ClientEntries s' !! c = ClientEntries s !! c) /\
    XdpInterfaceSets s' = XdpInterfaceSets s /\ IfSetPool s' = IfSetPool s.
Proof.
  intros HX Hready Hextra Hfuel.
  pose proof (rundown_ready_deleting s h X extra HX Hready) as Hready'.
  pose proof Hready as (_ & _ & _ & Hrc & Hmax).
  unfold XdpIfpInterfaceDelete. mrun.
  set (sd := with_ifs _ s) in *.
  destruct (XdpIfpStartRundown_run fuel sd h (set_BindingDeleting true X) extra)
    as (s1 & Hrun & Hifs & Hcount & Htr & Hn & Hin & Hout & Hl & Hp);
    [subst sd; simpl; apply lookup_insert_eq | done | lia | done |].
  rewrite Hrun.
  assert (Hdec : InterlockedDecrement extra = extra - 1).
  { apply InterlockedDecrement_pred. pose proof (Nat2Z.is_nonneg (length (Clients X))).
    unfold LONG_MAX in *. lia. }
  erewrite XdpIfpDereferenceInterface_run;
    [|rewrite Hifs; apply lookup_insert_eq|rewrite Hcount, Hdec; lia].
  rewrite Hcount, Hdec. eexists. split; [reflexivity|].
  cbn [with_ifs IfPool Trace NmrPool ClientEntries XdpInterfaceSets IfSetPool].
  split. { rewrite Hifs. subst sd. cbn [with_ifs IfPool].
           by rewrite !insert_insert_eq. }
  split; [done|]. split; [done|]. split; [done|]. done.
Qed.

Lemma run_down_kept s X :
  Clients (run_down s X) = [] /\
  ProviderReference (run_down s X) = ProviderReference X /\
  BindingDeleting (run_down s X) = BindingDeleting X /\
  (is_Some (WorkQueue X) -> is_Some (WorkQueue (run_down s X))) /\
  (ProviderReference X = 0 ->
     InterfaceContext (run_down s X) = None /\ Nmr (run_down s X) = None /\
     (BindingDeleting X = true -> XdpIfInterfaceContext (run_down s X) = None)) /\
  (ProviderReference X <> 0 ->
     InterfaceContext (run_down s X) = InterfaceContext X /\
     InterfaceDispatch (run_down s X) = InterfaceDispatch X /\
     Nmr (run_down s X) = Nmr X /\
     XdpIfInterfaceContext (run_down s X) = XdpIfInterfaceContext X).
Proof.
  unfold run_down.
  destruct (closed_interface_kept s X) as (Hk1 & Hk2 & Hk3 & Hk4 & Hk5 & Hk6 & Hk7).
  destruct (Z.eqb_spec (ProviderReference X) 0) as [Hpr|Hpr];
    cbn [Clients ProviderReference InterfaceContext Nmr XdpIfInterfaceContext
         WorkQueue InterfaceDispatch set_ReferenceCount set_Clients];
    unfold BindingDeleting in *;
    cbn [Rundown set_ReferenceCount set_Clients].
  - split_and!; try done.
    + apply closed_interface_WorkQueue.
    + intros _. split_and!; try done. apply closed_interface_complete.
  - by split_and!.
Qed.

(** X9.  The delete work item on a binding that holds no provider
    reference and is referenced only by its clients, by the initial
    reference and by the work item: XdpIfpInterfaceWorker closes the
    interface (with BindingDeleting set, which completes the removal towards
    the interface provider), then notifies and unlinks every client in list
    order, then shuts down the work queue and frees the binding.  For a
    binding that was never opened the close consists of the single call
    RemoveInterfaceComplete. *)
Theorem XdpIfpInterfaceWorker_delete_frees fuel s h X :
  IfPool s !! h = Some X ->
  rundown_ready s h X 2 ->
  ProviderReference X = 0 ->
  is_Some (WorkQueue X) ->
  (length (Clients X) <= fuel)%nat ->
  exists s',
    XdpIfpInterfaceWorker fuel h [DeleteWorkItem] s = Done tt s' /\
    IfPool s' = delete h (IfPool s) /\
    Trace s' =
      Trace s ++ close_events s (set_BindingDeleting true X)
        ++ map EvBindingDetached (Clients X) ++ [EvXdpShutdownWorkQueue h] /\
    (forall c, XdpIfInterfaceContext X = Some c ->
       InterfaceContext X = None -> Nmr X = None ->
       close_events s (set_BindingDeleting true X)
         = [EvRemoveInterfaceComplete c]) /\
    (forall c, c ∈ Clients X ->
       exists E, ClientEntries s !! c = Some E /\
         ClientEntries s' !! c = Some (set_Linked false E)) /\
    (forall c, c ∉ Clients X -> ClientEntries s' !! c = ClientEntries s !! c) /\
    XdpInterfaceSets s' = XdpInterfaceSets s /\ IfSetPool s' = IfSetPool s.
Proof.
  intros HX Hready Hpr Hwq Hfuel.
  destruct (XdpIfpInterfaceDelete_run fuel s h X 2 HX Hready)
    as (s1 & Hrun & Hifs & Htr & Hn & Hin & Hout & Hl & Hp); [lia|done|].
  destruct (run_down_kept s (set_BindingDeleting true X))
    as (_ & _ & _ & Hq & _).
  cbn [XdpIfpInterfaceWorker]. mrun. rewrite Hrun.
  eexists. split.
  { rewrite bind_run. erewrite XdpIfpDereferenceInterface_run_last;
      [reflexivity|rewrite Hifs; apply lookup_insert_eq|reflexivity]. }
  cbn [with_ifs with_trace IfPool Trace NmrPool ClientEntries XdpInterfaceSets
       IfSetPool].
  split. { by rewrite Hifs, delete_insert_eq. }
  split.
  { rewrite Htr. change (ProviderReference X =? 0) with (ProviderReference X =? 0).
    rewrite Hpr. cbn [Z.eqb].
    destruct (Hq Hwq) as [q Hq']. cbn [WorkQueue set_ReferenceCount].
    rewrite Hq'. by rewrite <- !app_assoc. }
  split.
  { intros c Hc Hctx Hnmr. unfold close_events, close_context_events,
      close_nmr_events, close_complete_events.
    cbn [InterfaceContext Nmr XdpIfInterfaceContext set_BindingDeleting set_Rundown].
    rewrite Hctx, Hnmr, Hc, BindingDeleting_set_true. done. }
  split; [done|]. split; [done|]. done.
Qed.

(** X10.  The delete work item on a binding that is referenced by someone
    else as well: the binding stays allocated with BindingDeleting set, an
    empty client list and the remaining references.  With no provider
    reference held it is closed and the removal is completed; with provider
    references held it stays open and only the clients are notified.  From
    then on XdpIfCreateRxQueue, XdpIfCreateTxQueue and XdpIfRegisterClient
    return STATUS_DELETE_PENDING and change nothing. *)
Theorem XdpIfpInterfaceWorker_delete_pending fuel s h X extra :
  IfPool s !! h = Some X ->
  rundown_ready s h X extra -> 2 < extra ->
  (length (Clients X) <= fuel)%nat ->
  exists s' X',
    XdpIfpInterfaceWorker fuel h [DeleteWorkItem] s = Done tt s' /\
    IfPool s' = <[h := X']> (IfPool s) /\
    BindingDeleting X' = true /\ Clients X' = [] /\
    ReferenceCount X' = extra - 2 /\
    ProviderReference X' = ProviderReference X /\
    (ProviderReference X = 0 ->
       InterfaceContext X' = None /\ Nmr X' = None /\
       XdpIfInterfaceContext X' = None) /\
    (ProviderReference X <> 0 ->
       InterfaceContext X' = InterfaceContext X /\ Nmr X' = Nmr X /\
       XdpIfInterfaceContext X' = XdpIfInterfaceContext X /\
       Trace s' = Trace s ++ map EvBindingDetached (Clients X)) /\
    (forall env Config,
       XdpIfCreateRxQueue env h Config s'
         = Done (STATUS_DELETE_PENDING, None, None) s' /\
       XdpIfCreateTxQueue env h Config s'
         = Done (STATUS_DELETE_PENDING, None, None) s') /\
    (forall client key e,
       ClientId client <> XDP_BINDING_CLIENT_ID_INVALID -> 0 < KeySize client ->
       XdpIfRegisterClient h client (Some key) e s'
         = Done STATUS_DELETE_PENDING s').
Proof.
  intros HX Hready Hextra Hfuel.
  destruct (XdpIfpInterfaceDelete_run fuel s h X extra HX Hready)
    as (s1 & Hrun & Hifs & Htr & Hn & Hin & Hout & Hl & Hp); [lia|done|].
  pose proof Hready as (_ & _ & _ & Hrc & Hmax).
  destruct (run_down_kept s (set_BindingDeleting true X))
    as (Hc & Hprk & Hbd & _ & Hclosed & Hopen).
  rewrite BindingDeleting_set_true in Hbd.
  assert (Hdec : InterlockedDecrement (extra - 1) = extra - 2).
  { rewrite InterlockedDecrement_pred; [lia|].
    pose proof (Nat2Z.is_nonneg (length (Clients X))).
    unfold LONG_MAX in *. lia. }
  cbn [XdpIfpInterfaceWorker]. mrun. rewrite Hrun.
  eexists _, _. split.
  { rewrite bind_run. erewrite XdpIfpDereferenceInterface_run;
      [reflexivity|rewrite Hifs; apply lookup_insert_eq|].
    cbn [ReferenceCount set_ReferenceCount]. rewrite Hdec. lia. }
  cbn [with_ifs with_trace IfPool Trace NmrPool ClientEntries XdpInterfaceSets
       IfSetPool ReferenceCount set_ReferenceCount].
  rewrite Hdec.
  set (X' := set_ReferenceCount (extra - 2) _).
  assert (HX' : IfPool (with_ifs (<[h := X']> (IfPool s1)) s1) !! h = Some X')
    by apply lookup_insert_eq.
  assert (Hdel : BindingDeleting X' = true) by exact Hbd.
  split. { by rewrite Hifs, insert_insert_eq. }
  split; [done|]. split; [exact Hc|]. split; [done|]. split; [exact Hprk|].
  split. { intros Hpr. destruct (Hclosed Hpr) as (H1 & H2 & H3).
           split; [exact H1|]. split; [exact H2|].
           exact (H3 (BindingDeleting_set_true X)). }
  split. { intros Hpr. destruct (Hopen Hpr) as (H1 & _ & H3 & H4).
           split; [exact H1|]. split; [exact H3|]. split; [exact H4|].
           rewrite Htr. apply Z.eqb_neq in Hpr.
           change (ProviderReference (set_BindingDeleting true X))
             with (ProviderReference X) in *.
           by rewrite Hpr. }
  split.
  { intros env Config.
    assert (Hrp : XdpIfpReferenceProvider env h
                    (with_ifs (<[h := X']> (IfPool s1)) s1)
                  = Done STATUS_DELETE_PENDING
                      (with_ifs (<[h := X']> (IfPool s1)) s1)).
    { eapply XdpIfpReferenceProvider_rundown; [exact HX'|].
      by apply Rundown_of_BindingDeleting. }
    split.
    - unfold XdpIfCreateRxQueue. mrun. by rewrite Hrp.
    - unfold XdpIfCreateTxQueue. mrun. by rewrite Hrp. }
  intros client key e Hid Hsz.
  by eapply XdpIfRegisterClient_delete_pending.
Qed.

(** ** Deleting queues *)

Lemma XdpIfpDereferenceProvider_keep s h X :
  IfPool s !! h = Some X ->
  to_ULONG (ProviderReference X - 1) <> 0 ->
  XdpIfpDereferenceProvider h s =
    Done tt (with_ifs
      (<[h := set_ProviderReference (to_ULONG (ProviderReference X - 1)) X]>
         (IfPool s)) s).
Proof.
  intros HX Hnz. unfold XdpIfpDereferenceProvider. mrun.
  apply Z.eqb_neq in Hnz. by rewrite Hnz.
Qed.

Lemma XdpIfpDereferenceProvider_last s h X :
  IfPool s !! h = Some X ->
  ProviderReference X = 1 ->
  attachment_ok s h X ->
  0 < ReferenceCount X < LONG_MAX ->
  exists s',
    XdpIfpDereferenceProvider h s = Done tt s' /\
    IfPool s' =
      <[h := closed_interface s (set_ProviderReference 0 X)]> (IfPool s) /\
    Trace s' = Trace s ++ close_events s X /\
    NmrPool s' = closed_nmrs s X /\
    ClientEntries s' = ClientEntries s /\
    XdpInterfaceSets s' = XdpInterfaceSets s /\ IfSetPool s' = IfSetPool s.
Proof.
  intros HX Hpr Hatt Hrc. unfold XdpIfpDereferenceProvider. mrun.
  rewrite Hpr. change (to_ULONG (1 - 1)) with 0. cbn [Z.eqb].
  set (sa := with_ifs _ s).
  destruct (XdpIfpCloseInterface_run sa h (set_ProviderReference 0 X))
    as (s' & Hrun & (Hi & Ht & He & Hl & Hp) & Hn).
  { subst sa; simpl. apply lookup_insert_eq. }
  { by eapply attachment_ok_frame; [..|exact Hatt]. }
  { done. }
  exists s'. split; [done|]. subst sa.
  cbn [with_ifs IfPool Trace NmrPool ClientEntries XdpInterfaceSets IfSetPool] in *.
  split. { rewrite Hi. by rewrite insert_insert_eq. }
  by split_and!.
Qed.

Lemma XdpIfDeleteQueue_last s h X Queue delete event :
  (delete = XdpIfDeleteRxQueue /\ event = EvDeleteRxQueue \/
   delete = XdpIfDeleteTxQueue /\ event = EvDeleteTxQueue) ->
  IfPool s !! h = Some X ->
  is_Some (InterfaceDispatch X) ->
  ProviderReference X = 1 ->
  attachment_ok s h X -> 0 < ReferenceCount X < LONG_MAX ->
  exists s',
    delete h Queue s = Done tt s' /\
    IfPool s' =
      <[h := closed_interface s (set_ProviderReference 0 X)]> (IfPool s) /\
    Trace s' = Trace s ++ event Queue :: close_events s X /\
    NmrPool s' = closed_nmrs s X /\
    ClientEntries s' = ClientEntries s.
Proof.
  intros Hcase HX [d Hd] Hpr Hatt Hrc.
  set (st := with_trace (Trace s ++ [event Queue]) s).
  destruct (XdpIfpDereferenceProvider_last st h X)
    as (s' & Hrun & Hi & Ht & Hn & He & _); try done.
  exists s'. split.
  - destruct Hcase as [[-> ->]|[-> ->]];
      unfold XdpIfDeleteRxQueue, XdpIfDeleteTxQueue; mrun; rewrite Hd;
      unfold trace; by mrun.
  - split; [exact Hi|]. split; [|by split].
    rewrite Ht. subst st. cbn [Trace with_trace].
    by rewrite <- app_assoc.
Qed.

(** X11.  XdpIfDeleteRxQueue and XdpIfDeleteTxQueue on a live binding.
    Without a dispatch table the call dereferences a null pointer.  With
    more than one provider reference the provider's delete routine is called
    and the provider reference count drops by one, nothing else.  With
    exactly one provider reference the interface is closed after the delete
    routine has run: no interface context, no NMR attachment and no provider
    reference are left, and for a binding marked BindingDeleting the removal
    is completed. *)
Theorem XdpIfDeleteQueue_outcomes s h X Queue :
  IfPool s !! h = Some X ->
  (InterfaceDispatch X = None ->
     XdpIfDeleteRxQueue h Queue s = Stop InvalidAccess /\
     XdpIfDeleteTxQueue h Queue s = Stop InvalidAccess) /\
  (is_Some (InterfaceDispatch X) ->
   1 < ProviderReference X <= UINT32_MAX ->
     let X' := set_ProviderReference (ProviderReference X - 1) X in
     XdpIfDeleteRxQueue h Queue s =
       Done tt (with_ifs (<[h := X']> (IfPool s))
                  (with_trace (Trace s ++ [EvDeleteRxQueue Queue]) s)) /\
     XdpIfDeleteTxQueue h Queue s =
       Done tt (with_ifs (<[h := X']> (IfPool s))
                  (with_trace (Trace s ++ [EvDeleteTxQueue Queue]) s))) /\
  (is_Some (InterfaceDispatch X) ->
   ProviderReference X = 1 ->
   attachment_ok s h X -> 0 < ReferenceCount X < LONG_MAX ->
     let X' := closed_interface s (set_ProviderReference 0 X) in
     InterfaceContext X' = None /\ Nmr X' = None /\ ProviderReference X' = 0 /\
     (BindingDeleting X = true -> XdpIfInterfaceContext X' = None) /\
     (exists s',
        XdpIfDeleteRxQueue h Queue s = Done tt s' /\
        IfPool s' = <[h := X']> (IfPool s) /\
        Trace s' = Trace s ++ EvDeleteRxQueue Queue :: close_events s X /\
        NmrPool s' = closed_nmrs s X /\
        ClientEntries s' = ClientEntries s) /\
     (exists s',
        XdpIfDeleteTxQueue h Queue s = Done tt s' /\
        IfPool s' = <[h := X']> (IfPool s) /\
        Trace s' = Trace s ++ EvDeleteTxQueue Queue :: close_events s X /\
        NmrPool s' = closed_nmrs s X /\
        ClientEntries s' = ClientEntries s)).
Proof.
  intros HX. split; [|split].
  - intros Hd. unfold XdpIfDeleteRxQueue, XdpIfDeleteTxQueue. mrun.
    by rewrite Hd.
  - intros [d Hd] Hpr X'.
    assert (Hu : to_ULONG (ProviderReference X - 1) = ProviderReference X - 1)
      by (apply to_ULONG_id; unfold UINT32_MAX in *; lia).
    unfold XdpIfDeleteRxQueue, XdpIfDeleteTxQueue. mrun. rewrite Hd.
    unfold trace. mrun.
    split; (erewrite XdpIfpDereferenceProvider_keep;
            [by rewrite Hu | exact HX | rewrite Hu; lia]).
  - intros Hd Hpr Hatt Hrc X'.
    destruct (closed_interface_kept s (set_ProviderReference 0 X))
      as (_ & _ & Hk3 & _ & Hk5 & Hk6 & Hk7).
    split; [exact Hk6|]. split; [exact Hk7|]. split; [exact Hk3|].
    split. { intros Hb. by apply closed_interface_complete. }
    split; eapply XdpIfDeleteQueue_last; eauto.
Qed.

(** X12.  Queue creation and deletion on a binding that is open and not
    in rundown.  A creation the provider refuses returns the provider's
    status and out parameters and leaves the state exactly as it was.  A
    creation the provider accepts adds one provider reference, and deleting
    the queue afterwards restores the state up to the recorded call of the
    provider's delete routine. *)
Theorem XdpIfCreateQueue_then_delete env s h X d Config :
  IfPool s !! h = Some X ->
  Rundown X = 0 ->
  is_Some (InterfaceContext X) ->
  InterfaceDispatch X = Some d ->
  1 <= ProviderReference X < UINT32_MAX ->
  (forall St q dq,
     CreateRxQueue d (InterfaceContext X) Config = (St, q, dq) ->
     (NT_SUCCESS St = false ->
        XdpIfCreateRxQueue env h Config s = Done (St, q, dq) s) /\
     (NT_SUCCESS St = true -> is_Some q -> is_Some dq ->
        exists s1 X1,
          XdpIfCreateRxQueue env h Config s = Done (St, q, dq) s1 /\
          IfPool s1 !! h = Some X1 /\
          ProviderReference X1 = ProviderReference X + 1 /\
          forall Queue,
            XdpIfDeleteRxQueue h Queue s1 =
              Done tt (with_trace (Trace s ++ [EvDeleteRxQueue Queue]) s))) /\
  (forall St q dq,
     CreateTxQueue d (InterfaceContext X) Config = (St, q, dq) ->
     (NT_SUCCESS St = false ->
        XdpIfCreateTxQueue env h Config s = Done (St, q, dq) s) /\
     (NT_SUCCESS St = true -> is_Some q -> is_Some dq ->
        exists s1 X1,
          XdpIfCreateTxQueue env h Config s = Done (St, q, dq) s1 /\
          IfPool s1 !! h = Some X1 /\
          ProviderReference X1 = ProviderReference X + 1 /\
          forall Queue,
            XdpIfDeleteTxQueue h Queue s1 =
              Done tt (with_trace (Trace s ++ [EvDeleteTxQueue Queue]) s))).
Proof.
  intros HX Hrd [c Hc] Hd Hpr.
  assert (Hup : to_ULONG (ProviderReference X + 1) = ProviderReference X + 1)
    by (apply to_ULONG_id; unfold UINT32_MAX in *; lia).
  assert (Hback : to_ULONG (ProviderReference X + 1 - 1) = ProviderReference X).
  { replace (ProviderReference X + 1 - 1) with (ProviderReference X) by lia.
    apply to_ULONG_id; unfold UINT32_MAX in *; lia. }
  assert (Hsame : set_ProviderReference (ProviderReference X) X = X)
    by (by destruct X).
  assert (Href : XdpIfpReferenceProvider env h s =
            Done STATUS_SUCCESS
              (with_ifs (<[h := set_ProviderReference (ProviderReference X + 1) X]>
                           (IfPool s)) s)).
  { unfold XdpIfpReferenceProvider. mrun. rewrite Hrd, Hc. simpl. mrun.
    rewrite NT_SUCCESS_STATUS_SUCCESS. cbn [negb]. mrun. by rewrite Hup. }
  split; intros St q dq Hcreate; (split; [intros Hfail | intros Hok [qq ->] [dd ->]]).
  - unfold XdpIfCreateRxQueue. mrun. rewrite Href. simpl. mrun.
    unfold XdpIfpInvokeCreateRxQueue. mrun. cbn [InterfaceDispatch set_ProviderReference].
    rewrite Hd. mrun. cbn [InterfaceContext set_ProviderReference]. rewrite Hcreate, Hfail. simpl.
    rewrite bind_run. erewrite XdpIfpDereferenceProvider_keep;
      [|apply lookup_insert_eq|cbn [ProviderReference set_ProviderReference];
        rewrite Hback; lia].
    mrun. cbn [ProviderReference set_ProviderReference]. rewrite Hback.
    rewrite insert_insert_eq.
    change (set_ProviderReference (ProviderReference X)
              (set_ProviderReference (ProviderReference X + 1) X))
      with (set_ProviderReference (ProviderReference X) X).
    rewrite Hsame. f_equal. destruct s; unfold with_ifs; simpl in *.
    by rewrite insert_id.
  - eexists _, _. split.
    { unfold XdpIfCreateRxQueue. mrun. rewrite Href. simpl. mrun.
      unfold XdpIfpInvokeCreateRxQueue. mrun.
      cbn [InterfaceDispatch set_ProviderReference].
      rewrite Hd. mrun. cbn [InterfaceContext set_ProviderReference]. rewrite Hcreate, Hok. simpl.
      reflexivity. }
    split; [apply lookup_insert_eq|]. split; [done|].
    intros Queue. unfold XdpIfDeleteRxQueue. mrun.
    cbn [InterfaceDispatch set_ProviderReference]. rewrite Hd.
    unfold trace. mrun.
    erewrite XdpIfpDereferenceProvider_keep;
      [|apply lookup_insert_eq|cbn [ProviderReference set_ProviderReference];
        rewrite Hback; lia].
    mrun. cbn [ProviderReference set_ProviderReference]. rewrite Hback.
    rewrite insert_insert_eq.
    change (set_ProviderReference (ProviderReference X)
              (set_ProviderReference (ProviderReference X + 1) X))
      with (set_ProviderReference (ProviderReference X) X).
    rewrite Hsame. f_equal. destruct s; unfold with_ifs, with_trace; simpl in *.
    by rewrite insert_id.
  - unfold XdpIfCreateTxQueue. mrun. rewrite Href. simpl. mrun.
    unfold XdpIfpInvokeCreateTxQueue. mrun. cbn [InterfaceDispatch set_ProviderReference].
    rewrite Hd. mrun. cbn [InterfaceContext set_ProviderReference]. rewrite Hcreate, Hfail. simpl.
    rewrite bind_run. erewrite XdpIfpDereferenceProvider_keep;
      [|apply lookup_insert_eq|cbn [ProviderReference set_ProviderReference];
        rewrite Hback; lia].
    mrun. cbn [ProviderReference set_ProviderReference]. rewrite Hback.
    rewrite insert_insert_eq.
    change (set_ProviderReference (ProviderReference X)
              (set_ProviderReference (ProviderReference X + 1) X))
      with (set_ProviderReference (ProviderReference X) X).
    rewrite Hsame. f_equal. destruct s; unfold with_ifs; simpl in *.
    by rewrite insert_id.
  - eexists _, _. split.
    { unfold XdpIfCreateTxQueue. mrun. rewrite Href. simpl. mrun.
      unfold XdpIfpInvokeCreateTxQueue. mrun.
      cbn [InterfaceDispatch set_ProviderReference].
      rewrite Hd. mrun. cbn [InterfaceContext set_ProviderReference]. rewrite Hcreate, Hok. simpl.
      reflexivity. }
    split; [apply lookup_insert_eq|]. split; [done|].
    intros Queue. unfold XdpIfDeleteTxQueue. mrun.
    cbn [InterfaceDispatch set_ProviderReference]. rewrite Hd.
    unfold trace. mrun.
    erewrite XdpIfpDereferenceProvider_keep;
      [|apply lookup_insert_eq|cbn [ProviderReference set_ProviderReference];
        rewrite Hback; lia].
    mrun. cbn [ProviderReference set_ProviderReference]. rewrite Hback.
    rewrite insert_insert_eq.
    change (set_ProviderReference (ProviderReference X)
              (set_ProviderReference (ProviderReference X + 1) X))
      with (set_ProviderReference (ProviderReference X) X).
    rewrite Hsame. f_equal. destruct s; unfold with_ifs, with_trace; simpl in *.
    by rewrite insert_id.
Qed.

(** ** Looking up client entries *)

Lemma same_client_run s c C cl k client key :
  ClientEntries s !! c = Some C -> Client C = Some cl -> Key C = Some k ->
  exists b,
    same_client C client key s = Done b s /\
    (b = true <-> same_client_and_key s client key c).
Proof.
  intros HC Hcl Hk. unfold same_client. rewrite Hcl, Hk.
  eexists. split; [reflexivity|]. rewrite andb_true_iff, Z.eqb_eq. split.
  - intros [Hid Hmem]. by exists C, cl, k.
  - intros (C' & cl' & k' & HC' & Hcl' & Hk' & Hid & Hmem).
    rewrite HC in HC'. injection HC' as <-.
    rewrite Hcl in Hcl'. injection Hcl' as <-.
    rewrite Hk in Hk'. injection Hk' as <-. done.
Qed.

Lemma XdpIfFindClientEntry_while_run s client key l :
  (forall c, c ∈ l ->
     exists C cl k,
       ClientEntries s !! c = Some C /\ Client C = Some cl /\ Key C = Some k) ->
  exists r,
    XdpIfFindClientEntry_while l client key s = Done r s /\
    ((forall c, c ∈ l -> ~ same_client_and_key s client key c) -> r = None) /\
    (forall pre c post,
       l = pre ++ c :: post ->
       same_client_and_key s client key c ->
       (forall c', c' ∈ pre -> ~ same_client_and_key s client key c') ->
       r = Some c).
Proof.
  induction l as [|c l IH]; intros Hl; simpl.
  - exists None. split; [done|]. split; [done|].
    intros [|? ?] ? ? Heq; discriminate Heq.
  - destruct (Hl c) as (C & cl & k & HC & Hcl & Hk); [left|].
    destruct IH as (r & Hrun & Hnone & Hfirst); [intros; apply Hl; by right|].
    destruct (same_client_run s c C cl k client key HC Hcl Hk) as (b & Hb & Hiff).
    mrun. rewrite Hb. destruct b.
    + exists (Some c). split; [done|]. split.
      * intros Hno. exfalso. apply (Hno c); [left | by apply Hiff].
      * intros [|c0 pre] c1 post Heq Hsame Hpre; injection Heq as <- ->; [done|].
        exfalso. apply (Hpre c); [left | by apply Hiff].
    + exists r. split; [done|]. split.
      * intros Hno. apply Hnone. intros c' Hc'. apply Hno. by right.
      * intros [|c0 pre] c1 post Heq Hsame Hpre; injection Heq as <- ->.
        -- apply Hiff in Hsame. discriminate Hsame.
        -- eapply Hfirst; [done|done|]. intros c' Hc'. apply Hpre. by right.
Qed.

Lemma first_same_client s client key l c :
  (forall c, c ∈ l ->
     exists C cl k,
       ClientEntries s !! c = Some C /\ Client C = Some cl /\ Key C = Some k) ->
  c ∈ l -> same_client_and_key s client key c ->
  exists pre c0 post,
    l = pre ++ c0 :: post /\
    same_client_and_key s client key c0 /\
    forall c', c' ∈ pre -> ~ same_client_and_key s client key c'.
Proof.
  induction l as [|a l IH]; intros Hreg Hc Hsame;
    [by apply elem_of_nil in Hc|].
  destruct (Hreg a) as (A & cl & k & HA & Hcl & Hk); [left|].
  destruct (same_client_run s a A cl k client key HA Hcl Hk)
    as ([] & _ & Hiff).
  - exists [], a, l. split; [done|]. split; [by apply Hiff|].
    intros c' Hc'. by apply elem_of_nil in Hc'.
  - apply elem_of_cons in Hc as [->|Hc].
    { apply Hiff in Hsame. discriminate Hsame. }
    destruct IH as (pre & c0 & post & -> & Hs0 & Hpre);
      [intros; apply Hreg; by right|done|done|].
    exists (a :: pre), c0, post. split; [done|]. split; [done|].
    intros c' [->|Hc']%elem_of_cons; [|by apply Hpre].
    intros Hs'. apply Hiff in Hs'. discriminate Hs'.
Qed.

(** X13.  XdpIfFindClientEntry on a binding whose linked entries are
    registered entries: it returns NULL when no linked entry has the
    client's id and key, and otherwise the first such entry in list order;
    the state is untouched.  It agrees with the duplicate check of
    XdpIfRegisterClient: on a binding that is not being deleted a
    registration succeeds exactly when the lookup returns NULL, and fails
    with STATUS_DUPLICATE_OBJECTID otherwise. *)
Theorem XdpIfFindClientEntry_first s h X client key :
  IfPool s !! h = Some X ->
  clients_registered s X ->
  exists r,
    XdpIfFindClientEntry h client key s = Done r s /\
    ((forall c, c ∈ Clients X -> ~ same_client_and_key s client key c) ->
       r = None) /\
    (forall pre c post,
       Clients X = pre ++ c :: post ->
       same_client_and_key s client key c ->
       (forall c', c' ∈ pre -> ~ same_client_and_key s client key c') ->
       r = Some c) /\
    (ClientId client <> XDP_BINDING_CLIENT_ID_INVALID -> 0 < KeySize client ->
     BindingDeleting X = false ->
     forall e E, ClientEntries s !! e = Some E ->
       (r = None ->
          XdpIfRegisterClient h client (Some key) e s
            = Done STATUS_SUCCESS (registered s h X client key e)) /\
       (r <> None ->
          XdpIfRegisterClient h client (Some key) e s
            = Done STATUS_DUPLICATE_OBJECTID s)).
Proof.
  intros HX Hreg.
  destruct (XdpIfFindClientEntry_while_run s client key (Clients X) Hreg)
    as (r & Hrun & Hnone & Hfirst).
  exists r. unfold XdpIfFindClientEntry. mrun.
  split; [done|]. split; [done|]. split; [done|].
  intros Hid Hsz Hdel e E HE.
  destruct (XdpIfRegisterClient_while_run s client key (Clients X) Hreg)
    as (b & Hscan & Hb).
  assert (Hagree : r = None <-> b = false).
  { split.
    - intros ->. destruct b; [|done]. exfalso.
      destruct (proj1 Hb eq_refl) as (c & Hc & Hsame).
      destruct (first_same_client s client key (Clients X) c Hreg Hc Hsame)
        as (pre & c0 & post & Heq & Hs0 & Hpre).
      discriminate (Hfirst pre c0 post Heq Hs0 Hpre).
    - intros ->. apply Hnone. intros c Hc Hsame.
      assert (false = true) by (apply Hb; eauto). done. }
  split.
  - intros Hr. eapply XdpIfRegisterClient_success; try done.
    intros Hdup. apply Hb in Hdup. apply Hagree in Hr. congruence.
  - intros Hr. eapply XdpIfRegisterClient_duplicate; try done.
    apply Hb. destruct b; [done|]. exfalso. by apply Hr, Hagree.
Qed.


Lemma same_client_and_key_frame s s' client key c :
  ClientEntries s' !! c = ClientEntries s !! c ->
  same_client_and_key s' client key c <-> same_client_and_key s client key c.
Proof. intros Heq. unfold same_client_and_key. by rewrite Heq. Qed.



(** ** Opening the provider attachment *)

Lemma header_ok_check X :
  header_ok X ->
  (Header_Revision (CapabilitiesEx (Capabilities X))
     <? XDP_CAPABILITIES_EX_REVISION_1) ||
  (Header_Size (CapabilitiesEx (Capabilities X))
     <? XDP_SIZEOF_CAPABILITIES_EX_REVISION_1) = false.
Proof.
  intros [Hr Hs]. apply orb_false_iff. split; apply Z.ltb_ge; lia.
Qed.

Lemma XdpRequestClientDispatch_nmr C Get X pre v post :
  candidates C = pre ++ v :: post ->
  (forall w, w ∈ pre -> ~ candidate_accepted Get w) ->
  candidate_accepted Get v ->
  XdpRequestClientDispatch C Get X =
    ((Get v).1.1, ((Get v).1.2, (Get v).2), set_DriverApiVersion v X).
Proof.
  intros Hc Hpre Hv. unfold XdpRequestClientDispatch.
  fold (candidates C). rewrite Hc.
  by apply XdpRequestClientDispatch_for_first.
Qed.

(** X18.  The success path of XdpIfpOpenInterface.  When the header of the
    capabilities is in order, the NMR context is allocated, the provider is
    opened, the provider accepts a first candidate version with a dispatch
    table and the provider's OpenInterface routine, if any, succeeds, the
    call returns STATUS_SUCCESS.  A fresh NMR context with reference count
    2, the provider handle and a work item pointing back to the binding is
    attached; the binding holds one more reference and carries the
    provider's context and dispatch table; OpenInterface was called once;
    and XdpGetDriverApiVersion reports the negotiated version. *)
Theorem XdpIfpOpenInterface_success env s h X pre v post St0 ph Stv ctx d :
  IfPool s !! h = Some X ->
  header_ok X ->
  AllocateNmr env = true ->
  XdpOpenProvider env (IfIndex X) (InstanceId (CapabilitiesEx (Capabilities X)))
    = (St0, ph) ->
  NT_SUCCESS St0 = true ->
  candidates (CapabilitiesEx (Capabilities X)) = pre ++ v :: post ->
  (forall w, w ∈ pre -> ~ candidate_accepted (GetInterfaceDispatch env) w) ->
  candidate_accepted (GetInterfaceDispatch env) v ->
  GetInterfaceDispatch env v = (Stv, ctx, Some d) ->
  (forall f, OpenInterface d = Some f -> NT_SUCCESS (f ctx) = true) ->
  -2147483648 <= ReferenceCount X < LONG_MAX ->
  let n := fresh (dom (NmrPool s)) in
  exists s',
    XdpIfpOpenInterface env h s = Done STATUS_SUCCESS s' /\
    NmrPool s !! n = None /\
    IfPool s' = <[h := opened_interface X n v ctx d]> (IfPool s) /\
    NmrPool s' = <[n := opened_nmr h ph]> (NmrPool s) /\
    Trace s' =
      Trace s ++ (if OpenInterface d is Some _ then [EvOpenInterface ctx] else []) /\
    ClientEntries s' = ClientEntries s /\
    XdpInterfaceSets s' = XdpInterfaceSets s /\ IfSetPool s' = IfSetPool s /\
    XdpGetDriverApiVersion h s' = Done v s'.
Proof.
  intros HX Hhdr Halloc Hopen HSt0 Hc Hpre Hv Hget Hopenok Hrc n.
  pose proof (fresh_pool_None (NmrPool s)) as Hfresh. fold n in Hfresh.
  unfold XdpIfpOpenInterface, XdpIfpOpenInterface_body. mrun.
  rewrite (header_ok_check X Hhdr), Halloc. simpl. mrun.
  rewrite alloc_nmr_run. fold n.
  destruct s as [sets ifsets ifs nmrs ents tr]; simpl in *.
  mrun'.
  rewrite (XdpIfpReferenceInterface_run _ h (set_Nmr (Some n) X)) by side.
  mrun'. rewrite !insert_insert_eq.
  rewrite InterlockedIncrement_succ by done.
  rewrite Hopen, HSt0. simpl. mrun'. rewrite !insert_insert_eq.
  rewrite (XdpRequestClientDispatch_nmr _ _ _ pre v post Hc Hpre Hv).
  rewrite Hget. simpl.
  assert (HStv : NT_SUCCESS Stv = true).
  { destruct Hv as [_ Hs]. by rewrite Hget in Hs. }
  mrun'. rewrite !insert_insert_eq, HStv. simpl. mrun'.
  rewrite !insert_insert_eq. unfold XdpIfpInvokeOpenInterface.
  destruct (OpenInterface d) as [f|] eqn:Hf; unfold trace; mrun'.
  - rewrite (Hopenok f eq_refl). simpl.
    unfold XdpIfpOpenInterface_exit. rewrite NT_SUCCESS_STATUS_SUCCESS. simpl.
    eexists. split; [reflexivity|]. simpl. split_and!; try done.
    unfold XdpGetDriverApiVersion, XdpInterfaceFromConfig. by mrun.
  - unfold XdpIfpOpenInterface_exit. rewrite ?NT_SUCCESS_STATUS_SUCCESS. simpl.
    eexists. split; [reflexivity|]. simpl. split_and!; try done.
    + by rewrite app_nil_r.
    + unfold XdpGetDriverApiVersion, XdpInterfaceFromConfig. by mrun.
Qed.

(** X19.  The early failures of XdpIfpOpenInterface leave no trace.  On a
    binding without NMR attachment, a header that is not in order returns
    STATUS_NOT_SUPPORTED, a failed allocation of the NMR context returns
    STATUS_NO_MEMORY, and a failure of XdpOpenProvider returns the
    provider's status; in all three cases the state is exactly the one
    before the call: the reference taken for the attachment is released and
    the NMR context is freed. *)
Theorem XdpIfpOpenInterface_early_failure env s h X :
  IfPool s !! h = Some X ->
  Nmr X = None ->
  0 < ReferenceCount X < LONG_MAX ->
  (~ header_ok X ->
     XdpIfpOpenInterface env h s = Done STATUS_NOT_SUPPORTED s) /\
  (header_ok X -> AllocateNmr env = false ->
     XdpIfpOpenInterface env h s = Done STATUS_NO_MEMORY s) /\
  (header_ok X -> AllocateNmr env = true ->
   forall St ph,
     XdpOpenProvider env (IfIndex X)
       (InstanceId (CapabilitiesEx (Capabilities X))) = (St, ph) ->
     NT_SUCCESS St = false ->
     XdpIfpOpenInterface env h s = Done St s).
Proof.
  intros HX Hnmr Hrc.
  assert (Hid : set_Nmr None X = X) by (destruct X; simpl in *; by subst).
  split; [|split].
  - intros Hhdr. unfold XdpIfpOpenInterface, XdpIfpOpenInterface_body. mrun.
    assert (Hbad : (Header_Revision (CapabilitiesEx (Capabilities X))
                      <? XDP_CAPABILITIES_EX_REVISION_1) ||
                   (Header_Size (CapabilitiesEx (Capabilities X))
                      <? XDP_SIZEOF_CAPABILITIES_EX_REVISION_1) = true).
    { apply orb_true_iff.
      destruct (Z.ltb_spec (Header_Revision (CapabilitiesEx (Capabilities X)))
                  XDP_CAPABILITIES_EX_REVISION_1); [by left|].
      destruct (Z.ltb_spec (Header_Size (CapabilitiesEx (Capabilities X)))
                  XDP_SIZEOF_CAPABILITIES_EX_REVISION_1); [by right|].
      exfalso. apply Hhdr. by split. }
    rewrite Hbad. mrun. unfold XdpIfpOpenInterface_exit.
    rewrite NT_SUCCESS_STATUS_NOT_SUPPORTED. simpl. mrun. by rewrite Hnmr.
  - intros Hhdr Halloc. unfold XdpIfpOpenInterface, XdpIfpOpenInterface_body.
    mrun. rewrite (header_ok_check X Hhdr), Halloc. simpl. mrun.
    unfold XdpIfpOpenInterface_exit.
    change (NT_SUCCESS STATUS_NO_MEMORY) with false. simpl. mrun.
    rewrite Hid, Hnmr. mrun.
    destruct s; unfold with_ifs; simpl in *. by rewrite insert_id.
  - intros Hhdr Halloc St ph Hopen HSt.
    unfold XdpIfpOpenInterface, XdpIfpOpenInterface_body. mrun.
    rewrite (header_ok_check X Hhdr), Halloc. simpl. mrun.
    rewrite alloc_nmr_run.
    pose proof (fresh_pool_None (NmrPool s)) as Hfresh.
    set (n := fresh (dom (NmrPool s))) in *.
    destruct s as [sets ifsets ifs nmrs ents tr]; simpl in *.
    mrun'.
    rewrite (XdpIfpReferenceInterface_run _ h (set_Nmr (Some n) X)) by side.
    mrun'. rewrite !insert_insert_eq.
    rewrite InterlockedIncrement_succ by (unfold LONG_MAX in *; lia).
    rewrite Hopen, HSt. simpl. mrun'.
    unfold XdpIfpOpenInterface_exit. rewrite HSt. simpl. mrun'.
    rewrite bind_run. erewrite XdpIfpDereferenceInterface_run; [|side|].
    2:{ simpl. rewrite InterlockedDecrement_pred by (unfold LONG_MAX in *; lia).
        lia. }
    mrun'. rewrite !insert_insert_eq.
    rewrite InterlockedDecrement_pred by (unfold LONG_MAX in *; lia).
    rewrite delete_insert_eq, delete_id by done.
    replace (ReferenceCount X + 1 - 1) with (ReferenceCount X) by lia.
    do 2 f_equal. apply insert_id. rewrite HX. f_equal.
    destruct X; simpl in *. by subst.
Qed.

(** ** References taken by lookup *)

(** X15.  The reference taken by XdpIfFindAndReferenceBinding is released
    by XdpIfDereferenceBinding: when the lookup returns a binding, the
    binding holds one more reference, and dereferencing it restores the
    state from before the lookup. *)
Theorem XdpIfDereferenceBinding_after_find
    s s' IfIndex HookIds RequiredMode h X :
  XdpIfFindAndReferenceBinding IfIndex HookIds RequiredMode s
    = Done (Some h) s' ->
  IfPool s !! h = Some X ->
  0 < ReferenceCount X < LONG_MAX ->
  IfPool s' !! h
    = Some (set_ReferenceCount (ReferenceCount X + 1) X) /\
  XdpIfDereferenceBinding h s' = Done tt s.
Proof.
  intros Hfind HX Hrc. unfold XdpIfFindAndReferenceBinding in Hfind.
  apply bind_Done_inv in Hfind as (Found & s1 & Hfind & H).
  destruct Found as [x|]; [|discriminate H].
  apply XdpIfpFindInterface_slot in Hfind as (-> & _).
  apply bind_Done_inv in H as ([] & s2 & Href & H). injection H as -> <-.
  rewrite (XdpIfpReferenceInterface_run _ h X HX) in Href.
  injection Href as <-.
  assert (Hinc : InterlockedIncrement (ReferenceCount X) = ReferenceCount X + 1)
    by (apply InterlockedIncrement_succ; unfold LONG_MAX in *; lia).
  rewrite Hinc. split; [apply lookup_insert_eq|].
  unfold XdpIfDereferenceBinding.
  erewrite XdpIfpDereferenceInterface_run; [|apply lookup_insert_eq|].
  2:{ cbn [ReferenceCount set_ReferenceCount].
      rewrite InterlockedDecrement_pred by (unfold LONG_MAX in *; lia). lia. }
  cbn [ReferenceCount set_ReferenceCount with_ifs IfPool].
  rewrite InterlockedDecrement_pred by (unfold LONG_MAX in *; lia).
  replace (ReferenceCount X + 1 - 1) with (ReferenceCount X) by lia.
  rewrite insert_insert_eq. f_equal.
  destruct s; unfold with_ifs; simpl in *. f_equal.
  apply insert_id. rewrite HX. f_equal. by destruct X.
Qed.

(** ** Hook ids *)

Lemma XdpIfSupportsHookId_elem Capabilities Target :
  XdpIfSupportsHookId Capabilities Target = true <->
  Target ∈ Hooks Capabilities.
Proof.
  unfold XdpIfSupportsHookId.
  induction (Hooks Capabilities) as [|c l IH]; simpl.
  - split; [done|]. intros H. by apply elem_of_nil in H.
  - destruct ((Layer Target =? Layer c) && (Direction Target =? Direction c) &&
              (SubLayer Target =? SubLayer c)) eqn:Heq.
    + split; [|done]. intros _.
      apply andb_true_iff in Heq as [[Hl Hd]%andb_true_iff Hs].
      apply Z.eqb_eq in Hl, Hd, Hs. destruct Target, c; simpl in *; subst.
      left.
    + rewrite IH. split; [by right|].
      intros [->|Hin]%elem_of_cons; [|done].
      rewrite !Z.eqb_refl in Heq. discriminate Heq.
Qed.

(** X16.  XdpIfpSupportsHookIds returns TRUE exactly when every target hook
    id is one of the hook ids of the capabilities; in particular an empty
    target list is always supported. *)
Theorem XdpIfpSupportsHookIds_subset Capabilities TargetIds :
  XdpIfpSupportsHookIds Capabilities TargetIds = true <->
  forall Target, Target ∈ TargetIds -> Target ∈ Hooks Capabilities.
Proof.
  induction TargetIds as [|t l IH]; simpl.
  - split; [|done]. intros _ Target H. by apply elem_of_nil in H.
  - destruct (XdpIfSupportsHookId Capabilities t) eqn:Ht; simpl.
    + rewrite IH. apply XdpIfSupportsHookId_elem in Ht. split.
      * intros Hl Target [->|Hin]%elem_of_cons; [done | by apply Hl].
      * intros Hl Target Hin. apply Hl. by right.
    + split; [done|]. intros Hl.
      assert (Hin : t ∈ Hooks Capabilities) by (apply Hl; left).
      apply XdpIfSupportsHookId_elem in Hin. congruence.
Qed.

(** ** What validation guarantees to the negotiation loop *)

(** X17.  What XdpValidateCapabilitiesEx guarantees to the loop of
    XdpRequestClientDispatch: in a blob it accepts, every element of the
    driver API version array lies within the total size and within 32
    bits.  A blob accepted for a total size is accepted for every larger
    one. *)
Theorem XdpValidateCapabilitiesEx_covers_versions C TotalSize :
  0 <= DriverApiVersionsOffset C ->
  0 <= DriverApiVersionCount C ->
  0 < sizeof_XDP_VERSION ->
  XdpValidateCapabilitiesEx C TotalSize = true ->
  (forall i, 0 <= i < DriverApiVersionCount C ->
     DriverApiVersionsOffset C + (i + 1) * sizeof_XDP_VERSION <= TotalSize /\
     DriverApiVersionsOffset C + (i + 1) * sizeof_XDP_VERSION <= UINT32_MAX) /\
  (forall Larger, TotalSize <= Larger ->
     XdpValidateCapabilitiesEx C Larger = true).
Proof.
  intros Hoff Hcount Hsz Hvalid.
  apply XdpValidateCapabilitiesEx_true in Hvalid as (Hrev & Hsize & Hin).
  unfold version_array_out_of_bounds, out_of_bounds in Hin.
  assert (Hb : DriverApiVersionsOffset C
                 + DriverApiVersionCount C * sizeof_XDP_VERSION <= TotalSize /\
               DriverApiVersionsOffset C
                 + DriverApiVersionCount C * sizeof_XDP_VERSION <= UINT32_MAX).
  { split.
    - destruct (Z.le_gt_cases
                  (DriverApiVersionsOffset C
                     + DriverApiVersionCount C * sizeof_XDP_VERSION) TotalSize);
        [done|]. exfalso. apply Hin. right. right. lia.
    - destruct (Z.le_gt_cases
                  (DriverApiVersionsOffset C
                     + DriverApiVersionCount C * sizeof_XDP_VERSION) UINT32_MAX);
        [done|]. exfalso. apply Hin. right. left. lia. }
  split.
  - intros i Hi.
    assert ((i + 1) * sizeof_XDP_VERSION
              <= DriverApiVersionCount C * sizeof_XDP_VERSION)
      by (apply Z.mul_le_mono_nonneg_r; lia).
    lia.
  - intros Larger Hl. apply XdpValidateCapabilitiesEx_true.
    split; [done|]. split; [done|].
    unfold version_array_out_of_bounds, out_of_bounds.
    intros [H|[H|H]]; apply Hin; [by left | right; by left | right; right; lia].
Qed.

(** ** A provider detach while queues exist *)

Lemma XdpIfpInterfaceNmrDelete_run fuel s h X n N extra :
  attached s h X n N ->
  ProviderReference X <> 0 ->
  rundown_ready s h X extra -> 0 < extra ->
  (length (Clients X) <= fuel)%nat ->
  exists s1,
    XdpIfpInterfaceNmrDelete fuel n s = Done tt s1 /\
    IfPool s1 =
      <[h := set_ReferenceCount extra
               (set_Clients [] (set_NmrDeleting true X))]> (IfPool s) /\
    NmrPool s1 = release_nmr n N (NmrPool s) /\
    Trace s1 = Trace s ++ map EvBindingDetached (Clients X) /\
    (forall c, c ∈ Clients X ->
       exists E, ClientEntries s !! c = Some E /\
         ClientEntries s1 !! c = Some (set_Linked false E)) /\
    (forall c, c ∉ Clients X -> ClientEntries s1 !! c = ClientEntries s !! c) /\
    XdpInterfaceSets s1 = XdpInterfaceSets s /\ IfSetPool s1 = IfSetPool s.
Proof.
  intros (HX & Hn & HN & [ph Hph] & Hb) Hpr Hready Hextra Hfuel.
  pose proof Hready as (Hatt & Hnd & Hents & Hrc & Hmax).
  unfold XdpIfpInterfaceNmrDelete. mrun. rewrite Hb, Hph. mrun.
  set (s0 := with_ifs _ s).
  destruct (XdpIfpStartRundown_run fuel s0 h (set_NmrDeleting true X) extra)
    as (s1 & Hrun & Hifs & Hcount & Htr & Hnm & Hin & Hout & Hl & Hp);
    [subst s0; simpl; apply lookup_insert_eq| |done|done|].
  { by split_and!. }
  rewrite Hrun.
  apply Z.eqb_neq in Hpr.
  change (ProviderReference (set_NmrDeleting true X))
    with (ProviderReference X) in *.
  rewrite Hpr in Htr, Hnm.
  erewrite XdpIfpDereferenceNmr_run by (rewrite Hnm; exact HN).
  eexists. split; [reflexivity|].
  cbn [with_nmrs IfPool NmrPool Trace ClientEntries XdpInterfaceSets IfSetPool].
  split.
  { rewrite Hifs. subst s0. cbn [with_ifs IfPool]. rewrite insert_insert_eq.
    f_equal. unfold run_down.
    change (ProviderReference (set_NmrDeleting true X))
      with (ProviderReference X).
    rewrite Hpr.
    change (ReferenceCount (set_NmrDeleting true X)) with (ReferenceCount X).
    change (Clients (set_NmrDeleting true X)) with (Clients X).
    f_equal. lia. }
  split; [by rewrite Hnm|]. split; [done|]. split; [done|]. done.
Qed.

Lemma closed_interface_Rundown s X :
  Rundown (closed_interface s X) =
    if Nmr X is Some _ then Z.land (Rundown X) 253 else Rundown X.
Proof.
  unfold closed_interface, close_complete, close_nmr, close_context,
    detach_queued.
  destruct X as [ifi ifs xctx caps nmr ver disp ctx rc cl pr rd wq].
  cbn [InterfaceContext Nmr set_Interface].
  destruct ctx; destruct nmr as [nm|]; destruct xctx; destruct wq;
    cbn [InterfaceContext Nmr set_Interface XdpIfInterfaceContext WorkQueue];
    try destruct (if NmrPool s !! nm is Some N then DetachNotification N else true);
    cbn [XdpIfInterfaceContext set_NmrDeleting set_Nmr set_Rundown
         set_WorkQueue WorkQueue Rundown];
    try destruct (BindingDeleting _); reflexivity.
Qed.

(** X20.  A provider detach while a queue exists is not final.  On an open
    binding with one provider reference whose provider has sent its detach
    notification, the NMR work item sets NmrDeleting, notifies and unlinks
    the clients and releases one of the two references of the NMR context;
    queue creation now fails with STATUS_DELETE_PENDING.  Deleting the last
    queue then closes the interface, frees the NMR context and clears the
    rundown flags again, so that the binding can be opened anew. *)
Theorem XdpIfpInterfaceNmrDelete_then_last_queue
    fuel s h X n N ph c d extra Queue :
  IfPool s !! h = Some X -> Nmr X = Some n ->
  NmrPool s !! n = Some N -> NmrHandle N = Some ph ->
  WorkItem_BindingHandle N = Some h ->
  DetachNotification N = true -> NmrReferenceCount N = 2 ->
  Rundown X = 0 -> ProviderReference X = 1 ->
  InterfaceContext X = Some c -> InterfaceDispatch X = Some d ->
  rundown_ready s h X extra -> 0 < extra ->
  (length (Clients X) <= fuel)%nat ->
  exists s1 X1 s2 X2,
    XdpIfpInterfaceNmrDelete fuel n s = Done tt s1 /\
    IfPool s1 !! h = Some X1 /\
    NmrDeleting X1 = true /\ BindingDeleting X1 = false /\ Clients X1 = [] /\
    (exists N1, NmrPool s1 !! n = Some N1 /\ NmrReferenceCount N1 = 1) /\
    (forall env Config,
       XdpIfCreateRxQueue env h Config s1
         = Done (STATUS_DELETE_PENDING, None, None) s1) /\
    XdpIfDeleteRxQueue h Queue s1 = Done tt s2 /\
    IfPool s2 !! h = Some X2 /\
    Rundown X2 = 0 /\ Nmr X2 = None /\ InterfaceContext X2 = None /\
    ProviderReference X2 = 0 /\ Clients X2 = [] /\ ReferenceCount X2 = extra /\
    NmrPool s2 = delete n (NmrPool s) /\
    Trace s2 =
      Trace s ++ map EvBindingDetached (Clients X)
        ++ [EvDeleteRxQueue Queue]
        ++ (if CloseInterface d then [EvCloseInterface (Some c)] else [])
        ++ [EvXdpCloseProvider ph; EvXdpCleanupProvider ph].
Proof.
  intros HX Hn HN Hph Hb Hdet Hcnt Hrd Hpr Hctx Hd Hready Hextra Hfuel.
  pose proof Hready as (_ & _ & _ & Hrc & Hmax).
  destruct (XdpIfpInterfaceNmrDelete_run fuel s h X n N extra)
    as (s1 & Hrun & Hifs & Hnm & Htr & _); try done.
  { rewrite Hpr. done. }
  set (X1 := set_ReferenceCount extra
               (set_Clients [] (set_NmrDeleting true X))) in *.
  set (N1 := set_NmrReferenceCount 1 N).
  assert (HX1 : IfPool s1 !! h = Some X1) by (rewrite Hifs; apply lookup_insert_eq).
  assert (HN1 : NmrPool s1 !! n = Some N1).
  { rewrite Hnm. unfold release_nmr. rewrite Hcnt.
    change (to_ULONG (2 - 1)) with 1. simpl. apply lookup_insert_eq. }
  assert (Hnd1 : NmrDeleting X1 = true).
  { unfold NmrDeleting, X1, set_NmrDeleting, set_Rundown.
    cbn [Rundown set_ReferenceCount set_Clients]. by rewrite Hrd. }
  assert (Hbd1 : BindingDeleting X1 = false).
  { unfold BindingDeleting, X1, set_NmrDeleting, set_Rundown.
    cbn [Rundown set_ReferenceCount set_Clients]. by rewrite Hrd. }
  destruct (XdpIfDeleteQueue_last s1 h X1 Queue XdpIfDeleteRxQueue EvDeleteRxQueue
              (or_introl (conj eq_refl eq_refl)) HX1)
    as (s2 & Hdel & Hifs2 & Htr2 & Hnm2 & _).
  { subst X1; simpl. rewrite Hd. eauto. }
  { exact Hpr. }
  { split.
    - intros _. subst X1; simpl. rewrite Hd. eauto.
    - intros n' Hn'. subst X1; simpl in Hn'. rewrite Hn in Hn'.
      injection Hn' as <-. exists N1, ph. split; [done|]. split; [done|].
      subst N1; simpl. rewrite Hdet. done. }
  { subst X1; simpl. unfold LONG_MAX in *. lia. }
  exists s1, X1, s2. eexists.
  split; [done|]. split; [done|]. split; [done|]. split; [done|].
  split; [done|]. split; [by exists N1|].
  split.
  { intros env Config.
    assert (Hrp : XdpIfpReferenceProvider env h s1 = Done STATUS_DELETE_PENDING s1).
    { eapply XdpIfpReferenceProvider_rundown; [exact HX1|].
      by apply Rundown_of_NmrDeleting. }
    unfold XdpIfCreateRxQueue. mrun. by rewrite Hrp. }
  split; [done|].
  split; [rewrite Hifs2; apply lookup_insert_eq|].
  destruct (closed_interface_kept s1 (set_ProviderReference 0 X1))
    as (Hk1 & Hk2 & Hk3 & _ & _ & Hk6 & Hk7).
  split.
  { rewrite closed_interface_Rundown. subst X1.
    cbn [Nmr Rundown set_ProviderReference set_ReferenceCount set_Clients
         set_NmrDeleting set_Rundown].
    by rewrite Hn, Hrd. }
  split; [exact Hk7|]. split; [exact Hk6|]. split; [exact Hk3|].
  split; [exact Hk1|]. split; [exact Hk2|].
  split.
  { rewrite Hnm2. unfold closed_nmrs. subst X1.
    cbn [Nmr set_ReferenceCount set_Clients set_NmrDeleting set_Rundown].
    rewrite Hn, HN1. unfold release_nmr. subst N1.
    cbn [NmrReferenceCount set_NmrHandle set_DetachNotification
         set_NmrReferenceCount].
    change (to_ULONG (1 - 1)) with 0. simpl. rewrite Hnm.
    unfold release_nmr. rewrite Hcnt. change (to_ULONG (2 - 1)) with 1. simpl.
    by rewrite delete_insert_eq. }
  rewrite Htr2, Htr. rewrite <- !app_assoc. do 2 f_equal. simpl. f_equal.
  unfold close_events, close_context_events, close_nmr_events,
    close_complete_events. subst X1.
  cbn [InterfaceContext InterfaceDispatch Nmr XdpIfInterfaceContext
       set_ReferenceCount set_Clients set_NmrDeleting set_Rundown].
  rewrite Hctx, Hd, Hn, HN1. subst N1. cbn [NmrHandle set_NmrReferenceCount].
  rewrite Hph.
  destruct (XdpIfInterfaceContext X); [rewrite Hbd1|]; by rewrite app_nil_r.
Qed.

(** ** The provider's detach notification and its work item *)

(** X21.  The provider's detach notification and its work item.
    XdpIfpDetachNmrInterface signals the event, appends the NMR work item
    to the work queue of the binding and leaves the reference count of the
    binding as it was: the work item takes over the reference taken when
    the attachment was opened.  XdpIfpInterfaceWorker, running that item on
    a binding with provider references, sets NmrDeleting, notifies and
    unlinks every client, releases one reference of the NMR context and the
    reference of the item, and leaves the interface open. *)
Theorem XdpIfpDetachNmrInterface_then_worker fuel s h X n N q extra :
  attached s h X n N ->
  DetachNotification N = false ->
  WorkQueue X = Some q ->
  ProviderReference X <> 0 ->
  rundown_ready s h X extra -> 1 < extra ->
  (length (Clients X) <= fuel)%nat ->
  exists s0 X0 s1 X1,
    XdpIfpDetachNmrInterface n s = Done tt s0 /\
    IfPool s0 !! h = Some X0 /\
    WorkQueue X0 = Some (q ++ [NmrWorkItem n]) /\
    ReferenceCount X0 = ReferenceCount X /\
    NmrPool s0 = <[n := set_DetachNotification true N]> (NmrPool s) /\
    Trace s0 = Trace s /\
    XdpIfpInterfaceWorker fuel h [NmrWorkItem n] s0 = Done tt s1 /\
    IfPool s1 !! h = Some X1 /\
    NmrDeleting X1 = true /\ Clients X1 = [] /\
    ReferenceCount X1 = extra - 1 /\
    ProviderReference X1 = ProviderReference X /\
    Nmr X1 = Some n /\ InterfaceContext X1 = InterfaceContext X /\
    NmrPool s1 =
      release_nmr n (set_DetachNotification true N) (NmrPool s0) /\
    Trace s1 = Trace s ++ map EvBindingDetached (Clients X) /\
    (forall c, c ∈ Clients X ->
       exists E, ClientEntries s !! c = Some E /\
         ClientEntries s1 !! c = Some (set_Linked false E)).
Proof.
  intros Hatt Hdet Hq Hpr Hready Hextra Hfuel.
  pose proof Hatt as (HX & Hn & HN & Hph & Hb).
  pose proof Hready as (Hat & Hnd & Hents & Hrc & Hmax).
  assert (Hrange : 0 < ReferenceCount X < LONG_MAX).
  { pose proof (Nat2Z.is_nonneg (length (Clients X))).
    unfold LONG_MAX in *. lia. }
  pose proof (XdpIfpDetachNmrInterface_run s h X n N HX HN Hb
                (ex_intro _ q Hq) Hrange) as Hrun0.
  set (s0 := with_ifs _ _) in Hrun0.
  set (X0 := detach_queued n X).
  set (N0 := set_DetachNotification true N).
  assert (HX0 : IfPool s0 !! h = Some X0) by apply lookup_insert_eq.
  assert (Hwq0 : WorkQueue X0 = Some (q ++ [NmrWorkItem n])).
  { subst X0. unfold detach_queued. by rewrite Hq. }
  assert (Hsame : Clients X0 = Clients X /\ ReferenceCount X0 = ReferenceCount X /\
                  ProviderReference X0 = ProviderReference X /\
                  Nmr X0 = Nmr X /\ InterfaceContext X0 = InterfaceContext X /\
                  InterfaceDispatch X0 = InterfaceDispatch X).
  { subst X0. unfold detach_queued. by rewrite Hq. }
  destruct Hsame as (Hc0 & Hrc0 & Hpr0 & Hn0 & Hctx0 & Hd0).
  destruct (XdpIfpInterfaceNmrDelete_run fuel s0 h X0 n N0 extra)
    as (s1 & Hrun1 & Hifs1 & Hnm1 & Htr1 & Hin1 & _).
  { split_and!; [done|by rewrite Hn0|apply lookup_insert_eq|exact Hph|exact Hb]. }
  { by rewrite Hpr0. }
  { split_and!.
    - rewrite Hpr0. intros Hz. by destruct Hpr.
    - by rewrite Hc0.
    - rewrite Hc0. exact Hents.
    - by rewrite Hc0, Hrc0.
    - by rewrite Hrc0. }
  { lia. }
  { by rewrite Hc0. }
  assert (Hdec : InterlockedDecrement extra = extra - 1).
  { apply InterlockedDecrement_pred.
    pose proof (Nat2Z.is_nonneg (length (Clients X))).
    unfold LONG_MAX in *. lia. }
  exists s0, X0. eexists _, _.
  split; [exact Hrun0|]. split; [exact HX0|]. split; [exact Hwq0|].
  split; [exact Hrc0|]. split; [done|]. split; [done|].
  split.
  { cbn [XdpIfpInterfaceWorker]. mrun. rewrite Hrun1.
    rewrite bind_run. erewrite XdpIfpDereferenceInterface_run;
      [reflexivity|rewrite Hifs1; apply lookup_insert_eq|].
    cbn [ReferenceCount set_ReferenceCount]. rewrite Hdec. lia. }
  cbn [with_ifs IfPool NmrPool Trace ClientEntries ReferenceCount
       set_ReferenceCount].
  split; [apply lookup_insert_eq|].
  rewrite Hdec. rewrite Hc0 in Htr1, Hin1.
  split.
  { unfold NmrDeleting, set_NmrDeleting, set_Rundown.
    cbn [Rundown set_ReferenceCount set_Clients].
    rewrite Z.lor_spec. apply orb_true_r. }
  split; [done|]. split; [done|]. split; [exact Hpr0|].
  split; [by rewrite <- Hn|]. split; [exact Hctx0|].
  split; [exact Hnm1|]. split; [exact Htr1|].
  intros c Hc. by apply Hin1.
Qed.

(** ** Lifetime of an interface set *)

Lemma added_slots_origin m x hs : forall l P,
  slot m (added_slots hs l P) = Some x ->
  (exists i B, hs !! i = Some x /\ l !! i = Some B /\
     Mode (InterfaceCapabilities B) = m) \/
  slot m P = Some x.
Proof.
  induction hs as [|h hs IH]; intros [|A l] P; try (by right).
  change (added_slots (h :: hs) (A :: l) P)
    with (added_slots hs l
            (set_slot (Mode (InterfaceCapabilities A)) (Some h) P)).
  intros [(i & B & Hi & HB & Hm)|Hs]%IH.
  - left. by exists (S i), B.
  - destruct m, (Mode (InterfaceCapabilities A)) eqn:HA; simpl in Hs;
      first [injection Hs as ->; left; by exists 0%nat, A | by right].
Qed.

Lemma added_slots_snoc hs h l B P :
  length hs = length l ->
  added_slots (hs ++ [h]) (l ++ [B]) P =
    set_slot (Mode (InterfaceCapabilities B)) (Some h) (added_slots hs l P).
Proof.
  intros Hlen. unfold added_slots.
  rewrite zip_with_app by done. by rewrite fold_left_app.
Qed.

Lemma added_slots_occupied hs l P :
  length hs = length l -> l <> [] ->
  exists m x, slot m (added_slots hs l P) = Some x.
Proof.
  intros Hlen Hl.
  destruct (exists_last Hl) as (l' & B & ->).
  assert (Hhs : hs <> []).
  { intros ->. rewrite length_app in Hlen. simpl in Hlen. lia. }
  destruct (exists_last Hhs) as (hs' & h & ->).
  rewrite !length_app in Hlen. simpl in Hlen.
  rewrite added_slots_snoc by lia.
  exists (Mode (InterfaceCapabilities B)), h. apply slot_set_slot_eq.
Qed.

(** X22.  The lifetime of an interface set.  After a batch has been added
    to an empty set, XdpIfDeleteInterfaceSet fails its FRE_ASSERT as long
    as the bindings are in place; after XdpIfRemoveInterfaces of all the
    handles of the batch it succeeds and unlinks and frees the set, while
    the bindings stay allocated until their delete work items have run. *)
Theorem XdpIfDeleteInterfaceSet_after_remove env IfSet l s S0 :
  IfSetPool s !! IfSet = Some S0 ->
  Interfaces S0 = (None, None) ->
  (forall i B, l !! i = Some B -> passes env i B) ->
  exists hs s1 s2 s3,
    XdpIfAddInterfaces env IfSet l s =
      Done (STATUS_SUCCESS,
            zip_with (fun h B => set_InterfaceHandle (Some h) B) hs l) s1 /\
    (l <> [] -> XdpIfDeleteInterfaceSet IfSet s1 = Stop FreAssert) /\
    XdpIfRemoveInterfaces hs s1 = Done tt s2 /\
    XdpIfDeleteInterfaceSet IfSet s2 = Done tt s3 /\
    IfSetPool s3 !! IfSet = None /\ (IfSet ∉ XdpInterfaceSets s3) /\
    (forall h, h ∈ hs -> is_Some (IfPool s3 !! h)).
Proof.
  intros HS Hempty Hpass.
  destruct (XdpIfAddInterfaces_for_ok env IfSet l 0%nat s S0 HS Hpass)
    as (hs & s1 & Hrun & Hlen & Hnd & Hfresh & Hnew & Hold & Hset & _).
  set (S1 := added_slots hs l S0) in *.
  assert (HS1 : IfSetPool s1 !! IfSet = Some S1)
    by (rewrite Hset; apply lookup_insert_eq).
  assert (Hlive : forall h, h ∈ hs ->
            exists B, IfPool s1 !! h
                        = Some (added_interface IfSet (SetIfIndex S0) B)).
  { intros h [j Hj]%list_elem_of_lookup.
    destruct (lookup_lt_is_Some_2 l j) as [B HB].
    { rewrite <- Hlen. by eapply lookup_lt_Some. }
    exists B. by eapply Hnew. }
  destruct (XdpIfRemoveInterfaces_run hs s1 Hnd)
    as (s2 & Hrem & Hnew2 & _ & Hsets2 & _).
  { intros h Hh. destruct (Hlive h Hh) as [B HB].
    eexists _, IfSet. split; [exact HB|]. simpl. eauto. }
  destruct (Hsets2 IfSet S1 HS1) as (P2 & HP2 & _ & _ & Hnone & _ & Hz).
  assert (Hslots : forall m, slot m P2 = None).
  { intros m. destruct (Hnone m) as [Hm|Hm]; [done|].
    destruct (slot m S1) as [x|] eqn:Hx; [|done].
    apply added_slots_origin in Hx as [(i & B & Hi & HB & Hmode)|Hx].
    - pose proof (Hnew i x B Hi HB) as HX.
      pose proof (Hz x _ (list_elem_of_lookup_2 _ _ _ Hi) HX eq_refl) as Hzero.
      simpl in Hzero. by rewrite Hmode in Hzero.
    - destruct m; simpl in Hx; rewrite Hempty in Hx; done. }
  assert (Hempty2 : Interfaces P2 = (None, None)).
  { pose proof (Hslots XDP_INTERFACE_MODE_GENERIC) as Hg.
    pose proof (Hslots XDP_INTERFACE_MODE_NATIVE) as Hn. simpl in Hg, Hn.
    destruct (Interfaces P2); simpl in *; by subst. }
  exists hs, s1, s2. eexists.
  split. { unfold XdpIfAddInterfaces. mrun. by rewrite Hrun. }
  split.
  { intros Hl. unfold XdpIfDeleteInterfaceSet. mrun.
    destruct (added_slots_occupied hs l S0 Hlen Hl) as (m & x & Hx).
    fold S1 in Hx.
    destruct (Interfaces S1) as [[g|] [nn|]] eqn:Hi; try done.
    destruct m; simpl in Hx; rewrite Hi in Hx; done. }
  split; [exact Hrem|].
  split. { unfold XdpIfDeleteInterfaceSet. mrun. rewrite Hempty2. reflexivity. }
  cbn [with_sets with_ifsets IfSetPool XdpInterfaceSets IfPool].
  split; [apply lookup_delete_eq|].
  split. { rewrite list_elem_of_filter. intros [Hne _]. by apply Hne. }
  intros h Hh. destruct (Hlive h Hh) as [B HB].
  erewrite Hnew2; [eauto|done|exact HB|reflexivity].
Qed.

(** ** Client entries before registration *)

(** X23.  An entry prepared by XdpIfInitializeClientEntry is unlinked and
    carries no client: deregistering it is a no-op, and it can be registered
    with any binding that is not being deleted and holds no entry with the
    same client id and key. *)
Theorem XdpIfInitializeClientEntry_unlinked s h e E :
  ClientEntries s !! e = Some E ->
  exists s1,
    XdpIfInitializeClientEntry e s = Done tt s1 /\
    ClientEntries s1 =
      <[e := {| Linked := false; Client := None; Key := None |}]>
        (ClientEntries s) /\
    IfPool s1 = IfPool s /\ Trace s1 = Trace s /\
    XdpIfDeregisterClient h e s1 = Done tt s1 /\
    (forall X client key,
       IfPool s !! h = Some X -> (e ∉ Clients X) ->
       ClientId client <> XDP_BINDING_CLIENT_ID_INVALID -> 0 < KeySize client ->
       clients_registered s X -> BindingDeleting X = false ->
       (forall c, c ∈ Clients X -> ~ same_client_and_key s client key c) ->
       XdpIfRegisterClient h client (Some key) e s1
         = Done STATUS_SUCCESS (registered s1 h X client key e)).
Proof.
  intros HE. unfold XdpIfInitializeClientEntry. mrun.
  eexists. split; [reflexivity|].
  cbn [with_entries ClientEntries IfPool Trace].
  split; [done|]. split; [done|]. split; [done|]. split.
  - eapply XdpIfDeregisterClient_unlinked; [apply lookup_insert_eq | done].
  - intros X client key HX Hnotin Hid Hsz Hreg Hdel Hno.
    assert (Hother : forall c, c ∈ Clients X ->
              <[e := {| Linked := false; Client := None; Key := None |}]>
                (ClientEntries s) !! c = ClientEntries s !! c).
    { intros c Hc. rewrite lookup_insert_ne; [done|]. intros <-. done. }
    eapply XdpIfRegisterClient_success; try done.
    + apply lookup_insert_eq.
    + intros c Hc. cbn [with_entries ClientEntries]. rewrite Hother by done.
      by apply Hreg.
    + intros (c & Hc & Hs). apply (Hno c Hc).
      eapply same_client_and_key_frame; [|exact Hs].
      cbn [with_entries ClientEntries]. symmetry. by apply Hother.
Qed.

(** ** A failed open after the provider has been opened *)

(** X24.  XdpIfpOpenInterface when the provider has been opened but accepts
    none of the candidate versions: the call returns STATUS_NOT_SUPPORTED
    after closing the attachment again.  The provider handle is closed and
    cleaned up, the binding is left without attachment, and the reference
    taken for the attachment now belongs to the NMR work item queued by the
    detach notification, whose NMR context is still allocated with one
    reference.  Once XdpIfpInterfaceWorker has run that item the NMR context
    is freed and the binding holds the references it held before the
    call. *)
Theorem XdpIfpOpenInterface_no_version fuel env s h X q St0 ph :
  IfPool s !! h = Some X ->
  Nmr X = None -> InterfaceContext X = None -> Rundown X = 0 ->
  WorkQueue X = Some q ->
  header_ok X ->
  AllocateNmr env = true ->
  XdpOpenProvider env (IfIndex X) (InstanceId (CapabilitiesEx (Capabilities X)))
    = (St0, ph) ->
  NT_SUCCESS St0 = true ->
  (forall w, w ∈ candidates (CapabilitiesEx (Capabilities X)) ->
     ~ candidate_accepted (GetInterfaceDispatch env) w) ->
  0 < ReferenceCount X < LONG_MAX - 1 ->
  let n := fresh (dom (NmrPool s)) in
  let Xq := set_WorkQueue (Some (q ++ [NmrWorkItem n])) X in
  exists s1 N1 s2,
    XdpIfpOpenInterface env h s = Done STATUS_NOT_SUPPORTED s1 /\
    NmrPool s !! n = None /\
    IfPool s1 =
      <[h := set_ReferenceCount (ReferenceCount X + 1) Xq]> (IfPool s) /\
    NmrPool s1 = <[n := N1]> (NmrPool s) /\
    NmrReferenceCount N1 = 1 /\ NmrHandle N1 = None /\
    Trace s1 = Trace s ++ [EvXdpCloseProvider ph; EvXdpCleanupProvider ph] /\
    XdpIfpInterfaceWorker fuel h [NmrWorkItem n] s1 = Done tt s2 /\
    IfPool s2 = <[h := Xq]> (IfPool s) /\
    NmrPool s2 = NmrPool s /\ Trace s2 = Trace s1 /\
    ClientEntries s2 = ClientEntries s.
Proof.
  intros HX Hnmr Hctx Hrd Hq Hhdr Halloc Hopen HSt0 Hnone Hrc n Xq.
  pose proof (fresh_pool_None (NmrPool s)) as Hfresh. fold n in Hfresh.
  destruct (XdpRequestClientDispatch_for_none (GetInterfaceDispatch env)
              (candidates (CapabilitiesEx (Capabilities X))) (None, None)
              (set_ReferenceCount (ReferenceCount X + 1) (set_Nmr (Some n) X))
              Hnone) as [Hst Hsame].
  unfold XdpIfpOpenInterface, XdpIfpOpenInterface_body. mrun.
  rewrite (header_ok_check X Hhdr), Halloc. simpl. mrun.
  rewrite alloc_nmr_run. fold n.
  destruct s as [sets ifsets ifs nmrs ents tr]; simpl in *.
  mrun'.
  rewrite (XdpIfpReferenceInterface_run _ h (set_Nmr (Some n) X)) by side.
  mrun'. rewrite !insert_insert_eq.
  rewrite InterlockedIncrement_succ by (unfold LONG_MAX in *; lia).
  rewrite Hopen, HSt0. simpl. mrun'. rewrite !insert_insert_eq.
  unfold XdpRequestClientDispatch. fold (candidates (CapabilitiesEx (Capabilities X))).
  destruct (XdpRequestClientDispatch_for _ _ _ _ _) as [[St1 out] X'].
  simpl in Hst, Hsame. subst St1 X'. destruct out as [octx odisp].
  mrun'. rewrite !insert_insert_eq.
  unfold XdpIfpOpenInterface_exit. rewrite NT_SUCCESS_STATUS_NOT_SUPPORTED.
  cbn [negb]. mrun'.
  set (X4 := set_ReferenceCount (ReferenceCount X + 1) (set_Nmr (Some n) X)).
  set (N4 := set_NmrHandle (Some ph) _).
  set (sb := {| XdpInterfaceSets := sets; IfSetPool := ifsets;
                IfPool := <[h := X4]> ifs; NmrPool := <[n := N4]> nmrs;
                ClientEntries := ents; Trace := tr |}).
  destruct (XdpIfpCloseInterface_run sb h X4) as (sc & Hclose & Hcl).
  { apply lookup_insert_eq. }
  { split; [subst X4; simpl; rewrite Hctx; by intros [? ?]|].
    intros n' [= <-]. exists N4, ph. split; [apply lookup_insert_eq|].
    split; [reflexivity|]. intros _. split; [reflexivity|].
    subst X4; simpl. rewrite Hq. eauto. }
  { subst X4; simpl. unfold LONG_MAX in *. lia. }
  rewrite Hclose.
  destruct Hcl as [(Hifs & Htr & Hents & Hsets & Hsp) Hnmrs].
  assert (Hclosed : closed_interface sb X4 =
            set_ReferenceCount (ReferenceCount X + 1) Xq).
  { unfold closed_interface, close_complete, close_nmr, close_context,
      detach_queued. subst X4 Xq sb N4.
    cbn [InterfaceContext Nmr set_ReferenceCount set_Nmr NmrPool].
    rewrite Hctx. cbn [Nmr set_ReferenceCount set_Nmr].
    rewrite lookup_insert_eq.
    cbn [DetachNotification set_NmrHandle set_DetachNotification WorkQueue
         set_ReferenceCount set_Nmr].
    rewrite Hq. unfold BindingDeleting.
    destruct X as [ifi ifset xctx caps nmr0 ver disp ctx rc cl pr rd wq].
    simpl in *. subst. destruct xctx; reflexivity. }
  assert (Hcnmrs : closed_nmrs sb X4 =
            <[n := set_NmrReferenceCount 1
                     (set_NmrHandle None (set_DetachNotification true N4))]> nmrs).
  { unfold closed_nmrs. subst X4 sb.
    cbn [Nmr set_ReferenceCount set_Nmr NmrPool]. rewrite lookup_insert_eq.
    unfold release_nmr. subst N4.
    cbn [NmrReferenceCount set_NmrHandle set_DetachNotification
         set_WorkItem_BindingHandle set_NmrReferenceCount].
    change (to_ULONG (2 - 1)) with 1. cbn [Z.eqb].
    by rewrite insert_insert_eq. }
  assert (Hevents : close_events sb X4 =
            [EvXdpCloseProvider ph; EvXdpCleanupProvider ph]).
  { unfold close_events, close_context_events, close_nmr_events,
      close_complete_events. subst X4 sb.
    cbn [InterfaceContext Nmr XdpIfInterfaceContext set_ReferenceCount set_Nmr
         NmrPool].
    rewrite Hctx, lookup_insert_eq. subst N4. cbn [NmrHandle set_NmrHandle].
    unfold BindingDeleting. cbn [Rundown set_ReferenceCount set_Nmr].
    rewrite Hrd. destruct (XdpIfInterfaceContext X); reflexivity. }
  rewrite Hclosed in Hifs. rewrite Hcnmrs in Hnmrs. rewrite Hevents in Htr.
  subst sb. cbn [IfPool NmrPool Trace ClientEntries XdpInterfaceSets IfSetPool]
    in Hifs, Hnmrs, Htr, Hents, Hsets, Hsp.
  rewrite insert_insert_eq in Hifs.
  erewrite modify_if_run by (rewrite Hifs; apply lookup_insert_eq).
  rewrite Hifs, insert_insert_eq.
  assert (HXq : set_Nmr None (set_ReferenceCount (ReferenceCount X + 1) Xq)
                = set_ReferenceCount (ReferenceCount X + 1) Xq).
  { subst Xq. destruct X; simpl in *. by subst. }
  rewrite HXq.
  set (N1 := set_NmrReferenceCount 1 _) in Hnmrs.
  set (s1 := with_ifs _ sc).
  assert (HN1 : NmrPool s1 !! n = Some N1)
    by (subst s1; cbn [with_ifs NmrPool]; rewrite Hnmrs; apply lookup_insert_eq).
  assert (HX1 : IfPool s1 !! h = Some (set_ReferenceCount (ReferenceCount X + 1) Xq))
    by apply lookup_insert_eq.
  exists s1, N1. eexists.
  split; [reflexivity|]. split; [exact Hfresh|]. split; [reflexivity|].
  split; [exact Hnmrs|]. split; [reflexivity|]. split; [reflexivity|].
  split; [exact Htr|].
  split.
  { cbn [XdpIfpInterfaceWorker]. rewrite bind_run.
    erewrite (XdpIfpInterfaceNmrDelete_closed fuel s1 n N1 h);
      [|exact HN1|reflexivity|reflexivity].
    rewrite bind_run.
    erewrite XdpIfpDereferenceInterface_run; [reflexivity|exact HX1|].
    cbn [ReferenceCount set_ReferenceCount].
    rewrite InterlockedDecrement_pred by (unfold LONG_MAX in *; lia). lia. }
  cbn [with_ifs with_nmrs IfPool NmrPool Trace ClientEntries ReferenceCount
       set_ReferenceCount].
  rewrite InterlockedDecrement_pred by (unfold LONG_MAX in *; lia).
  replace (ReferenceCount X + 1 - 1) with (ReferenceCount X) by lia.
  split.
  { subst s1. cbn [with_ifs IfPool]. by rewrite insert_insert_eq. }
  split.
  { subst s1. cbn [with_ifs NmrPool]. rewrite Hnmrs. unfold release_nmr.
    subst N1. cbn [NmrReferenceCount set_NmrReferenceCount].
    change (to_ULONG (1 - 1)) with 0. cbn [Z.eqb].
    rewrite delete_insert_eq. by apply delete_id. }
  split; [reflexivity|]. subst s1. cbn [with_ifs ClientEntries]. exact Hents.
Qed.

(** ** The provider attachment, from open to free *)

Lemma XdpIfpOpenInterface_opened env s h X v ph ctx d :
  IfPool s !! h = Some X ->
  opens_with env X v ph ctx d ->
  -2147483648 <= ReferenceCount X < LONG_MAX ->
  XdpIfpOpenInterface env h s = Done STATUS_SUCCESS (opened_state s h X v ph ctx d).
Proof.
  intros HX (Hhdr & Halloc & (St0 & Hopen & HSt0) & (pre & post & Hc & Hpre)
             & Hv & (Stv & Hget) & Hopenok) Hrc.
  unfold opened_state, open_events.
  set (n := fresh (dom (NmrPool s))).
  unfold XdpIfpOpenInterface, XdpIfpOpenInterface_body. mrun.
  rewrite (header_ok_check X Hhdr), Halloc. simpl. mrun.
  rewrite alloc_nmr_run. fold n.
  destruct s as [sets ifsets ifs nmrs ents tr]; simpl in *.
  mrun'.
  rewrite (XdpIfpReferenceInterface_run _ h (set_Nmr (Some n) X)) by side.
  mrun'. rewrite !insert_insert_eq.
  rewrite InterlockedIncrement_succ by done.
  rewrite Hopen, HSt0. simpl. mrun'. rewrite !insert_insert_eq.
  rewrite (XdpRequestClientDispatch_nmr _ _ _ pre v post Hc Hpre Hv).
  rewrite Hget. simpl.
  assert (HStv : NT_SUCCESS Stv = true).
  { destruct Hv as [_ Hs]. by rewrite Hget in Hs. }
  mrun'. rewrite !insert_insert_eq, HStv. simpl. mrun'.
  rewrite !insert_insert_eq. unfold XdpIfpInvokeOpenInterface.
  destruct (OpenInterface d) as [f|] eqn:Hf; unfold trace; mrun'.
  - rewrite (Hopenok f eq_refl). simpl.
    unfold XdpIfpOpenInterface_exit. rewrite NT_SUCCESS_STATUS_SUCCESS. simpl.
    reflexivity.
  - unfold XdpIfpOpenInterface_exit. rewrite ?NT_SUCCESS_STATUS_SUCCESS. simpl.
    by rewrite app_nil_r.
Qed.

Lemma not_header_ok_check X :
  ~ header_ok X ->
  (Header_Revision (CapabilitiesEx (Capabilities X))
     <? XDP_CAPABILITIES_EX_REVISION_1) ||
  (Header_Size (CapabilitiesEx (Capabilities X))
     <? XDP_SIZEOF_CAPABILITIES_EX_REVISION_1) = true.
Proof.
  intros Hhdr. apply orb_true_iff.
  destruct (Z.ltb_spec (Header_Revision (CapabilitiesEx (Capabilities X)))
              XDP_CAPABILITIES_EX_REVISION_1); [by left|].
  destruct (Z.ltb_spec (Header_Size (CapabilitiesEx (Capabilities X)))
              XDP_SIZEOF_CAPABILITIES_EX_REVISION_1); [by right|].
  exfalso. apply Hhdr. by split.
Qed.

Lemma open_fails_status env X St : open_fails env X St -> NT_SUCCESS St = false.
Proof.
  intros [[_ ->]|[(_ & _ & ->)|(_ & _ & St0 & ph & _ & Hcase)]]; try done.
  destruct Hcase as [[H ->]|[(_ & _ & ->)|(_ & Hex)]]; try done.
  by destruct Hex as (pre & v & post & Stv & ctx & d & f & _ & _ & _ & _ & _ & _ & H).
Qed.

(** The status with which XdpIfpOpenInterface reaches its Exit label. *)
Lemma XdpIfpOpenInterface_body_fails env s h X St :
  IfPool s !! h = Some X ->
  -2147483648 <= ReferenceCount X < LONG_MAX ->
  open_fails env X St ->
  exists sb, XdpIfpOpenInterface_body env h s = Done St sb.
Proof.
  intros HX Hrc Hfail. unfold XdpIfpOpenInterface_body. mrun.
  destruct Hfail as [[Hhdr ->]|[(Hhdr & Halloc & ->)
                               |(Hhdr & Halloc & St0 & ph & Hopen & Hcase)]].
  { rewrite (not_header_ok_check X Hhdr). by eexists. }
  { rewrite (header_ok_check X Hhdr), Halloc. simpl. mrun. by eexists. }
  rewrite (header_ok_check X Hhdr), Halloc. simpl. mrun.
  rewrite alloc_nmr_run.
  set (n := fresh (dom (NmrPool s))).
  destruct s as [sets ifsets ifs nmrs ents tr]; simpl in *.
  mrun'.
  rewrite (XdpIfpReferenceInterface_run _ h (set_Nmr (Some n) X)) by side.
  mrun'. rewrite !insert_insert_eq.
  rewrite InterlockedIncrement_succ by done.
  rewrite Hopen.
  destruct Hcase as [[HSt0 ->]|[(HSt0 & Hnone & ->)|(HSt0 & Hex)]].
  - rewrite HSt0. simpl. by eexists.
  - rewrite HSt0. simpl. mrun'. rewrite !insert_insert_eq.
    destruct (XdpRequestClientDispatch_for_none (GetInterfaceDispatch env)
                (candidates (CapabilitiesEx (Capabilities X))) (None, None)
                (set_ReferenceCount (ReferenceCount X + 1) (set_Nmr (Some n) X))
                Hnone) as [Hst Hsame].
    unfold XdpRequestClientDispatch.
    fold (candidates (CapabilitiesEx (Capabilities X))).
    destruct (XdpRequestClientDispatch_for _ _ _ _ _) as [[St1 out] X'].
    simpl in Hst, Hsame. subst St1 X'. destruct out as [octx odisp].
    mrun'. by eexists.
  - destruct Hex as (pre & v & post & Stv & ctx & d & f & Hc & Hpre & Hv & Hget
                     & Hf & -> & Hbad).
    rewrite HSt0. simpl. mrun'. rewrite !insert_insert_eq.
    rewrite (XdpRequestClientDispatch_nmr _ _ _ pre v post Hc Hpre Hv).
    rewrite Hget. simpl.
    assert (HStv : NT_SUCCESS Stv = true).
    { destruct Hv as [_ Hs]. by rewrite Hget in Hs. }
    mrun'. rewrite !insert_insert_eq, HStv. simpl. mrun'.
    rewrite !insert_insert_eq. unfold XdpIfpInvokeOpenInterface.
    rewrite Hf. unfold trace. mrun'. rewrite Hbad. simpl. by eexists.
Qed.

(** A failed XdpIfpOpenInterface returns the status of the exit it took and
    leaves the binding without attachment, its provider reference count
    untouched. *)
Lemma XdpIfpOpenInterface_fails env s h X St :
  IfPool s !! h = Some X ->
  InterfaceContext X = None -> Nmr X = None ->
  0 < ReferenceCount X < LONG_MAX - 1 ->
  is_Some (WorkQueue X) ->
  provider_ok env ->
  open_fails env X St ->
  exists s0 X0,
    XdpIfpOpenInterface env h s = Done St s0 /\
    IfPool s0 !! h = Some X0 /\
    ProviderReference X0 = ProviderReference X /\
    InterfaceContext X0 = None /\ Nmr X0 = None /\
    Clients X0 = Clients X /\ ClientEntries s0 = ClientEntries s.
Proof.
  intros HX Hctx Hnmr Hrc Hwq Hprov Hfail.
  destruct (XdpIfpOpenInterface_run env s h X HX Hctx Hnmr Hrc Hwq Hprov)
    as (St' & s0 & Hopen & X0 & HX0 & Hpr & Hcl & _ & Hents & Hfailed & _).
  destruct (XdpIfpOpenInterface_body_fails env s h X St HX) as [sb Hbody];
    [unfold LONG_MAX in *; lia | done |].
  assert (St' = St) as ->.
  { unfold XdpIfpOpenInterface in Hopen. rewrite bind_run, Hbody in Hopen.
    rewrite bind_run in Hopen.
    destruct (XdpIfpOpenInterface_exit h St sb); [|done].
    rewrite ret_run in Hopen. by injection Hopen as <- _. }
  destruct (Hfailed (open_fails_status _ _ _ Hfail)) as [Hn0 Hc0].
  exists s0, X0. by split_and!.
Qed.

(** ** Provider references taken by queue creation *)

Lemma XdpIfpReferenceProvider_held env s h X c :
  IfPool s !! h = Some X ->
  Rundown X = 0 ->
  InterfaceContext X = Some c ->
  XdpIfpReferenceProvider env h s =
    Done STATUS_SUCCESS
      (with_ifs (<[h := set_ProviderReference
                          (to_ULONG (ProviderReference X + 1)) X]> (IfPool s)) s).
Proof.
  intros HX Hrd Hc. unfold XdpIfpReferenceProvider. mrun.
  rewrite Hrd, Hc. simpl. mrun.
  rewrite NT_SUCCESS_STATUS_SUCCESS. cbn [negb]. by mrun.
Qed.

Lemma XdpIfpReferenceProvider_opens env s h X v ph ctx d :
  IfPool s !! h = Some X ->
  Rundown X = 0 ->
  InterfaceContext X = None ->
  opens_with env X v ph ctx d ->
  -2147483648 <= ReferenceCount X < LONG_MAX ->
  let n := fresh (dom (NmrPool s)) in
  XdpIfpReferenceProvider env h s =
    Done STATUS_SUCCESS
      (with_ifs
         (<[h := set_ProviderReference (to_ULONG (ProviderReference X + 1))
                   (opened_interface X n v ctx d)]> (IfPool s))
         (opened_state s h X v ph ctx d)).
Proof.
  intros HX Hrd Hc Hopens Hrc n. unfold XdpIfpReferenceProvider. mrun.
  rewrite Hrd, Hc. simpl. rewrite bind_run.
  rewrite (XdpIfpOpenInterface_opened env s h X v ph ctx d HX Hopens Hrc).
  rewrite NT_SUCCESS_STATUS_SUCCESS. cbn [negb].
  unfold opened_state. fold n. mrun.
  by rewrite insert_insert_eq.
Qed.

Lemma XdpIfpReferenceProvider_not_opened env s h X St s0 :
  IfPool s !! h = Some X ->
  Rundown X = 0 ->
  InterfaceContext X = None ->
  XdpIfpOpenInterface env h s = Done St s0 ->
  NT_SUCCESS St = false ->
  XdpIfpReferenceProvider env h s = Done St s0.
Proof.
  intros HX Hrd Hc Hopen HSt. unfold XdpIfpReferenceProvider. mrun.
  rewrite Hrd, Hc. simpl. rewrite bind_run, Hopen, HSt. by simpl.
Qed.

Lemma XdpIfCreateQueue_not_referenced kind env s h Config St s2 :
  XdpIfpReferenceProvider env h s = Done St s2 ->
  NT_SUCCESS St = false ->
  XdpIfCreateQueue kind env h Config s = Done (St, None, None) s2.
Proof.
  intros Href HSt.
  destruct kind; unfold XdpIfCreateQueue, XdpIfCreateRxQueue, XdpIfCreateTxQueue;
    rewrite bind_run, Href, HSt; by simpl.
Qed.

Lemma XdpIfCreateQueue_created kind env s h Config St1 s2 X2 d St q dq :
  XdpIfpReferenceProvider env h s = Done St1 s2 ->
  NT_SUCCESS St1 = true ->
  IfPool s2 !! h = Some X2 ->
  InterfaceDispatch X2 = Some d ->
  provider_create kind d (InterfaceContext X2) Config = (St, Some q, Some dq) ->
  NT_SUCCESS St = true ->
  XdpIfCreateQueue kind env h Config s = Done (St, Some q, Some dq) s2.
Proof.
  intros Href HSt1 HX2 Hd Hcreate HSt.
  destruct kind; unfold XdpIfCreateQueue, XdpIfCreateRxQueue, XdpIfCreateTxQueue,
    XdpIfpInvokeCreateRxQueue, XdpIfpInvokeCreateTxQueue; simpl in Hcreate;
    rewrite bind_run, Href, HSt1; simpl; mrun; rewrite Hd; mrun;
    rewrite Hcreate; mrun; rewrite HSt; by simpl.
Qed.

Lemma XdpIfCreateQueue_refused kind env s h Config St1 s2 X2 d St q dq s3 :
  XdpIfpReferenceProvider env h s = Done St1 s2 ->
  NT_SUCCESS St1 = true ->
  IfPool s2 !! h = Some X2 ->
  InterfaceDispatch X2 = Some d ->
  provider_create kind d (InterfaceContext X2) Config = (St, q, dq) ->
  NT_SUCCESS St = false ->
  XdpIfpDereferenceProvider h s2 = Done tt s3 ->
  XdpIfCreateQueue kind env h Config s = Done (St, q, dq) s3.
Proof.
  intros Href HSt1 HX2 Hd Hcreate HSt Hderef.
  destruct kind; unfold XdpIfCreateQueue, XdpIfCreateRxQueue, XdpIfCreateTxQueue,
    XdpIfpInvokeCreateRxQueue, XdpIfpInvokeCreateTxQueue; simpl in Hcreate;
    rewrite bind_run, Href, HSt1; simpl; mrun; rewrite Hd; mrun;
    rewrite Hcreate; mrun; rewrite HSt; simpl; rewrite bind_run, Hderef; by mrun.
Qed.

(** C7.  XdpIfCreateRxQueue and XdpIfCreateTxQueue on a live binding, with
    a provider that keeps its contract.
    - With rundown flags set the call fails with STATUS_DELETE_PENDING and
      changes nothing.
    - While provider references are held (the interface is open), the call
      takes one more and calls the provider's routine: when the routine
      succeeds the count is one higher and nothing else has changed; when
      it fails the reference is released again, the state is exactly the
      one before the call, and the routine's status and out parameters are
      returned unchanged.
    - With no provider reference held the attachment is opened first.  When
      the open fails, at whichever of its exits, the call returns the
      status of that exit and no queue, and the binding is left without
      attachment and with a count of zero.
    - When the open succeeds and the provider's routine succeeds, the
      count is 1 and the attachment stays open: the fresh NMR context, the
      provider's context and its dispatch table are in place.
    - When the open succeeds and the provider's routine fails, releasing
      the reference just taken closes the attachment again (CloseInterface,
      XdpCloseProvider, XdpCleanupProvider), the count is zero, and the
      routine's status and out parameters are returned unchanged.
    So after every failed call the provider reference count is what it was
    before the call. *)
Theorem XdpIfCreateQueue_provider_reference kind env s h X Config :
  IfPool s !! h = Some X ->
  0 < ReferenceCount X < LONG_MAX - 1 ->
  is_Some (WorkQueue X) ->
  provider_ok env ->
  (Rundown X <> 0 ->
     XdpIfCreateQueue kind env h Config s =
       Done (STATUS_DELETE_PENDING, None, None) s) /\
  (forall c d St q dq,
     Rundown X = 0 ->
     InterfaceContext X = Some c -> InterfaceDispatch X = Some d ->
     0 < ProviderReference X < UINT32_MAX ->
     provider_create kind d (Some c) Config = (St, q, dq) ->
     (NT_SUCCESS St = true -> is_Some q -> is_Some dq ->
        XdpIfCreateQueue kind env h Config s =
          Done (St, q, dq)
            (with_ifs
               (<[h := set_ProviderReference (ProviderReference X + 1) X]>
                  (IfPool s)) s)) /\
     (NT_SUCCESS St = false ->
        XdpIfCreateQueue kind env h Config s = Done (St, q, dq) s)) /\
  (forall St0,
     Rundown X = 0 -> ProviderReference X = 0 ->
     InterfaceContext X = None -> Nmr X = None ->
     open_fails env X St0 ->
     exists s0 X0,
       XdpIfCreateQueue kind env h Config s = Done (St0, None, None) s0 /\
       NT_SUCCESS St0 = false /\
       IfPool s0 !! h = Some X0 /\
       ProviderReference X0 = 0 /\
       InterfaceContext X0 = None /\ Nmr X0 = None) /\
  (forall v ph c d St q dq,
     Rundown X = 0 -> ProviderReference X = 0 ->
     InterfaceContext X = None -> Nmr X = None ->
     opens_with env X v ph (Some c) d ->
     provider_create kind d (Some c) Config = (St, q, dq) ->
     let n := fresh (dom (NmrPool s)) in
     (NT_SUCCESS St = true ->
        exists s1,
          XdpIfCreateQueue kind env h Config s = Done (St, q, dq) s1 /\
          is_Some q /\ is_Some dq /\
          IfPool s1 =
            <[h := set_ProviderReference 1 (opened_interface X n v (Some c) d)]>
              (IfPool s) /\
          NmrPool s !! n = None /\
          NmrPool s1 = <[n := opened_nmr h ph]> (NmrPool s) /\
          Trace s1 = Trace s ++ open_events (Some c) d /\
          ClientEntries s1 = ClientEntries s) /\
     (NT_SUCCESS St = false ->
        exists s1 X1,
          XdpIfCreateQueue kind env h Config s = Done (St, q, dq) s1 /\
          IfPool s1 !! h = Some X1 /\
          ProviderReference X1 = 0 /\
          InterfaceContext X1 = None /\ Nmr X1 = None /\
          Trace s1 =
            Trace s ++ open_events (Some c) d ++
              (if CloseInterface d then [EvCloseInterface (Some c)] else []) ++
              [EvXdpCloseProvider ph; EvXdpCleanupProvider ph] /\
          ClientEntries s1 = ClientEntries s)).
Proof.
  intros HX Hrc Hwq Hprov. split_and!.
  - intros Hrd. eapply XdpIfCreateQueue_not_referenced; [|done].
    by eapply XdpIfpReferenceProvider_rundown.
  - intros c d St q dq Hrd Hc Hd Hpr Hcreate.
    assert (Hup : to_ULONG (ProviderReference X + 1) = ProviderReference X + 1)
      by (apply to_ULONG_id; unfold UINT32_MAX in *; lia).
    pose proof (XdpIfpReferenceProvider_held env s h X c HX Hrd Hc) as Href.
    rewrite Hup in Href.
    set (X2 := set_ProviderReference (ProviderReference X + 1) X) in *.
    split.
    + intros HSt [qq ->] [dd ->].
      eapply (XdpIfCreateQueue_created kind env s h Config _ _ X2 d);
        [exact Href|done|apply lookup_insert_eq|exact Hd| |done].
      subst X2. cbn [InterfaceContext set_ProviderReference]. by rewrite Hc.
    + intros HSt.
      eapply (XdpIfCreateQueue_refused kind env s h Config _ _ X2 d);
        [exact Href|done|apply lookup_insert_eq|exact Hd| |done|].
      { subst X2. cbn [InterfaceContext set_ProviderReference]. by rewrite Hc. }
      assert (Hback : to_ULONG (ProviderReference X2 - 1) = ProviderReference X).
      { subst X2. cbn [ProviderReference set_ProviderReference].
        replace (ProviderReference X + 1 - 1) with (ProviderReference X) by lia.
        apply to_ULONG_id; unfold UINT32_MAX in *; lia. }
      erewrite XdpIfpDereferenceProvider_keep;
        [|apply lookup_insert_eq|rewrite Hback; lia].
      rewrite Hback. f_equal.
      destruct s as [sets ifsets ifs nmrs ents tr].
      unfold with_ifs; cbn [IfPool XdpInterfaceSets IfSetPool NmrPool
                             ClientEntries Trace] in *.
      f_equal. rewrite insert_insert_eq. apply insert_id. rewrite HX. f_equal.
      subst X2. by destruct X.
  - intros St0 Hrd Hpr Hc Hn Hfail.
    destruct (XdpIfpOpenInterface_fails env s h X St0)
      as (s0 & X0 & Hopen & HX0 & Hpr0 & Hc0 & Hn0 & _); try done.
    pose proof (open_fails_status _ _ _ Hfail) as HSt0.
    exists s0, X0. split.
    { eapply XdpIfCreateQueue_not_referenced; [|done].
      by eapply XdpIfpReferenceProvider_not_opened. }
    split_and!; try done. by rewrite Hpr0.
  - intros v ph c d St q dq Hrd Hpr Hc Hn Hopens Hcreate n.
    assert (Hrc' : -2147483648 <= ReferenceCount X < LONG_MAX)
      by (unfold LONG_MAX in *; lia).
    pose proof (XdpIfpReferenceProvider_opens env s h X v ph (Some c) d
                  HX Hrd Hc Hopens Hrc') as Href.
    cbn zeta in Href. fold n in Href.
    rewrite Hpr in Href. change (to_ULONG (0 + 1)) with 1 in Href.
    set (X2 := set_ProviderReference 1 (opened_interface X n v (Some c) d)) in *.
    set (s2 := with_ifs _ _) in Href.
    assert (HX2 : IfPool s2 !! h = Some X2) by apply lookup_insert_eq.
    assert (Hdok : dispatch_ok d).
    { destruct Hopens as (_ & _ & _ & _ & Hv & (Stv & Hget) & _).
      destruct (Hprov v) as (d' & Hd' & Hok).
      - destruct Hv as [_ Hs]. exact Hs.
      - rewrite Hget in Hd'. by injection Hd' as <-. }
    split.
    + intros HSt.
      assert (is_Some q /\ is_Some dq) as [[qq ->] [dd ->]].
      { destruct Hdok as [Hrx Htx]. destruct kind; simpl in Hcreate.
        - specialize (Hrx (Some c) Config). rewrite Hcreate in Hrx. by apply Hrx.
        - specialize (Htx (Some c) Config). rewrite Hcreate in Htx. by apply Htx. }
      exists s2. split.
      { by eapply (XdpIfCreateQueue_created kind env s h Config _ _ X2 d). }
      split; [by eexists|]. split; [by eexists|].
      subst s2. unfold opened_state. fold n.
      cbn [with_ifs with_nmrs with_trace IfPool NmrPool Trace ClientEntries].
      split_and!; try done. apply fresh_pool_None.
    + intros HSt.
      destruct (XdpIfpDereferenceProvider_last s2 h X2)
        as (s3 & Hderef & Hifs & Htr & Hnmrs & Hents & _); try done.
      { subst s2 X2. unfold opened_state. fold n. split.
        - intros _. by eexists.
        - intros n' [= <-]. exists (opened_nmr h ph), ph.
          cbn [with_ifs with_nmrs with_trace NmrPool]. rewrite lookup_insert_eq.
          split; [done|]. split; [done|]. intros _. split; [done|].
          exact Hwq. }
      { subst X2. cbn [ReferenceCount set_ProviderReference opened_interface
                       set_Interface set_DriverApiVersion set_ReferenceCount].
        unfold LONG_MAX in *. lia. }
      destruct (closed_interface_kept s2 (set_ProviderReference 0 X2))
        as (_ & _ & Hk3 & _ & _ & Hk6 & Hk7).
      exists s3, (closed_interface s2 (set_ProviderReference 0 X2)). split.
      { by eapply (XdpIfCreateQueue_refused kind env s h Config _ _ X2 d). }
      split; [rewrite Hifs; apply lookup_insert_eq|].
      split; [exact Hk3|]. split; [exact Hk6|]. split; [exact Hk7|].
      split; [|by rewrite Hents].
      rewrite Htr. subst s2. unfold opened_state. fold n.
      cbn [with_ifs with_nmrs with_trace Trace].
      rewrite <- !app_assoc. do 2 f_equal.
      unfold close_events, close_context_events, close_nmr_events,
        close_complete_events.
      subst X2.
      cbn [InterfaceContext InterfaceDispatch Nmr XdpIfInterfaceContext
           set_ProviderReference opened_interface set_Interface
           set_DriverApiVersion set_ReferenceCount set_Nmr with_ifs with_nmrs
           with_trace NmrPool].
      rewrite lookup_insert_eq. cbn [NmrHandle opened_nmr].
      assert (Hbd : BindingDeleting
                (set_ProviderReference 1 (opened_interface X n v (Some c) d))
                = false).
      { unfold BindingDeleting, opened_interface.
        cbn [Rundown set_ProviderReference set_Interface set_DriverApiVersion
             set_ReferenceCount set_Nmr]. by rewrite Hrd. }
      rewrite Hbd. destruct (XdpIfInterfaceContext X); by rewrite app_nil_r.
Qed.

(** ** The two owners of the NMR context *)

(** A failure of XdpOpenProvider: the NMR context reaches the Exit label as
    it was set up and is freed there; the state is the one before the
    call. *)
Lemma XdpIfpOpenInterface_provider_failure env s h X St ph :
  IfPool s !! h = Some X -> Nmr X = None ->
  header_ok X -> AllocateNmr env = true ->
  XdpOpenProvider env (IfIndex X)
    (InstanceId (CapabilitiesEx (Capabilities X))) = (St, ph) ->
  NT_SUCCESS St = false ->
  0 < ReferenceCount X < LONG_MAX ->
  let n := fresh (dom (NmrPool s)) in
  exists sb Xb N,
    XdpIfpOpenInterface_body env h s = Done St sb /\
    IfPool sb !! h = Some Xb /\ Nmr Xb = Some n /\
    NmrPool sb !! n = Some N /\
    NmrReferenceCount N = 2 /\ NmrHandle N = None /\
    XdpIfpOpenInterface_exit h St sb = Done tt s /\
    NmrPool s !! n = None /\
    XdpIfpOpenInterface env h s = Done St s.
Proof.
  intros HX Hnmr Hhdr Halloc Hopen HSt Hrc n.
  pose proof (fresh_pool_None (NmrPool s)) as Hfresh. fold n in Hfresh.
  assert (Hbody : exists sb Xb N,
            XdpIfpOpenInterface_body env h s = Done St sb /\
            IfPool sb !! h = Some Xb /\ Nmr Xb = Some n /\
            NmrPool sb !! n = Some N /\
            NmrReferenceCount N = 2 /\ NmrHandle N = None /\
            XdpIfpOpenInterface_exit h St sb = Done tt s).
  { unfold XdpIfpOpenInterface_body. mrun.
    rewrite (header_ok_check X Hhdr), Halloc. simpl. mrun.
    rewrite alloc_nmr_run. fold n.
    destruct s as [sets ifsets ifs nmrs ents tr]; simpl in *.
    mrun'.
    rewrite (XdpIfpReferenceInterface_run _ h (set_Nmr (Some n) X)) by side.
    mrun'. rewrite !insert_insert_eq.
    rewrite InterlockedIncrement_succ by (unfold LONG_MAX in *; lia).
    rewrite Hopen, HSt. simpl. eexists _, _, _. split; [reflexivity|].
    cbn [IfPool NmrPool]. rewrite !lookup_insert_eq.
    split; [reflexivity|]. split; [reflexivity|]. split; [reflexivity|].
    split; [reflexivity|]. split; [reflexivity|].
    unfold XdpIfpOpenInterface_exit. rewrite HSt. simpl. mrun'.
    rewrite bind_run. erewrite XdpIfpDereferenceInterface_run; [|side|].
    2:{ simpl. rewrite InterlockedDecrement_pred by (unfold LONG_MAX in *; lia).
        lia. }
    mrun'. rewrite !insert_insert_eq.
    rewrite InterlockedDecrement_pred by (unfold LONG_MAX in *; lia).
    rewrite delete_insert_eq, delete_id by done.
    replace (ReferenceCount X + 1 - 1) with (ReferenceCount X) by lia.
    do 2 f_equal. apply insert_id. rewrite HX. f_equal.
    destruct X; simpl in *. by subst. }
  destruct Hbody as (sb & Xb & N & Hbody & HXb & Hn & HN & Hc & Hph & Hexit).
  exists sb, Xb, N. split_and!; try done.
  unfold XdpIfpOpenInterface. rewrite bind_run, Hbody, bind_run, Hexit.
  by rewrite ret_run.
Qed.

(** C6, as the code has it.  The private reference count of the NMR
    context.
    - XdpIfpOpenInterface sets the count of the fresh context to 2 before
      it opens the provider.  When the open succeeds, the context is
      attached with count exactly 2, the provider handle and no detach
      notification yet.
    - When XdpOpenProvider fails, the context reaches the Exit label with
      count 2 and no provider handle and is freed there at once: no
      reference was released, and the state is the one before the call.
    - XdpIfpDereferenceNmr, the only other place that frees the context,
      decrements the count and frees the context exactly when the new
      count is zero.
    - From an attached context with count 2, in either order, the
      consumer's close path (XdpIfpCloseNmrInterface) and the work item
      scheduled from the provider's detach notification
      (XdpIfpDetachNmrInterface, then XdpIfpInterfaceNmrDelete) each release
      one reference: after the first of the two the context is still
      allocated with count 1, after the second it is freed. *)
Theorem XdpIfpDereferenceNmr_two_owners :
  (forall env s h X v ph ctx d,
     IfPool s !! h = Some X ->
     opens_with env X v ph ctx d ->
     -2147483648 <= ReferenceCount X < LONG_MAX ->
     let n := fresh (dom (NmrPool s)) in
     exists s' N,
       XdpIfpOpenInterface env h s = Done STATUS_SUCCESS s' /\
       NmrPool s !! n = None /\
       attached s' h (opened_interface X n v ctx d) n N /\
       NmrReferenceCount N = 2 /\ NmrHandle N = Some ph /\
       DetachNotification N = false) /\
  (forall env s h X St ph,
     IfPool s !! h = Some X -> Nmr X = None ->
     header_ok X -> AllocateNmr env = true ->
     XdpOpenProvider env (IfIndex X)
       (InstanceId (CapabilitiesEx (Capabilities X))) = (St, ph) ->
     NT_SUCCESS St = false ->
     0 < ReferenceCount X < LONG_MAX ->
     let n := fresh (dom (NmrPool s)) in
     exists sb Xb N,
       XdpIfpOpenInterface_body env h s = Done St sb /\
       IfPool sb !! h = Some Xb /\ Nmr Xb = Some n /\
       NmrPool sb !! n = Some N /\
       NmrReferenceCount N = 2 /\ NmrHandle N = None /\
       XdpIfpOpenInterface_exit h St sb = Done tt s /\
       NmrPool s !! n = None /\
       XdpIfpOpenInterface env h s = Done St s) /\
  (forall s n N,
     NmrPool s !! n = Some N ->
     exists s',
       XdpIfpDereferenceNmr n s = Done tt s' /\
       (to_ULONG (NmrReferenceCount N - 1) = 0 -> NmrPool s' !! n = None) /\
       (to_ULONG (NmrReferenceCount N - 1) <> 0 ->
          exists N', NmrPool s' !! n = Some N' /\
            NmrReferenceCount N' = to_ULONG (NmrReferenceCount N - 1))) /\
  (forall fuel s h X n N,
     attached s h X n N -> NmrReferenceCount N = 2 ->
     (DetachNotification N = false -> is_Some (WorkQueue X)) ->
     0 < ReferenceCount X < LONG_MAX ->
     exists s1 N1 s2,
       XdpIfpCloseNmrInterface h s = Done tt s1 /\
       NmrPool s1 !! n = Some N1 /\ NmrReferenceCount N1 = 1 /\
       XdpIfpInterfaceNmrDelete fuel n s1 = Done tt s2 /\
       NmrPool s2 !! n = None) /\
  (forall fuel s h X n N,
     attached s h X n N -> NmrReferenceCount N = 2 ->
     DetachNotification N = false -> is_Some (WorkQueue X) ->
     ProviderReference X <> 0 ->
     (length (Clients X) <= fuel)%nat ->
     NoDup (Clients X) ->
     (forall c, c ∈ Clients X -> is_Some (ClientEntries s !! c)) ->
     Z.of_nat (length (Clients X)) < ReferenceCount X < LONG_MAX ->
     exists s1 N1 s2 N2 s3,
       XdpIfpDetachNmrInterface n s = Done tt s1 /\
       NmrPool s1 !! n = Some N1 /\ NmrReferenceCount N1 = 2 /\
       XdpIfpInterfaceNmrDelete fuel n s1 = Done tt s2 /\
       NmrPool s2 !! n = Some N2 /\ NmrReferenceCount N2 = 1 /\
       XdpIfpCloseNmrInterface h s2 = Done tt s3 /\
       NmrPool s3 !! n = None).
Proof.
  split_and!.
  - intros env s h X v ph ctx d HX Hopens Hrc n.
    exists (opened_state s h X v ph ctx d), (opened_nmr h ph).
    split; [by apply XdpIfpOpenInterface_opened|].
    split; [apply fresh_pool_None|].
    unfold attached, opened_state. fold n.
    cbn [with_ifs with_nmrs with_trace IfPool NmrPool].
    rewrite !lookup_insert_eq. by split_and!.
  - intros env s h X St ph HX Hnmr Hhdr Halloc Hopen HSt Hrc n.
    by apply (XdpIfpOpenInterface_provider_failure env s h X St ph).
  - intros s n N HN. eexists. split; [by apply XdpIfpDereferenceNmr_run|].
    unfold release_nmr; simpl. split.
    + intros ->. simpl. apply lookup_delete_eq.
    + intros Hnz. apply Z.eqb_neq in Hnz. rewrite Hnz.
      eexists. rewrite lookup_insert_eq. done.
  - intros fuel s h X n N (HX & Hn & HN & [ph Hph] & Hb) Hc Hdet Hrc.
    rewrite (XdpIfpCloseNmrInterface_run s h X n N ph) by auto.
    unfold nmr_closed, release_nmr. simpl NmrReferenceCount. rewrite Hc. simpl.
    eexists _, _, _. split; [done|]. cbn [NmrPool with_nmrs].
    rewrite lookup_insert_eq.
    split; [done|]. split; [done|].
    erewrite XdpIfpInterfaceNmrDelete_closed;
      [|simpl; apply lookup_insert_eq|simpl; eassumption|done].
    split; [done|]. unfold release_nmr. simpl. apply lookup_delete_eq.
  - intros fuel s h X n N (HX & Hn & HN & [ph Hph] & Hb) Hc Hdet [q Hq] Hpr
      Hfuel Hnd Hents Hrc.
    erewrite XdpIfpDetachNmrInterface_run; [|done|done|done|by eexists|lia].
    set (X1 := detach_queued n X). set (N1 := set_DetachNotification true N).
    set (s1 := with_ifs _ _).
    assert (HX1 : X1 = set_WorkQueue (Some (q ++ [NmrWorkItem n])) X)
      by (subst X1; unfold detach_queued; by rewrite Hq).
    destruct (XdpIfpInterfaceNmrDelete_attached fuel s1 h X1 n N1)
      as (s2 & Hrun & Hnmrs & HX2).
    { subst s1. unfold attached. cbn [with_ifs with_nmrs IfPool NmrPool].
      rewrite !lookup_insert_eq. rewrite HX1.
      split_and!; try done; subst N1; simpl; by eexists. }
    { by rewrite HX1. }
    { by rewrite HX1. }
    { by rewrite HX1. }
    { intros c Hc'. rewrite HX1 in Hc'. subst s1. simpl. by apply Hents. }
    { rewrite HX1. simpl. lia. }
    exists s1, N1, s2. unfold release_nmr in Hnmrs.
    subst N1. cbn [NmrReferenceCount set_DetachNotification] in Hnmrs.
    rewrite Hc in Hnmrs. change (to_ULONG (2 - 1) =? 0) with false in Hnmrs.
    cbn iota in Hnmrs. change (to_ULONG (2 - 1)) with 1 in Hnmrs.
    eexists _, _. split; [done|].
    split; [subst s1; cbn [with_ifs with_nmrs NmrPool]; apply lookup_insert_eq|].
    split; [done|]. split; [exact Hrun|].
    rewrite Hnmrs, lookup_insert_eq. split; [done|]. split; [done|].
    erewrite XdpIfpCloseNmrInterface_run;
      [|exact HX2|rewrite HX1; simpl; exact Hn
       |rewrite Hnmrs; apply lookup_insert_eq
       |simpl; exact Hph|simpl; congruence|rewrite HX1; simpl; lia].
    split; [done|]. unfold nmr_closed, release_nmr. simpl. apply lookup_delete_eq.
Qed.

End Properties.


(** * The properties on the concrete registry *)

Section Witnesses.
Import Example.
Local Existing Instance constants.

(** C1 as stated fails: the hook id array of [blob_hooks_outside] ends
    beyond the blob, yet the blob is accepted and a binding is created. *)
Lemma XdpValidateCapabilitiesEx_ignores_hook_array :
  hook_array_out_of_bounds blob_hooks_outside 92 /\
  XdpValidateCapabilitiesEx blob_hooks_outside 92 = true /\
  exists s',
    XdpIfAddInterfaces add_env 10%nat
      [add XDP_INTERFACE_MODE_GENERIC blob_hooks_outside] state_empty
    = Done (STATUS_SUCCESS,
            [set_InterfaceHandle (Some 0%nat)
               (add XDP_INTERFACE_MODE_GENERIC blob_hooks_outside)]) s' /\
    is_Some (IfPool s' !! 0%nat).
Proof.
  split; [right; right; reflexivity|]. split; [reflexivity|].
  eexists. split; [vm_compute; reflexivity|]. vm_compute. eauto.
Qed.

Lemma XdpValidateCapabilitiesEx_rejects_version_array_witness :
  version_array_out_of_bounds blob_versions_overflow 92 /\
  XdpValidateCapabilitiesEx blob_versions_overflow 92 = false /\
  exists s' out,
    XdpIfAddInterfaces add_env 10%nat
      [add XDP_INTERFACE_MODE_GENERIC blob;
       add XDP_INTERFACE_MODE_NATIVE blob_versions_overflow] state_empty
    = Done (STATUS_NOT_SUPPORTED, out) s' /\
    Forall (fun A => InterfaceHandle A = None) out /\
    IfPool s' = IfPool state_empty.
Proof.
  assert (Hoob : version_array_out_of_bounds blob_versions_overflow 92)
    by (left; reflexivity).
  split; [exact Hoob|].
  destruct (XdpValidateCapabilitiesEx_rejects_version_array add_env 10%nat
              [add XDP_INTERFACE_MODE_GENERIC blob]
              (add XDP_INTERFACE_MODE_NATIVE blob_versions_overflow) []
              state_empty Hoob) as [Hv Hadd].
  split; [exact Hv|]. apply Hadd.
  - vm_compute. eauto.
  - repeat constructor.
  - intros [|i] B HB; [|discriminate HB]. injection HB as <-.
    repeat split; reflexivity.
Defined.

Lemma XdpRequestClientDispatch_first_accepted_witness :
  XdpRequestClientDispatch blob get_dispatch native
    = (STATUS_SUCCESS, (Some 30%nat, Some dispatch),
       set_DriverApiVersion (version 1 1 0) native).
Proof.
  destruct (XdpRequestClientDispatch_first_accepted blob get_dispatch native)
    as [Hfirst _].
  apply (Hfirst [version 2 0 0; version 1 0 0] (version 1 1 0) [version 1 2 0]).
  - reflexivity.
  - intros w [->|[->|[]%elem_of_nil]%elem_of_cons]%elem_of_cons.
    + intros [[Hmajor _] _]. discriminate Hmajor.
    + intros [_ Hget]. discriminate Hget.
  - repeat split; simpl; lia.
Defined.

Lemma XdpIfFindAndReferenceBinding_outcomes_witness :
  XdpIfFindAndReferenceBinding 7 [hook_rx] None state
    = Done (Some 2%nat) (referenced state 2%nat native) /\
  ReferenceCount <$> IfPool (referenced state 2%nat native) !! 2%nat = Some 2.
Proof.
  destruct (XdpIfFindAndReferenceBinding_outcomes state 7 [hook_rx] None)
    as [_ Hfound].
  destruct (Hfound (ifset (Some 1%nat, Some 2%nat))) as [_ Hq].
  - exists [11%nat], 10%nat, []. split_and!; try reflexivity.
    intros p ->%list_elem_of_singleton. exists other_ifset.
    split; [reflexivity | discriminate].
  - intros [] h [= <-]; vm_compute; eauto.
  - destruct (Hq 2%nat native) as [Hrun Hcount].
    + left. split; [reflexivity|]. split; [by left|].
      exists native. split; [reflexivity|].
      intros t ->%list_elem_of_singleton. exists hook_rx.
      split; [left | done].
    + reflexivity.
    + split; [exact Hrun|]. apply Hcount. split; [discriminate | reflexivity].
Defined.

Lemma XdpIfpStartRundown_closes_and_detaches_witness :
  exists s' X',
    XdpIfpStartRundown 2 1%nat state = Done tt s' /\
    IfPool s' !! 1%nat = Some X' /\
    Clients X' = [] /\
    ReferenceCount X' = 2 /\
    Trace s' = [EvBindingDetached 20%nat; EvBindingDetached 21%nat].
Proof.
  destruct (XdpIfpStartRundown_closes_and_detaches 2 state 1%nat generic)
    as (s1 & X1 & s' & X' & Hclose & HX1 & Hrun & HX' & Hcl & Hrc & Htr & _).
  - reflexivity.
  - intros Hpr. discriminate Hpr.
  - simpl. lia.
  - apply (bool_decide_unpack _). reflexivity.
  - intros c [->|[->|[]%elem_of_nil]%elem_of_cons]%elem_of_cons; vm_compute; eauto.
  - vm_compute. split; reflexivity.
  - simpl in Hclose. destruct Hclose as [-> ->].
    exists s', X'. split_and!; assumption.
Defined.
Lemma dispatch_in_order : dispatch_ok dispatch.
Proof.
  split; intros c [|Config]; simpl; try discriminate; intros _; split; eauto.
Defined.

Lemma generic_clients_registered : clients_registered state generic.
Proof.
  intros c [->|[->|[]%elem_of_nil]%elem_of_cons]%elem_of_cons;
    eexists _, _, _; repeat split; reflexivity.
Defined.

Lemma XdpIfRegisterClient_outcomes_witness :
  (exists s' X' E',
     XdpIfRegisterClient 1%nat (client 3) (Some [9; 9; 9; 9]) 22%nat state
       = Done STATUS_SUCCESS s' /\
     IfPool s' !! 1%nat = Some X' /\
     Clients X' = [20%nat; 21%nat; 22%nat] /\
     ReferenceCount X' = 5 /\
     ClientEntries s' !! 22%nat = Some E' /\ Linked E' = true) /\
  XdpIfRegisterClient 1%nat (client 2) (Some [1; 2; 3; 4]) 22%nat state
    = Done STATUS_DUPLICATE_OBJECTID state.
Proof.
  split.
  - destruct (XdpIfRegisterClient_outcomes state 1%nat generic (client 3)
                [9; 9; 9; 9] 22%nat fresh_entry) as (_ & _ & Hok).
    + reflexivity.
    + reflexivity.
    + discriminate.
    + reflexivity.
    + exact generic_clients_registered.
    + destruct Hok
        as (s' & X' & E' & Hrun & HX' & Hcl & _ & Hrc & _ & _ & _ & HE' & Hl & _).
      * reflexivity.
      * intros (c & Hc & C & cl & k & HC & Hcl & Hk & Hid & Hmem).
        apply elem_of_cons in Hc as [->|[->|[]%elem_of_nil]%elem_of_cons];
          injection HC as <-; injection Hcl as <-; discriminate Hid.
      * reflexivity.
      * intros [Hc|[Hc|[]%elem_of_nil]%elem_of_cons]%elem_of_cons;
          discriminate Hc.
      * exists s', X', E'. split_and!; assumption.
  - destruct (XdpIfRegisterClient_outcomes state 1%nat generic (client 2)
                [1; 2; 3; 4] 22%nat fresh_entry) as (_ & Hdup & _).
    + reflexivity.
    + reflexivity.
    + discriminate.
    + reflexivity.
    + exact generic_clients_registered.
    + apply Hdup; [reflexivity|]. exists 21%nat. split; [right; left|].
      eexists _, _, _. repeat split; reflexivity.
Defined.

Lemma XdpIfDeregisterClient_idempotent_witness :
  exists s' X' E',
    XdpIfDeregisterClient 1%nat 20%nat state = Done tt s' /\
    IfPool s' !! 1%nat = Some X' /\
    ClientEntries s' !! 20%nat = Some E' /\
    Linked E' = false /\
    Clients X' = [21%nat] /\
    ReferenceCount X' = 3 /\
    XdpIfDeregisterClient 1%nat 20%nat s' = Done tt s'.
Proof.
  destruct (XdpIfDeregisterClient_idempotent state 1%nat generic 20%nat
              (entry 1 [1; 2; 3; 4])) as [Hlinked _].
  - reflexivity.
  - reflexivity.
  - destruct Hlinked as (s' & X' & E' & Hrun & HX' & HE' & Hl & Hcl & _ & Hrc & Hagain).
    + reflexivity.
    + apply (bool_decide_unpack _). reflexivity.
    + split; [reflexivity | discriminate].
    + exists s', X', E'. split_and!; assumption.
Defined.

Lemma NmrDeleting_refuses_queues_not_clients_witness :
  XdpIfRegisterClient 1%nat (client 3) (Some [9; 9; 9; 9]) 22%nat state_detaching
    = Done STATUS_SUCCESS
        (registered state_detaching 1%nat detaching (client 3) [9; 9; 9; 9] 22%nat) /\
  XdpIfCreateRxQueue open_env 1%nat 1%nat state_detaching
    = Done (STATUS_DELETE_PENDING, None, None) state_detaching /\
  XdpIfCreateTxQueue open_env 1%nat 1%nat state_detaching
    = Done (STATUS_DELETE_PENDING, None, None) state_detaching.
Proof.
  destruct (NmrDeleting_refuses_queues_not_clients open_env state_detaching
              1%nat detaching (client 3) [9; 9; 9; 9] 22%nat fresh_entry 1%nat)
    as (_ & Hreg & _ & Hrx & Htx).
  - reflexivity.
  - reflexivity.
  - reflexivity.
  - reflexivity.
  - split; [|split; assumption]. apply Hreg.
    + discriminate.
    + reflexivity.
    + intros c [->|[->|[]%elem_of_nil]%elem_of_cons]%elem_of_cons;
        eexists _, _, _; repeat split; reflexivity.
    + intros (c & Hc & C & cl & k & HC & Hcl & Hk & Hid & Hmem).
      apply elem_of_cons in Hc as [->|[->|[]%elem_of_nil]%elem_of_cons];
        injection HC as <-; injection Hcl as <-; discriminate Hid.
Defined.
Lemma state_sets_live :
  forall p, p ∈ XdpInterfaceSets state -> is_Some (IfSetPool state !! p).
Proof.
  intros p [->|[->|[]%elem_of_nil]%elem_of_cons]%elem_of_cons;
    vm_compute; eauto.
Defined.

Lemma state_no_set_9 : no_set state 9.
Proof.
  intros p [->|[->|[]%elem_of_nil]%elem_of_cons]%elem_of_cons;
    eexists; (split; [reflexivity | discriminate]).
Defined.

Lemma state_registry_ok : registry_ok state.
Proof.
  split; [|split].
  - apply (bool_decide_unpack _). reflexivity.
  - exact state_sets_live.
  - intros p q P Q
      [->|[->|[]%elem_of_nil]%elem_of_cons]%elem_of_cons
      [->|[->|[]%elem_of_nil]%elem_of_cons]%elem_of_cons HP HQ;
      try reflexivity;
      injection HP as <-; injection HQ as <-; discriminate.
Defined.

Lemma XdpIfCreateInterfaceSet_outcomes_witness :
  XdpIfCreateInterfaceSet true 7 0%nat state
    = Done (STATUS_DUPLICATE_OBJECTID, None) state /\
  XdpIfCreateInterfaceSet false 9 0%nat state
    = Done (STATUS_NO_MEMORY, None) state /\
  exists h s',
    XdpIfCreateInterfaceSet true 9 0%nat state
      = Done (STATUS_SUCCESS, Some h) s' /\
    XdpIfpFindIfSet 9 s' = Done (Some h) s'.
Proof.
  assert (Hno : ~ has_set state 9) by (apply no_set_has_set, state_no_set_9).
  split; [|split].
  - apply (XdpIfCreateInterfaceSet_outcomes state true 7 0%nat state_sets_live).
    exists 10%nat, (ifset (Some 1%nat, Some 2%nat)).
    split; [right; left|]. split; reflexivity.
  - by apply (XdpIfCreateInterfaceSet_outcomes state false 9 0%nat state_sets_live).
  - destruct (XdpIfCreateInterfaceSet_outcomes state true 9 0%nat state_sets_live)
      as (_ & _ & Hok).
    destruct (Hok Hno eq_refl) as (h & s' & Hrun & _ & _ & _ & _ & _ & _ & _ & _ & Hfind).
    by exists h, s'.
Defined.

Lemma registry_ok_kept_witness :
  (exists r s', XdpIfCreateInterfaceSet true 9 0%nat state = Done r s' /\
     registry_ok s') /\
  (exists s', XdpIfDeleteInterfaceSet 11%nat state = Done tt s' /\
     registry_ok s').
Proof.
  destruct (registry_ok_kept state state_registry_ok) as [Hcreate Hdelete].
  split; [apply Hcreate|]. apply (Hdelete 11%nat other_ifset); reflexivity.
Defined.

Lemma XdpIfDeleteInterfaceSet_outcomes_witness :
  XdpIfDeleteInterfaceSet 10%nat state = Stop FreAssert /\
  exists s',
    XdpIfDeleteInterfaceSet 11%nat state = Done tt s' /\
    XdpIfpFindIfSet 3 s' = Done None s' /\
    XdpIfpFindIfSet 7 s' = Done (Some 10%nat) s'.
Proof.
  split.
  - apply (XdpIfDeleteInterfaceSet_outcomes state 10%nat
             (ifset (Some 1%nat, Some 2%nat)) eq_refl).
    by exists XDP_INTERFACE_MODE_NATIVE, 2%nat.
  - destruct (XdpIfDeleteInterfaceSet_outcomes state 11%nat other_ifset eq_refl)
      as [_ Hok].
    destruct (Hok eq_refl)
      as (s' & Hrun & _ & _ & _ & _ & _ & _ & _ & Hframe & Hgone).
    exists s'. split; [exact Hrun|]. split.
    + apply Hgone; [exact state_registry_ok | left].
    + apply Hframe; [discriminate | reflexivity].
Defined.

Lemma XdpIfCreateInterfaceSet_then_delete_witness :
  exists h s',
    XdpIfCreateInterfaceSet true 9 0%nat state
      = Done (STATUS_SUCCESS, Some h) s' /\
    XdpIfDeleteInterfaceSet h s' = Done tt state.
Proof.
  exact (XdpIfCreateInterfaceSet_then_delete state 9 0%nat state_no_set_9).
Defined.

Lemma batch_passes : forall i B, batch !! i = Some B -> passes add_env i B.
Proof.
  intros [|[|i]] B HB; try discriminate HB; injection HB as <-;
    repeat split; reflexivity.
Defined.

Lemma XdpIfAddInterfaces_success_witness :
  exists hs s',
    XdpIfAddInterfaces add_env 10%nat batch state_empty =
      Done (STATUS_SUCCESS,
            zip_with (fun h B => set_InterfaceHandle (Some h) B) hs batch) s' /\
    length hs = 2%nat /\
    forall i h B, hs !! i = Some h -> batch !! i = Some B ->
      XdpIfGetIfIndex h s' = Done 7 s' /\
      XdpIfGetCapabilities h s' = Done (InterfaceCapabilities B) s'.
Proof.
  destruct (XdpIfAddInterfaces_success add_env 10%nat batch state_empty
              (ifset (None, None)) eq_refl batch_passes)
    as (hs & s' & Hrun & Hlen & _ & _ & Hnew & _).
  exists hs, s'. split; [exact Hrun|]. split; [exact Hlen|].
  intros i h B Hh HB. by destruct (Hnew i h B Hh HB) as (_ & Hi & Hc).
Defined.

Lemma state_empty_first_set : first_set state_empty 10%nat (ifset (None, None)).
Proof.
  split; [reflexivity|]. exists [], []. split; [reflexivity|].
  intros p Hp. by apply elem_of_nil in Hp.
Defined.

Lemma XdpIfAddInterfaces_then_find_witness :
  exists hs s',
    XdpIfAddInterfaces add_env 10%nat batch state_empty =
      Done (STATUS_SUCCESS,
            zip_with (fun h B => set_InterfaceHandle (Some h) B) hs batch) s' /\
    forall h, hs !! 1%nat = Some h ->
      exists s'',
        XdpIfFindAndReferenceBinding 7 [hook_rx]
          (Some XDP_INTERFACE_MODE_NATIVE) s' = Done (Some h) s''.
Proof.
  destruct (XdpIfAddInterfaces_then_find add_env 10%nat batch state_empty
              (ifset (None, None)) state_empty_first_set)
    as (hs & s' & Hrun & _ & Hfind).
  - intros m h Hh. destruct m; discriminate Hh.
  - exact batch_passes.
  - apply (bool_decide_unpack _). reflexivity.
  - exists hs, s'. split; [exact Hrun|]. intros h Hh.
    destruct (Hfind 1%nat h (add XDP_INTERFACE_MODE_NATIVE blob) [hook_rx] Hh eq_refl)
      as [Hlookup _].
    + intros Target ->%list_elem_of_singleton. left.
    + eexists. exact Hlookup.
Defined.

Lemma state_removable : forall h, h ∈ [1%nat; 2%nat] -> removable state h.
Proof.
  intros h [->|[->|[]%elem_of_nil]%elem_of_cons]%elem_of_cons.
  - exists generic, 10%nat. repeat split; vm_compute; eauto.
  - exists native, 10%nat. repeat split; vm_compute; eauto.
Defined.

Lemma state_bindings_NoDup : NoDup [1%nat; 2%nat].
Proof. apply (bool_decide_unpack _). reflexivity. Defined.

Lemma XdpIfRemoveInterfaces_unlinks_witness :
  exists s' X',
    XdpIfRemoveInterfaces [1%nat; 2%nat] state = Done tt s' /\
    IfPool s' !! 2%nat = Some X' /\ IfSet X' = None /\
    WorkQueue X' = Some [DeleteWorkItem] /\ ReferenceCount X' = 2 /\
    XdpIfRemoveInterfaces [2%nat] s' = Stop InvalidAccess.
Proof.
  destruct (XdpIfRemoveInterfaces_unlinks [1%nat; 2%nat] state
              state_bindings_NoDup state_removable)
    as (s' & Hrun & Hnew & _).
  destruct (Hnew 2%nat native []) as (X' & HX' & Hset & Hq & Hrc & _ & _ & _ & Hagain);
    [right; left | reflexivity | reflexivity |].
  exists s', X'. split_and!; try assumption.
Defined.

Lemma state_slots_consistent : slots_consistent state.
Proof.
  intros p P m x HP Hx.
  destruct (decide (p = 10%nat)) as [->|H10];
    [|destruct (decide (p = 11%nat)) as [->|H11]].
  - injection HP as <-. destruct m; injection Hx as <-.
    + exists generic. repeat split; reflexivity.
    + exists native. repeat split; reflexivity.
  - injection HP as <-. destruct m; discriminate Hx.
  - exfalso. assert (Hn : IfSetPool state !! p = None).
    { unfold state. cbn [IfSetPool]. rewrite lookup_insert_ne by done.
      by apply lookup_singleton_ne. }
    rewrite Hn in HP. discriminate HP.
Defined.

Lemma XdpIfRemoveInterfaces_not_found_witness :
  exists s',
    XdpIfRemoveInterfaces [1%nat; 2%nat] state = Done tt s' /\
    forall IfIndex HookIds RequiredMode r s'',
      XdpIfFindAndReferenceBinding IfIndex HookIds RequiredMode s'
        = Done (Some r) s'' -> r <> 1%nat /\ r <> 2%nat.
Proof.
  destruct (XdpIfRemoveInterfaces_not_found [1%nat; 2%nat] state
              state_bindings_NoDup state_removable state_slots_consistent)
    as (s' & Hrun & _ & _ & Hfind).
  exists s'. split; [exact Hrun|].
  intros IfIndex HookIds RequiredMode r s'' Hr.
  pose proof (Hfind IfIndex HookIds RequiredMode r s'' Hr) as Hnot.
  split; intros ->; apply Hnot; [left | right; left].
Defined.

Lemma XdpIfpInterfaceWorker_delete_frees_witness :
  exists s',
    XdpIfpInterfaceWorker 0 2%nat [DeleteWorkItem] state_removed = Done tt s' /\
    IfPool s' !! 2%nat = None /\
    Trace s' = [EvRemoveInterfaceComplete 6%nat; EvXdpShutdownWorkQueue 2%nat].
Proof.
  destruct (XdpIfpInterfaceWorker_delete_frees 0 state_removed 2%nat
              removed_native eq_refl)
    as (s' & Hrun & Hifs & Htr & Hclose & _).
  - split_and!.
    + intros _. split; [intros [? H]; discriminate H | intros n H; discriminate H].
    + apply NoDup_nil_2.
    + intros c Hc. by apply elem_of_nil in Hc.
    + reflexivity.
    + reflexivity.
  - reflexivity.
  - simpl. eauto.
  - simpl. lia.
  - exists s'. split; [exact Hrun|]. split.
    + rewrite Hifs. apply lookup_delete_eq.
    + rewrite Htr. rewrite (Hclose 6%nat eq_refl eq_refl eq_refl). reflexivity.
Defined.

Lemma XdpIfpInterfaceWorker_delete_pending_witness :
  exists s' X',
    XdpIfpInterfaceWorker 0 2%nat [DeleteWorkItem] state_removed_held
      = Done tt s' /\
    IfPool s' !! 2%nat = Some X' /\ ReferenceCount X' = 1 /\
    XdpIfInterfaceContext X' = None /\
    XdpIfCreateRxQueue open_env 2%nat 1%nat s'
      = Done (STATUS_DELETE_PENDING, None, None) s' /\
    XdpIfRegisterClient 2%nat (client 3) (Some [9; 9; 9; 9]) 22%nat s'
      = Done STATUS_DELETE_PENDING s'.
Proof.
  destruct (XdpIfpInterfaceWorker_delete_pending 0 state_removed_held 2%nat
              (set_ReferenceCount 3 removed_native) 3 eq_refl)
    as (s' & X' & Hrun & Hifs & _ & _ & Hrc & _ & Hclosed & _ & Hq & Hreg).
  - split_and!.
    + intros _. split; [intros [? H]; discriminate H | intros n H; discriminate H].
    + apply NoDup_nil_2.
    + intros c Hc. by apply elem_of_nil in Hc.
    + reflexivity.
    + reflexivity.
  - lia.
  - simpl. lia.
  - exists s', X'. split; [exact Hrun|]. split.
    + rewrite Hifs. apply lookup_insert_eq.
    + split; [exact Hrc|]. split; [apply (Hclosed eq_refl)|].
      split; [apply Hq|]. apply Hreg; [discriminate | reflexivity].
Defined.

Lemma generic_attachment_ok : attachment_ok state 1%nat generic.
Proof.
  split; [intros _; simpl; eauto|].
  intros n [= <-]. exists nmr, 50%nat. split; [reflexivity|].
  split; [reflexivity|]. intros _. split; [reflexivity | simpl; eauto].
Defined.

Lemma XdpIfDeleteQueue_outcomes_witness :
  XdpIfDeleteRxQueue 2%nat 60%nat state = Stop InvalidAccess /\
  (exists s' X',
     XdpIfDeleteTxQueue 1%nat 62%nat state_two_queues = Done tt s' /\
     IfPool s' !! 1%nat = Some X' /\ ProviderReference X' = 1 /\
     Trace s' = [EvDeleteTxQueue 62%nat]) /\
  (exists s' X',
     XdpIfDeleteRxQueue 1%nat 60%nat state = Done tt s' /\
     IfPool s' !! 1%nat = Some X' /\
     InterfaceContext X' = None /\ Nmr X' = None /\ ProviderReference X' = 0).
Proof.
  split; [|split].
  - by apply (XdpIfDeleteQueue_outcomes state 2%nat native 60%nat eq_refl).
  - destruct (XdpIfDeleteQueue_outcomes state_two_queues 1%nat
                (set_ProviderReference 2 generic) 62%nat eq_refl)
      as (_ & Hkeep & _).
    destruct Hkeep as [_ Htx]; [simpl; eauto | simpl; unfold UINT32_MAX; lia |].
    eexists _, _. split; [exact Htx|]. split; [apply lookup_insert_eq|].
    split; reflexivity.
  - destruct (XdpIfDeleteQueue_outcomes state 1%nat generic 60%nat eq_refl)
      as (_ & _ & Hlast).
    destruct Hlast as (Hctx & Hnmr & Hpr & _ & (s' & Hrun & Hifs & _) & _);
      [simpl; eauto | reflexivity | exact generic_attachment_ok
      | split; reflexivity |].
    exists s'. eexists. split; [exact Hrun|].
    split; [rewrite Hifs; apply lookup_insert_eq|].
    split; [exact Hctx|]. split; [exact Hnmr | exact Hpr].
Defined.

Lemma XdpIfCreateQueue_then_delete_witness :
  XdpIfCreateRxQueue open_env 1%nat 0%nat state
    = Done (STATUS_NO_MEMORY, None, None) state /\
  exists s1,
    XdpIfCreateTxQueue open_env 1%nat 1%nat state
      = Done (STATUS_SUCCESS, Some 62%nat, Some 63%nat) s1 /\
    XdpIfDeleteTxQueue 1%nat 62%nat s1
      = Done tt (with_trace [EvDeleteTxQueue 62%nat] state).
Proof.
  destruct (XdpIfCreateQueue_then_delete open_env state 1%nat generic dispatch
              1%nat eq_refl eq_refl) as [_ Htx];
    [simpl; eauto | reflexivity | simpl; unfold UINT32_MAX; lia |].
  destruct (XdpIfCreateQueue_then_delete open_env state 1%nat generic dispatch
              0%nat eq_refl eq_refl) as [Hrx _];
    [simpl; eauto | reflexivity | simpl; unfold UINT32_MAX; lia |].
  split.
  - by apply (Hrx STATUS_NO_MEMORY None None eq_refl).
  - destruct (Htx STATUS_SUCCESS (Some 62%nat) (Some 63%nat) eq_refl) as [_ Hok].
    destruct Hok as (s1 & X1 & Hrun & _ & _ & Hdel);
      [reflexivity | eauto | eauto |].
    exists s1. split; [exact Hrun | apply Hdel].
Defined.

Lemma XdpIfFindClientEntry_first_witness :
  XdpIfFindClientEntry 1%nat (client 2) [1; 2; 3; 4] state
    = Done (Some 21%nat) state /\
  XdpIfFindClientEntry 1%nat (client 3) [1; 2; 3; 4] state = Done None state.
Proof.
  split.
  - destruct (XdpIfFindClientEntry_first state 1%nat generic (client 2)
                [1; 2; 3; 4] eq_refl generic_clients_registered)
      as (r & Hrun & _ & Hfirst & _).
    rewrite Hrun. f_equal. apply (Hfirst [20%nat] 21%nat []); [reflexivity| |].
    + eexists _, _, _. repeat split; reflexivity.
    + intros c' ->%list_elem_of_singleton
        (C & cl & k & HC & Hcl & Hk & Hid & _).
      injection HC as <-. injection Hcl as <-. discriminate Hid.
  - destruct (XdpIfFindClientEntry_first state 1%nat generic (client 3)
                [1; 2; 3; 4] eq_refl generic_clients_registered)
      as (r & Hrun & Hnone & _).
    rewrite Hrun. f_equal. apply Hnone.
    intros c [->|[->|[]%elem_of_nil]%elem_of_cons]%elem_of_cons
      (C & cl & k & HC & Hcl & Hk & Hid & _);
      injection HC as <-; injection Hcl as <-; discriminate Hid.
Defined.


Lemma XdpIfDereferenceBinding_after_find_witness :
  XdpIfDereferenceBinding 2%nat (referenced state 2%nat native) = Done tt state.
Proof.
  apply (XdpIfDereferenceBinding_after_find state (referenced state 2%nat native)
           7 [hook_rx] None 2%nat native).
  - vm_compute. reflexivity.
  - reflexivity.
  - split; reflexivity.
Defined.

Lemma XdpValidateCapabilitiesEx_covers_versions_witness :
  44 + (3 + 1) * 12 <= 92 /\ XdpValidateCapabilitiesEx blob 100 = true.
Proof.
  destruct (XdpValidateCapabilitiesEx_covers_versions blob 92) as [Hin Hmono];
    [simpl; lia | simpl; lia | simpl; lia | reflexivity |].
  split.
  - apply (Hin 3). simpl. lia.
  - apply Hmono. lia.
Defined.

Lemma XdpIfpSupportsHookIds_subset_witness :
  XdpIfpSupportsHookIds (Capabilities native) [hook_tx; hook_rx] = true /\
  ~ (forall Target, Target ∈ [hook_tx] -> Target ∈ Hooks (Capabilities generic)).
Proof.
  split.
  - apply (XdpIfpSupportsHookIds_subset (Capabilities native) [hook_tx; hook_rx]).
    intros Target [->|[->|[]%elem_of_nil]%elem_of_cons]%elem_of_cons;
      [right; left | left].
  - intros Hall.
    apply (XdpIfpSupportsHookIds_subset (Capabilities generic) [hook_tx]) in Hall.
    discriminate Hall.
Defined.

Lemma XdpIfpOpenInterface_success_witness :
  exists s',
    XdpIfpOpenInterface open_env 2%nat state = Done STATUS_SUCCESS s' /\
    XdpGetDriverApiVersion 2%nat s' = Done (version 1 1 0) s' /\
    Trace s' = [EvOpenInterface (Some 30%nat)].
Proof.
  destruct (XdpIfpOpenInterface_success open_env state 2%nat native
              [version 2 0 0; version 1 0 0] (version 1 1 0) [version 1 2 0]
              STATUS_SUCCESS 51%nat STATUS_SUCCESS (Some 30%nat) dispatch eq_refl)
    as (s' & Hrun & _ & _ & _ & Htr & _ & _ & _ & Hver).
  - split; simpl; lia.
  - reflexivity.
  - reflexivity.
  - reflexivity.
  - reflexivity.
  - intros w [->|[->|[]%elem_of_nil]%elem_of_cons]%elem_of_cons.
    + intros [[Hmajor _] _]. discriminate Hmajor.
    + intros [_ Hget]. discriminate Hget.
  - repeat split; simpl; lia.
  - reflexivity.
  - intros f [= <-]. reflexivity.
  - simpl. unfold LONG_MAX. lia.
  - exists s'. split; [exact Hrun|]. split; [exact Hver | exact Htr].
Defined.

Lemma XdpIfpOpenInterface_early_failure_witness :
  XdpIfpOpenInterface open_env_no_memory 2%nat state
    = Done STATUS_NO_MEMORY state /\
  XdpIfpOpenInterface open_env_no_provider 2%nat state
    = Done STATUS_NOT_SUPPORTED state.
Proof.
  assert (Hhdr : header_ok native) by (split; simpl; lia).
  split.
  - destruct (XdpIfpOpenInterface_early_failure open_env_no_memory state 2%nat
                native eq_refl eq_refl) as (_ & Hmem & _);
      [split; reflexivity|].
    by apply Hmem.
  - destruct (XdpIfpOpenInterface_early_failure open_env_no_provider state 2%nat
                native eq_refl eq_refl) as (_ & _ & Hprov);
      [split; reflexivity|].
    by apply (Hprov Hhdr eq_refl STATUS_NOT_SUPPORTED 0%nat).
Defined.

Lemma generic_rundown_ready s :
  ClientEntries s = ClientEntries state ->
  rundown_ready s 1%nat generic 2.
Proof.
  intros He. split_and!.
  - intros Hpr. discriminate Hpr.
  - apply (bool_decide_unpack _). reflexivity.
  - intros c [->|[->|[]%elem_of_nil]%elem_of_cons]%elem_of_cons;
      rewrite He; vm_compute; eauto.
  - reflexivity.
  - reflexivity.
Defined.

Lemma XdpIfpInterfaceNmrDelete_then_last_queue_witness :
  exists s1 s2 X2,
    XdpIfpInterfaceNmrDelete 2 40%nat state_notified = Done tt s1 /\
    XdpIfCreateRxQueue open_env 1%nat 1%nat s1
      = Done (STATUS_DELETE_PENDING, None, None) s1 /\
    XdpIfDeleteRxQueue 1%nat 60%nat s1 = Done tt s2 /\
    IfPool s2 !! 1%nat = Some X2 /\ Rundown X2 = 0 /\
    NmrPool s2 !! 40%nat = None /\
    Trace s2 =
      [EvBindingDetached 20%nat; EvBindingDetached 21%nat;
       EvDeleteRxQueue 60%nat; EvCloseInterface (Some 30%nat);
       EvXdpCloseProvider 50%nat; EvXdpCleanupProvider 50%nat].
Proof.
  destruct (XdpIfpInterfaceNmrDelete_then_last_queue 2 state_notified 1%nat
              generic 40%nat nmr_detached 50%nat 30%nat dispatch 2 60%nat
              eq_refl eq_refl eq_refl eq_refl eq_refl eq_refl eq_refl eq_refl
              eq_refl eq_refl eq_refl
              (generic_rundown_ready state_notified eq_refl))
    as (s1 & X1 & s2 & X2 & Hrun & _ & _ & _ & _ & _ & Hq & Hdel & HX2 & Hrd
        & _ & _ & _ & _ & _ & Hnm & Htr).
  - lia.
  - simpl. lia.
  - exists s1, s2, X2. split; [exact Hrun|]. split; [apply Hq|].
    split; [exact Hdel|]. split; [exact HX2|]. split; [exact Hrd|].
    split; [rewrite Hnm; apply lookup_delete_eq | exact Htr].
Defined.

Lemma XdpIfpDetachNmrInterface_then_worker_witness :
  exists s0 s1 X1,
    XdpIfpDetachNmrInterface 40%nat state = Done tt s0 /\
    XdpIfpInterfaceWorker 2 1%nat [NmrWorkItem 40%nat] s0 = Done tt s1 /\
    IfPool s1 !! 1%nat = Some X1 /\
    NmrDeleting X1 = true /\ Clients X1 = [] /\ ReferenceCount X1 = 1 /\
    Trace s1 = [EvBindingDetached 20%nat; EvBindingDetached 21%nat].
Proof.
  destruct (XdpIfpDetachNmrInterface_then_worker 2 state 1%nat generic 40%nat
              nmr [] 2)
    as (s0 & X0 & s1 & X1 & Hrun0 & _ & _ & _ & _ & _ & Hrun1 & HX1 & Hnd & Hc
        & Hrc & _ & _ & _ & _ & Htr & _).
  - repeat split; try reflexivity. simpl. eauto.
  - reflexivity.
  - reflexivity.
  - discriminate.
  - exact (generic_rundown_ready state eq_refl).
  - lia.
  - simpl. lia.
  - exists s0, s1, X1. split_and!; assumption.
Defined.

Lemma XdpIfDeleteInterfaceSet_after_remove_witness :
  exists hs s1 s2 s3,
    XdpIfAddInterfaces add_env 10%nat batch state_empty =
      Done (STATUS_SUCCESS,
            zip_with (fun h B => set_InterfaceHandle (Some h) B) hs batch) s1 /\
    XdpIfDeleteInterfaceSet 10%nat s1 = Stop FreAssert /\
    XdpIfRemoveInterfaces hs s1 = Done tt s2 /\
    XdpIfDeleteInterfaceSet 10%nat s2 = Done tt s3 /\
    IfSetPool s3 !! 10%nat = None.
Proof.
  destruct (XdpIfDeleteInterfaceSet_after_remove add_env 10%nat batch state_empty
              (ifset (None, None)) eq_refl eq_refl batch_passes)
    as (hs & s1 & s2 & s3 & Hadd & Hbusy & Hrem & Hdel & Hgone & _).
  exists hs, s1, s2, s3. split_and!; try assumption.
  apply Hbusy. discriminate.
Defined.

Lemma XdpIfInitializeClientEntry_unlinked_witness :
  exists s1,
    XdpIfInitializeClientEntry 22%nat state = Done tt s1 /\
    XdpIfDeregisterClient 1%nat 22%nat s1 = Done tt s1 /\
    XdpIfRegisterClient 1%nat (client 3) (Some [9; 9; 9; 9]) 22%nat s1
      = Done STATUS_SUCCESS
          (registered s1 1%nat generic (client 3) [9; 9; 9; 9] 22%nat).
Proof.
  destruct (XdpIfInitializeClientEntry_unlinked state 1%nat 22%nat fresh_entry
              eq_refl) as (s1 & Hrun & _ & _ & _ & Hder & Hreg).
  exists s1. split; [exact Hrun|]. split; [exact Hder|].
  apply Hreg.
  - reflexivity.
  - intros [[=]|[[=]|[]%elem_of_nil]%elem_of_cons]%elem_of_cons.
  - discriminate.
  - reflexivity.
  - exact generic_clients_registered.
  - reflexivity.
  - intros c [->|[->|[]%elem_of_nil]%elem_of_cons]%elem_of_cons
      (C & cl & k & HC & Hcl & Hk & Hid & _);
      injection HC as <-; injection Hcl as <-; discriminate Hid.
Defined.

Lemma XdpIfpOpenInterface_no_version_witness :
  exists s1 s2,
    XdpIfpOpenInterface open_env_no_version 2%nat state
      = Done STATUS_NOT_SUPPORTED s1 /\
    Trace s1 = [EvXdpCloseProvider 51%nat; EvXdpCleanupProvider 51%nat] /\
    XdpIfpInterfaceWorker 1 2%nat
      [NmrWorkItem (fresh (dom (NmrPool state)))] s1 = Done tt s2 /\
    NmrPool s2 = NmrPool state.
Proof.
  destruct (XdpIfpOpenInterface_no_version 1 open_env_no_version state 2%nat
              native [] STATUS_SUCCESS 51%nat eq_refl eq_refl eq_refl eq_refl
              eq_refl)
    as (s1 & N1 & s2 & Hrun & _ & _ & _ & _ & _ & Htr & Hwork & _ & Hnmrs & _).
  - split; simpl; lia.
  - reflexivity.
  - reflexivity.
  - reflexivity.
  - intros w _ [_ Hget]. discriminate Hget.
  - simpl. unfold LONG_MAX. lia.
  - exists s1, s2. split; [exact Hrun|]. split; [exact Htr|].
    split; [exact Hwork | exact Hnmrs].
Defined.

Lemma native_opens :
  opens_with open_env native (version 1 1 0) 51%nat (Some 30%nat) dispatch.
Proof.
  split_and!.
  - split; simpl; lia.
  - reflexivity.
  - exists STATUS_SUCCESS. split; reflexivity.
  - exists [version 2 0 0; version 1 0 0], [version 1 2 0].
    split; [reflexivity|].
    intros w [->|[->|[]%elem_of_nil]%elem_of_cons]%elem_of_cons.
    + intros [[Hmajor _] _]. discriminate Hmajor.
    + intros [_ Hget]. discriminate Hget.
  - repeat split; simpl; lia.
  - exists STATUS_SUCCESS. reflexivity.
  - intros f [= <-]. reflexivity.
Defined.

Lemma open_env_provider_ok : provider_ok open_env.
Proof.
  intros v. unfold open_env, get_dispatch. simpl.
  destruct (Minor v =? 0); simpl; [discriminate|].
  intros _. exists dispatch. split; [reflexivity | exact dispatch_in_order].
Defined.

Lemma open_env_no_version_provider_ok : provider_ok open_env_no_version.
Proof. intros v Hv. discriminate Hv. Defined.

Lemma native_negotiation_fails :
  open_fails open_env_no_version native STATUS_NOT_SUPPORTED.
Proof.
  right. right. split; [split; simpl; lia|]. split; [reflexivity|].
  exists STATUS_SUCCESS, 51%nat. split; [reflexivity|].
  right. left. split; [reflexivity|]. split; [|reflexivity].
  intros w _ [_ Hget]. discriminate Hget.
Defined.

(** C6, as stated, fails on the code: when XdpOpenProvider fails,
    XdpIfpOpenInterface reaches its Exit label with the NMR context it has
    just set up, whose reference count is 2, and frees it there, although
    neither the close path nor the detach work item has released a
    reference. *)
Lemma XdpIfpOpenInterface_frees_at_count_two :
  let n := fresh (dom (NmrPool state)) in
  exists sb N,
    XdpIfpOpenInterface_body open_env_no_provider 2%nat state
      = Done STATUS_NOT_SUPPORTED sb /\
    NmrPool sb !! n = Some N /\ NmrReferenceCount N = 2 /\
    XdpIfpOpenInterface_exit 2%nat STATUS_NOT_SUPPORTED sb = Done tt state /\
    NmrPool state !! n = None /\
    XdpIfpOpenInterface open_env_no_provider 2%nat state
      = Done STATUS_NOT_SUPPORTED state.
Proof.
  intros n.
  destruct (XdpIfpOpenInterface_provider_failure open_env_no_provider state
              2%nat native STATUS_NOT_SUPPORTED 0%nat)
    as (sb & Xb & N & Hbody & _ & _ & HN & Hc & _ & Hexit & Hfree & Hrun);
    try reflexivity.
  - split; simpl; lia.
  - split; reflexivity.
  - exists sb, N. split_and!; assumption.
Defined.

Lemma XdpIfpDereferenceNmr_two_owners_witness :
  let n := fresh (dom (NmrPool state)) in
  (exists s0 N,
     XdpIfpOpenInterface open_env 2%nat state = Done STATUS_SUCCESS s0 /\
     NmrPool s0 !! n = Some N /\ NmrReferenceCount N = 2 /\
     exists s1 N1 s2,
       XdpIfpCloseNmrInterface 2%nat s0 = Done tt s1 /\
       NmrPool s1 !! n = Some N1 /\ NmrReferenceCount N1 = 1 /\
       XdpIfpInterfaceNmrDelete 0 n s1 = Done tt s2 /\
       NmrPool s2 !! n = None) /\
  (exists s0,
     XdpIfpReferenceProvider open_env 2%nat state = Done STATUS_SUCCESS s0 /\
     exists s1 N1 s2 N2 s3,
       XdpIfpDetachNmrInterface n s0 = Done tt s1 /\
       NmrPool s1 !! n = Some N1 /\ NmrReferenceCount N1 = 2 /\
       XdpIfpInterfaceNmrDelete 0 n s1 = Done tt s2 /\
       NmrPool s2 !! n = Some N2 /\ NmrReferenceCount N2 = 1 /\
       XdpIfpCloseNmrInterface 2%nat s2 = Done tt s3 /\
       NmrPool s3 !! n = None) /\
  (exists sb Xb N,
     XdpIfpOpenInterface_body open_env_no_provider 2%nat state
       = Done STATUS_NOT_SUPPORTED sb /\
     IfPool sb !! 2%nat = Some Xb /\ Nmr Xb = Some n /\
     NmrPool sb !! n = Some N /\ NmrReferenceCount N = 2 /\
     XdpIfpOpenInterface open_env_no_provider 2%nat state
       = Done STATUS_NOT_SUPPORTED state).
Proof.
  intros n.
  destruct XdpIfpDereferenceNmr_two_owners
    as (Hopen & Hfailed & _ & Hclose_first & Hdetach_first).
  split; [|split].
  - destruct (Hopen open_env state 2%nat native (version 1 1 0) 51%nat
                (Some 30%nat) dispatch eq_refl native_opens)
      as (s0 & N & Hrun & _ & Hatt & Hc & _ & Hdet).
    { simpl. unfold LONG_MAX. lia. }
    exists s0, N. split; [exact Hrun|].
    split; [by destruct Hatt as (_ & _ & HN & _)|]. split; [exact Hc|].
    apply (Hclose_first 0%nat s0 2%nat _ _ N Hatt Hc).
    + intros _. simpl. eauto.
    + simpl. unfold LONG_MAX. lia.
  - pose proof (XdpIfpReferenceProvider_opens open_env state 2%nat native
                  (version 1 1 0) 51%nat (Some 30%nat) dispatch eq_refl eq_refl
                  eq_refl native_opens) as Href.
    eexists. split; [apply Href; simpl; unfold LONG_MAX; lia|].
    eapply (Hdetach_first 0%nat _ 2%nat _ _ (opened_nmr 2%nat 51%nat)).
    + split_and!.
      * apply lookup_insert_eq.
      * reflexivity.
      * apply lookup_insert_eq.
      * simpl. eauto.
      * reflexivity.
    + reflexivity.
    + reflexivity.
    + simpl. eauto.
    + discriminate.
    + simpl. lia.
    + simpl. apply NoDup_nil_2.
    + intros c Hc. simpl in Hc. by apply elem_of_nil in Hc.
    + simpl. unfold LONG_MAX. lia.
  - destruct (Hfailed open_env_no_provider state 2%nat native
                STATUS_NOT_SUPPORTED 0%nat eq_refl eq_refl)
      as (sb & Xb & N & Hbody & HXb & Hn & HN & Hc & _ & _ & _ & Hrun);
      try reflexivity.
    + split; simpl; lia.
    + split; reflexivity.
    + exists sb, Xb, N. split_and!; assumption.
Defined.

Lemma XdpIfCreateQueue_provider_reference_witness :
  (exists s1 X1,
     XdpIfCreateRxQueue open_env 2%nat 1%nat state
       = Done (STATUS_SUCCESS, Some 60%nat, Some 61%nat) s1 /\
     IfPool s1 !! 2%nat = Some X1 /\
     ProviderReference X1 = 1 /\ InterfaceContext X1 = Some 30%nat /\
     InterfaceDispatch X1 = Some dispatch /\ is_Some (Nmr X1) /\
     Trace s1 = [EvOpenInterface (Some 30%nat)]) /\
  (exists s1 X1,
     XdpIfCreateTxQueue open_env 2%nat 0%nat state
       = Done (STATUS_NO_MEMORY, None, None) s1 /\
     IfPool s1 !! 2%nat = Some X1 /\
     ProviderReference X1 = 0 /\ InterfaceContext X1 = None /\ Nmr X1 = None /\
     Trace s1 = [EvOpenInterface (Some 30%nat); EvCloseInterface (Some 30%nat);
                 EvXdpCloseProvider 51%nat; EvXdpCleanupProvider 51%nat]) /\
  (exists s0 X0,
     XdpIfCreateRxQueue open_env_no_version 2%nat 1%nat state
       = Done (STATUS_NOT_SUPPORTED, None, None) s0 /\
     IfPool s0 !! 2%nat = Some X0 /\ ProviderReference X0 = 0) /\
  XdpIfCreateRxQueue open_env 1%nat 0%nat state
    = Done (STATUS_NO_MEMORY, None, None) state /\
  XdpIfCreateTxQueue open_env 1%nat 1%nat state
    = Done (STATUS_SUCCESS, Some 62%nat, Some 63%nat)
        (with_ifs (<[1%nat := set_ProviderReference 2 generic]> (IfPool state))
           state).
Proof.
  assert (Hrc2 : 0 < ReferenceCount native < LONG_MAX - 1)
    by (simpl; unfold LONG_MAX; lia).
  assert (Hrc1 : 0 < ReferenceCount generic < LONG_MAX - 1)
    by (simpl; unfold LONG_MAX; lia).
  assert (Hq2 : is_Some (WorkQueue native)) by (simpl; eauto).
  assert (Hq1 : is_Some (WorkQueue generic)) by (simpl; eauto).
  split_and!.
  - destruct (XdpIfCreateQueue_provider_reference RxQueue open_env state 2%nat
                native 1%nat eq_refl Hrc2 Hq2 open_env_provider_ok)
      as (_ & _ & _ & Hopens).
    destruct (Hopens (version 1 1 0) 51%nat 30%nat dispatch STATUS_SUCCESS
                (Some 60%nat) (Some 61%nat) eq_refl eq_refl eq_refl eq_refl
                native_opens eq_refl) as [Hok _].
    destruct (Hok eq_refl) as (s1 & Hrun & _ & _ & Hifs & _ & _ & Htr & _).
    exists s1. eexists. split; [exact Hrun|].
    split; [rewrite Hifs; apply lookup_insert_eq|].
    split_and!; try reflexivity; [simpl; eauto | exact Htr].
  - destruct (XdpIfCreateQueue_provider_reference TxQueue open_env state 2%nat
                native 0%nat eq_refl Hrc2 Hq2 open_env_provider_ok)
      as (_ & _ & _ & Hopens).
    destruct (Hopens (version 1 1 0) 51%nat 30%nat dispatch STATUS_NO_MEMORY
                None None eq_refl eq_refl eq_refl eq_refl
                native_opens eq_refl) as [_ Hno].
    destruct (Hno eq_refl) as (s1 & X1 & Hrun & HX1 & Hpr & Hc & Hn & Htr & _).
    exists s1, X1. split_and!; assumption.
  - destruct (XdpIfCreateQueue_provider_reference RxQueue open_env_no_version
                state 2%nat native 1%nat eq_refl Hrc2 Hq2
                open_env_no_version_provider_ok)
      as (_ & _ & Hfails & _).
    destruct (Hfails STATUS_NOT_SUPPORTED eq_refl eq_refl eq_refl eq_refl
                native_negotiation_fails)
      as (s0 & X0 & Hrun & _ & HX0 & Hpr & _).
    exists s0, X0. split_and!; assumption.
  - destruct (XdpIfCreateQueue_provider_reference RxQueue open_env state 1%nat
                generic 0%nat eq_refl Hrc1 Hq1 open_env_provider_ok)
      as (_ & Hheld & _).
    destruct (Hheld 30%nat dispatch STATUS_NO_MEMORY None None eq_refl eq_refl
                eq_refl) as [_ Hno]; [simpl; unfold UINT32_MAX; lia|reflexivity|].
    by apply Hno.
  - destruct (XdpIfCreateQueue_provider_reference TxQueue open_env state 1%nat
                generic 1%nat eq_refl Hrc1 Hq1 open_env_provider_ok)
      as (_ & Hheld & _).
    destruct (Hheld 30%nat dispatch STATUS_SUCCESS (Some 62%nat) (Some 63%nat)
                eq_refl eq_refl eq_refl) as [Hok _];
      [simpl; unfold UINT32_MAX; lia|reflexivity|].
    apply Hok; [reflexivity|simpl; eauto..].
Defined.

End Witnesses.
